(** * e-physio / GHL integration: a shallow embedding of the sync engine

    The development follows the Python sources of the repository:
    - [ephysio/utils.py]                           (Clinic-facing phone normalizer)
    - [ghl_accounts/services/contacts.py]          (token refresh, CRM phone cleaner, payload builder)
    - [ghl_accounts/services/appointments.py]      (appointment create with retry)
    - [ghl_accounts/management/commands/*.py]      (rolling rate limiter)
    - [ghl_accounts/tasks.py]                      (incremental sync tasks)
    - [ghl_accounts/views.py], [ephysio/services/patients.py] (webhook ingestion)

    Python strings are modelled as [string] (8-bit characters), [None]-able
    values as [option], dictionaries as [gmap] or association lists, Django
    tables as lists of rows whose primary key is the position in the list. *)

From Stdlib Require Import ZArith QArith Lia Lqa Bool List.
From Stdlib Require Import Strings.String Strings.Ascii Numbers.DecimalString.
From stdpp Require Import base option list gmap strings.

Local Open Scope string_scope.

(** ** Python string helpers *)

Module Py.

(** [ord('0') <= ord(c) <= ord('9')] *)
Definition is_digit (c : ascii) : bool :=
  let n := nat_of_ascii c in (48 <=? n)%nat && (n <=? 57)%nat.

(** ASCII characters for which [str.isspace] holds. *)
Definition is_space (c : ascii) : bool :=
  let n := nat_of_ascii c in
  ((9 <=? n)%nat && (n <=? 13)%nat) || ((28 <=? n)%nat && (n <=? 32)%nat).

Fixpoint str_filter (p : ascii -> bool) (s : string) : string :=
  match s with
  | EmptyString => EmptyString
  | String c r => if p c then String c (str_filter p r) else str_filter p r
  end.

Fixpoint str_forallb (p : ascii -> bool) (s : string) : bool :=
  match s with
  | EmptyString => true
  | String c r => p c && str_forallb p r
  end.

(** [s[n:]] *)
Fixpoint str_drop (n : nat) (s : string) : string :=
  match n, s with
  | O, _ => s
  | S k, EmptyString => EmptyString
  | S k, String _ r => str_drop k r
  end.

(** [s.startswith(p)] *)
Definition startswith (s p : string) : bool := String.prefix p s.

(** [s.isdigit()]: every character is a digit and there is at least one. *)
Definition isdigit (s : string) : bool :=
  negb (String.eqb s "") && str_forallb is_digit s.

(** [s.replace(c, "")] for a one-character [c]. *)
Definition remove_char (c : ascii) (s : string) : string :=
  str_filter (fun x => negb (Ascii.eqb x c)) s.

Fixpoint lstrip (s : string) : string :=
  match s with
  | EmptyString => EmptyString
  | String c r => if is_space c then lstrip r else s
  end.

Fixpoint rstrip (s : string) : string :=
  match s with
  | EmptyString => EmptyString
  | String c r =>
      match rstrip r with
      | EmptyString => if is_space c then EmptyString else String c EmptyString
      | r' => String c r'
      end
  end.

(** [s.strip()] *)
Definition strip (s : string) : string := rstrip (lstrip s).

(** Truthiness of an optional string: [None] and [""] are falsy. *)
Definition truthy (o : option string) : bool :=
  match o with
  | Some s => negb (String.eqb s "")
  | None => false
  end.

(** [x is None] *)
Definition is_None {A} (o : option A) : bool :=
  match o with Some _ => false | None => true end.

(** [x or None] for a string-or-None value. *)
Definition or_None (o : option string) : option string :=
  if truthy o then o else None.

(** [s.zfill(width)]: left-pad with zeros, after a leading sign if any. *)
Fixpoint zeros (n : nat) : string :=
  match n with
  | O => EmptyString
  | S k => String "0" (zeros k)
  end.

Definition zfill (width : nat) (s : string) : string :=
  let n := String.length s in
  if (width <=? n)%nat then s
  else
    match s with
    | String c r =>
        if Ascii.eqb c "+" || Ascii.eqb c "-"
        then String c (zeros (width - n) ++ r)
        else zeros (width - n) ++ s
    | EmptyString => zeros (width - n)
    end.

(** [s.split(sep)] for a one-character separator: never empty. *)
Fixpoint split (sep : ascii) (s : string) : list string :=
  match s with
  | EmptyString => [EmptyString]
  | String c r =>
      if Ascii.eqb c sep then EmptyString :: split sep r
      else
        match split sep r with
        | p :: ps => String c p :: ps
        | [] => [String c EmptyString]
        end
  end.

End Py.

(** ** [ephysio/utils.py] *)

Definition normalize_phone (phone : option string) : option string :=
  if negb (Py.truthy phone) then None
  else
    let phone := default "" phone in
    (* re.sub(r"[^\d+]", "", phone) *)
    let phone := Py.str_filter (fun c => Py.is_digit c || Ascii.eqb c "+") phone in
    let phone := if Py.startswith phone "+" then Py.str_drop 1 phone else phone in
    let phone := if Py.startswith phone "41" then Py.str_drop 2 phone else phone in
    let phone := if negb (Py.startswith phone "0") then "0" ++ phone else phone in
    Some phone.

(** ** [ghl_accounts/services/contacts.py]: phone cleaning *)

Definition validate_and_clean_phone (phone : option string) : option string :=
  if negb (Py.truthy phone) then None
  else
    let phone := default "" phone in
    let phone :=
      Py.remove_char ")" (Py.remove_char "(" (Py.remove_char "-"
        (Py.remove_char " " (Py.strip phone)))) in
    if Py.startswith phone "+" then
      if (1 <? String.length phone)%nat
         && Py.isdigit (Py.remove_char " " (Py.str_drop 1 phone))
      then Some phone else None
    else if Py.startswith phone "00" then Some ("+" ++ Py.str_drop 2 phone)
    else if Py.startswith phone "41" && (10 <=? String.length phone)%nat
      then Some ("+" ++ phone)
    else if Py.startswith phone "0" && (10 <=? String.length phone)%nat
      then Some ("+41" ++ Py.str_drop 1 phone)
    else if Py.isdigit phone && (10 <=? String.length phone)%nat then Some phone
    else None.

(** ** [ghl_accounts/models.py]

    The auto-managed timestamps ([last_synced_at], [created_at]) are left
    out: no decision of the sync engine reads them.  A table is the list of
    its rows; the row at position [i] has primary key [S i] (rows are never
    deleted by the engine).  A model instance held in memory carries its
    primary key, [None] while it is unsaved.  Of the column constraints the
    [unique] and [NOT NULL] ones are modelled where a write can meet them;
    [max_length] is not (the default SQLite backend does not enforce it). *)

Module ContactSync.
Record t := mk {
  ghl_contact_id : option string;
  ephysio_patient_id : option string;
  email : option string;
  phone : option string;
  first_name : option string;
  last_name : option string;
  salutation : option string;
  street : option string;
  zip : option string;
  city : option string;
  birth_date : option string;
  sex : option bool;
  source : string
}.

Definition set_ghl_contact_id (v : option string) (c : t) : t :=
  mk v (ephysio_patient_id c) (email c) (phone c) (first_name c)
     (last_name c) (salutation c) (street c) (zip c) (city c)
     (ContactSync.birth_date c) (sex c) (source c).

Definition set_ephysio_patient_id (v : option string) (c : t) : t :=
  mk (ghl_contact_id c) v (email c) (phone c) (first_name c)
     (last_name c) (salutation c) (street c) (zip c) (city c)
     (ContactSync.birth_date c) (sex c) (source c).
End ContactSync.

Module AppointmentSync.
Record t := mk {
  ghl_appointment_id : option string;
  ghl_contact_id : option string;
  ephysio_patient_id : option string;
  ephysio_appointment_id : option string;
  start_time : Z;
  end_time : Z;
  status : option string;
  event_type_id : option Z;
  user_id : option Z;
  client_id : option Z;
  admin_info_id : option Z;
  source : string
}.

Definition set_ghl_appointment_id (v : option string) (a : t) : t :=
  mk v (ghl_contact_id a) (ephysio_patient_id a) (ephysio_appointment_id a)
     (start_time a) (end_time a) (status a) (event_type_id a) (user_id a)
     (client_id a) (admin_info_id a) (source a).
End AppointmentSync.

Module GHLAuthCredentials.
Record t := mk {
  user_id : option string;
  access_token : option string;
  refresh_token : option string;
  expires_in : option Z;
  scope : option string;
  user_type : option string;
  company_id : option string;
  location_id : option string
}.
End GHLAuthCredentials.

(** [ephysio/models.py] *)
Module EPhysioAuth.
Record t := mk {
  token : string;
  crypto_key : string;
  practice_id : string;
  expires_at : option Z
}.
End EPhysioAuth.

(** A model instance in memory: the row's values and its primary key. *)
Record Instance (R : Type) := mkInstance { pk : option nat; row : R }.
Arguments mkInstance {R} _ _.
Arguments pk {R} _.
Arguments row {R} _.

(** [Model.objects.all()], in primary-key order. *)
Definition objects_all {R} (table : list R) : list (Instance R) :=
  imap (fun i r => mkInstance (Some (S i)) r) table.

(** [UPDATE ... WHERE id = k] *)
Definition table_update {R} (k : nat) (f : R -> R) (table : list R) : list R :=
  match k with
  | O => table
  | S i => alter f i table
  end.

(** [SELECT ... WHERE id = k] *)
Definition table_get {R} (k : nat) (table : list R) : option R :=
  match k with
  | O => None
  | S i => table !! i
  end.

(** ** Run-time model: JSON values, exceptions, the outside world *)

#[local] Unset Elimination Schemes.
Inductive jval :=
| JNull
| JBool (b : bool)
| JNum (n : Z)
| JStr (s : string)
| JArr (l : list jval)
| JObj (o : list (string * jval)).
#[local] Set Elimination Schemes.

(** A Python [dict] with string keys holding parsed JSON. *)
Abbreviation dict := (list (string * jval)).

(** [d.get(k)] *)
Fixpoint dict_get (k : string) (d : dict) : option jval :=
  match d with
  | [] => None
  | (k', v) :: d' => if String.eqb k k' then Some v else dict_get k d'
  end.

(** [k in d] *)
Definition dict_has (k : string) (d : dict) : bool :=
  match dict_get k d with Some _ => true | None => false end.

(** [bool(v)] *)
Definition jtruthy (v : jval) : bool :=
  match v with
  | JNull => false
  | JBool b => b
  | JNum n => negb (n =? 0)%Z
  | JStr s => negb (String.eqb s "")
  | JArr l => match l with [] => false | _ => true end
  | JObj o => match o with [] => false | _ => true end
  end.

(** Truthiness of [d.get(k)]. *)
Definition get_truthy (o : option jval) : bool :=
  match o with Some v => jtruthy v | None => false end.

Definition str_of_Z (n : Z) : string := NilZero.string_of_int (Z.to_int n).

(** [str(v)] on scalars; the [repr] of a container is not spelled out. *)
Definition py_str (v : jval) : string :=
  match v with
  | JNull => "None"
  | JBool true => "True"
  | JBool false => "False"
  | JNum n => str_of_Z n
  | JStr s => s
  | JArr _ => "[...]"
  | JObj _ => "{...}"
  end.

(** A key of a JSON object as the code tells its states apart:
    [d.get(k, default)] gives [default] only when the key is absent. *)
Inductive field (A : Type) := Absent | Null | Val (a : A).
Arguments Absent {A}.
Arguments Null {A}.
Arguments Val {A} _.

(** [d.get(k)] *)
Definition field_get {A} (f : field A) : option A :=
  match f with Val a => Some a | _ => None end.

(** [d.get(k, default)] *)
Definition field_get_default {A} (f : field A) (dflt : option A) : option A :=
  match f with Absent => dflt | Null => None | Val a => Some a end.

(** The reply of the CRM's [oauth/token] endpoint. *)
Module TokenData.
Record t := mk {
  access_token : field string;
  refresh_token : field string;
  expires_in : field Z;
  scope : field string;
  userType : field string;
  companyId : field string;
  userId : field string;
  locationId : field string
}.
End TokenData.

(** A Clinic patient as returned by [GET /patients]: the values the code
    reads with [patient.get]. *)
Inductive pyid := IdNone | IdInt (n : Z) | IdStr (s : string).

(** [str(x)] for an identifier that is absent/null, a number or a string. *)
Definition str_of_id (x : pyid) : string :=
  match x with
  | IdNone => "None"
  | IdInt n => str_of_Z n
  | IdStr s => s
  end.

Module Patient.
Record t := mk {
  id : pyid;
  phone : option string;
  email : option string;
  firstName : option string;
  lastName : option string;
  salutation : option string;
  street : option string;
  zip : option string;
  city : option string;
  birthDate : option string;
  sex : option bool
}.
End Patient.

(** A Clinic appointment as returned by [GET /events/events]; [status] is
    [None] when the key is absent. *)
Module Event.
Record t := mk {
  id : pyid;
  patientId : pyid;
  start : option Z;
  end_ : option Z;
  status : option pyid;
  eventTypeId : option Z;
  user_id : option Z;
  clientId : option Z;
  adminInfoId : option Z
}.
End Event.

(** The Clinic's login reply ([POST /token]). *)
Module LoginData.
Record t := mk {
  token : string;
  key : string;
  id : string;
  exp : option Z
}.
End LoginData.

(** What [response.json()] gives, by endpoint. *)
Inductive body :=
| BDict (d : dict)
| BToken (t : TokenData.t)
| BPatients (l : list Patient.t)
| BEvents (l : list Event.t)
| BLogin (l : LoginData.t).

Inductive exn :=
| Timeout (msg : string)
| ConnectionError (msg : string)
| HTTPError (status : Z)
| JSONDecodeError
| ValueError (msg : string)
| AttributeError
| KeyError
| IntegrityError.

(** [str(e)] *)
Definition exn_str (e : exn) : string :=
  match e with
  | Timeout m => m
  | ConnectionError m => m
  | HTTPError st => str_of_Z st ++ " Error"
  | JSONDecodeError => "Expecting value"
  | ValueError m => m
  | AttributeError => "object has no attribute"
  | KeyError => "key"
  | IntegrityError => "constraint failed"
  end.

(** [isinstance(e, requests.exceptions.RequestException)] *)
Definition is_request_exception (e : exn) : bool :=
  match e with
  | Timeout _ | ConnectionError _ | HTTPError _ | JSONDecodeError => true
  | _ => false
  end.

(** An HTTP response; [json = None] when [response.json()] raises. *)
Record Response := mkResponse {
  status_code : Z;
  text : string;
  json : option body
}.

(** What the network does with one request. *)
Inductive reply :=
| Answer (r : Response)
| Fails (e : exn).

Inductive event :=
| Http (method url : string)
| Sleep (seconds : Z)
| CallCreateGhlAppointment (appt : Instance AppointmentSync.t).

(** The store and the outside world.  [network] lists the replies the next
    HTTP requests will get, in order; [trace] records requests, sleeps and
    CRM appointment-create calls, oldest first. *)
Record World := mkWorld {
  contact_sync : list ContactSync.t;
  appointment_sync : list AppointmentSync.t;
  ghl_auth : list GHLAuthCredentials.t;
  ephysio_auth : list EPhysioAuth.t;
  network : list reply;
  trace : list event
}.

Definition set_contact_sync (t : list ContactSync.t) (w : World) : World :=
  mkWorld t (appointment_sync w) (ghl_auth w) (ephysio_auth w) (network w)
    (trace w).
Definition set_appointment_sync (t : list AppointmentSync.t) (w : World)
  : World :=
  mkWorld (contact_sync w) t (ghl_auth w) (ephysio_auth w) (network w)
    (trace w).
Definition set_ghl_auth (t : list GHLAuthCredentials.t) (w : World) : World :=
  mkWorld (contact_sync w) (appointment_sync w) t (ephysio_auth w) (network w)
    (trace w).
Definition set_ephysio_auth (t : list EPhysioAuth.t) (w : World) : World :=
  mkWorld (contact_sync w) (appointment_sync w) (ghl_auth w) t (network w)
    (trace w).
Definition set_network (n : list reply) (w : World) : World :=
  mkWorld (contact_sync w) (appointment_sync w) (ghl_auth w) (ephysio_auth w)
    n (trace w).
Definition log (e : event) (w : World) : World :=
  mkWorld (contact_sync w) (appointment_sync w) (ghl_auth w) (ephysio_auth w)
    (network w) (trace w ++ [e]).

(** *** A state-and-exception monad for the Python code *)

Inductive outcome (A : Type) :=
| Ok (a : A)
| Raise (e : exn).
Arguments Ok {A} _.
Arguments Raise {A} _.

Definition M (A : Type) : Type := World -> outcome A * World.

#[global] Instance M_ret : MRet M := fun A a w => (Ok a, w).
#[global] Instance M_bind : MBind M := fun A B f m w =>
  match m w with
  | (Ok a, w') => f a w'
  | (Raise e, w') => (Raise e, w')
  end.

Definition raise {A} (e : exn) : M A := fun w => (Raise e, w).
Definition get_world : M World := fun w => (Ok w, w).
Definition modify (f : World -> World) : M unit := fun w => (Ok tt, f w).

(** [try: m  except <handled>: h e].  [handler e = None] when no [except]
    clause matches [e], which then propagates. *)
Definition try_except {A} (m : M A) (handler : exn -> option (M A)) : M A :=
  fun w =>
    match m w with
    | (Ok a, w') => (Ok a, w')
    | (Raise e, w') =>
        match handler e with
        | Some h => h w'
        | None => (Raise e, w')
        end
    end.

(** [with transaction.atomic(): m]: the tables are rolled back when [m]
    raises; what happened on the network stays. *)
Definition atomic {A} (m : M A) : M A :=
  fun w =>
    match m w with
    | (Ok a, w') => (Ok a, w')
    | (Raise e, w') =>
        (Raise e,
         mkWorld (contact_sync w) (appointment_sync w) (ghl_auth w)
           (ephysio_auth w) (network w') (trace w'))
    end.

(** [requests.<method>(url, ...)]: logs the request and takes the next
    reply; a network with nothing left to say refuses the connection. *)
Definition request (method url : string) : M Response :=
  fun w =>
    let w := log (Http method url) w in
    match network w with
    | [] => (Raise (ConnectionError "connection refused"), w)
    | Answer r :: rest => (Ok r, set_network rest w)
    | Fails e :: rest => (Raise e, set_network rest w)
    end.

(** [time.sleep(seconds)] *)
Definition time_sleep (seconds : Z) : M unit := modify (log (Sleep seconds)).

(** [response.json()] *)
Definition response_json (r : Response) : M body :=
  match json r with
  | Some b => mret b
  | None => raise JSONDecodeError
  end.

(** [response.raise_for_status()] *)
Definition raise_for_status (r : Response) : M unit :=
  if (400 <=? status_code r)%Z && (status_code r <? 600)%Z
  then raise (HTTPError (status_code r)) else mret tt.

(** ** [ghl_accounts/services/contacts.py]: credentials *)

Definition GHL_BASE_URL := "https://services.leadconnectorhq.com".
Definition TOKEN_URL := "https://services.leadconnectorhq.com/oauth/token".

(** [auth.save()]: the three token columns are [NOT NULL]. *)
Definition save_ghl_auth (auth : Instance GHLAuthCredentials.t) : M unit :=
  match pk auth with
  | None => raise (ValueError "unsaved instance")
  | Some k =>
      if Py.is_None (GHLAuthCredentials.access_token (row auth))
         || Py.is_None (GHLAuthCredentials.refresh_token (row auth))
         || Py.is_None (GHLAuthCredentials.expires_in (row auth))
      then raise IntegrityError
      else modify (fun w =>
             set_ghl_auth (table_update k (fun _ => row auth) (ghl_auth w)) w)
  end.

Definition refresh_ghl_token : M (bool * string) :=
  w ← get_world;
  match head (objects_all (ghl_auth w)) with
  | None => mret (false, "No authentication credentials found")
  | Some auth =>
      let a := row auth in
      if negb (Py.truthy (GHLAuthCredentials.refresh_token a))
      then mret (false, "No refresh token available")
      else
        try_except
          (response ← request "POST" TOKEN_URL;
           if negb (status_code response =? 200)%Z
           then mret (false,
                      "Token refresh failed: "
                      ++ str_of_Z (status_code response) ++ " - "
                      ++ text response)
           else
             b ← response_json response;
             match b with
             | BToken response_data =>
                 let a1 :=
                   GHLAuthCredentials.mk
                     (if Py.truthy (field_get (TokenData.userId response_data))
                      then field_get (TokenData.userId response_data)
                      else GHLAuthCredentials.user_id a)
                     (field_get (TokenData.access_token response_data))
                     (field_get_default (TokenData.refresh_token response_data)
                        (GHLAuthCredentials.refresh_token a))
                     (field_get_default (TokenData.expires_in response_data)
                        (GHLAuthCredentials.expires_in a))
                     (if Py.truthy (field_get (TokenData.scope response_data))
                      then field_get (TokenData.scope response_data)
                      else GHLAuthCredentials.scope a)
                     (if Py.truthy (field_get (TokenData.userType response_data))
                      then field_get (TokenData.userType response_data)
                      else GHLAuthCredentials.user_type a)
                     (if Py.truthy (field_get (TokenData.companyId response_data))
                      then field_get (TokenData.companyId response_data)
                      else GHLAuthCredentials.company_id a)
                     (if Py.truthy (field_get (TokenData.locationId response_data))
                      then field_get (TokenData.locationId response_data)
                      else GHLAuthCredentials.location_id a) in
                 save_ghl_auth (mkInstance (pk auth) a1);;
                 mret (true, "Token refreshed successfully")
             | _ => raise AttributeError
             end)
          (fun e =>
             if is_request_exception e
             then Some (mret (false, "Network error: " ++ exn_str e))
             else Some (mret (false, "Unexpected error: " ++ exn_str e)))
  end.

Definition get_ghl_auth : M (option string * option string) :=
  w ← get_world;
  match head (ghl_auth w) with
  | None => mret (None, None)
  | Some auth =>
      if negb (Py.truthy (GHLAuthCredentials.location_id auth))
      then mret (None, None)
      else mret (GHLAuthCredentials.access_token auth,
                 GHLAuthCredentials.location_id auth)
  end.

(** The headers carry nothing the replies depend on; only the check stays. *)
Definition get_ghl_headers : M unit :=
  '(access_token, location_id) ← get_ghl_auth;
  if negb (Py.truthy access_token)
  then raise (ValueError
    "GHL access token not available. Please authenticate first.")
  else mret tt.

(** ** [ghl_accounts/services/contacts.py]: payload builder *)

(** The conversion of the stored birth date, [None] when the value is falsy
    or does not split into exactly three parts. *)
Definition date_of_birth (birth_date : option string) : option string :=
  if Py.truthy birth_date then
    match Py.split "." (default "" birth_date) with
    | [day; month; year] =>
        Some (year ++ "-" ++ Py.zfill 2 month ++ "-" ++ Py.zfill 2 day)
    | _ => None
    end
  else None.

Definition build_ghl_contact_payload (contact_sync : ContactSync.t)
  : gmap string string :=
  let first_name := default "" (Py.or_None (ContactSync.first_name contact_sync)) in
  let last_name := default "" (Py.or_None (ContactSync.last_name contact_sync)) in
  let full_name :=
    let n := Py.strip (first_name ++ " " ++ last_name) in
    if String.eqb n "" then "Unknown" else n in
  let date_of_birth := date_of_birth (ContactSync.birth_date contact_sync) in
  let phone :=
    if Py.truthy (ContactSync.phone contact_sync)
    then validate_and_clean_phone (ContactSync.phone contact_sync) else None in
  let payload : gmap string (option string) :=
    <["postalCode" := Py.or_None (ContactSync.zip contact_sync)]>
    (<["city" := Py.or_None (ContactSync.city contact_sync)]>
    (<["address1" := Py.or_None (ContactSync.street contact_sync)]>
    (<["email" := Py.or_None (ContactSync.email contact_sync)]>
    (<["name" := Some full_name]>
    (<["lastName" := Some last_name]>
    (<["firstName" := Some first_name]> ∅)))))) in
  let payload :=
    if Py.truthy phone then <["phone" := phone]> payload else payload in
  let payload :=
    if Py.truthy date_of_birth
    then <["dateOfBirth" := date_of_birth]> payload else payload in
  (* {k: v for k, v in payload.items() if v is not None} *)
  omap id payload.

(** A birth date in the stored source format: two digits, a dot, two digits,
    a dot, four digits. *)
Definition is_ddmmyyyy (s : string) : bool :=
  match s with
  | String d1 (String d2 (String p1 (String m1 (String m2 (String p2
      (String y1 (String y2 (String y3 (String y4 EmptyString))))))))) =>
      Py.is_digit d1 && Py.is_digit d2 && Ascii.eqb p1 "."
      && Py.is_digit m1 && Py.is_digit m2 && Ascii.eqb p2 "."
      && Py.is_digit y1 && Py.is_digit y2 && Py.is_digit y3 && Py.is_digit y4
  | _ => false
  end.

(** [YYYY-MM-DD] read off a [DD.MM.YYYY] string. *)
Definition iso_of_ddmmyyyy (s : string) : string :=
  String.substring 6 4 s ++ "-" ++ String.substring 3 2 s ++ "-"
    ++ String.substring 0 2 s.

Definition contact_with_birth_date (bd : option string) : ContactSync.t :=
  ContactSync.mk None None None None None None None None None None bd None
    "ephysio".

(** ** [management/commands/sync_contacts_to_ghl.py],
       [management/commands/sync_appointments_to_ghl.py]: [RateLimiter]

    Both commands carry the same class.  Time is a rational number of
    seconds; [time.sleep d] advances the logical clock by [d].  [wait] runs
    under the limiter's lock, so whatever the number of workers, the calls
    are totally ordered: a run is a sequence of calls, each preceded by the
    time that passed outside the limiter since the previous one. *)

Module RateLimiter.

Record t := mk {
  max_calls : nat;
  min_interval : Q;
  last_called : list Q;
  index : nat
}.

(** [RateLimiter(max_calls_per_second)] *)
Definition init (max_calls_per_second : nat) : t :=
  {| max_calls := max_calls_per_second;
     min_interval := 1 / inject_Z (Z.of_nat max_calls_per_second);
     last_called := replicate max_calls_per_second 0%Q;
     index := 0 |}.

Definition sleep (d : Q) (clock : Q) : Q := Qred (clock + d).

(** [wait()] at clock [now]: the new limiter state and the clock on return,
    which is the recorded admission timestamp.  [index] stays below
    [len(last_called)], so the subscript never raises. *)
Definition wait (self : t) (now : Q) : t * Q :=
  let elapsed := (now - default 0%Q (last_called self !! index self))%Q in
  let clock :=
    if Qlt_le_dec elapsed (min_interval self)
    then sleep (min_interval self - elapsed) now
    else now in
  ({| max_calls := max_calls self;
      min_interval := min_interval self;
      last_called := <[index self := clock]> (last_called self);
      index := (index self + 1) mod max_calls self |},
   clock).

(** Successive admissions; [gaps] gives, for each call, the time elapsed
    since the previous call returned. *)
Fixpoint admissions (gaps : list Q) (self : t) (clock : Q) : list Q :=
  match gaps with
  | [] => []
  | g :: gaps' =>
      let '(self', admitted) := wait self (Qred (clock + g)) in
      admitted :: admissions gaps' self' admitted
  end.

(** Time from the first to the last admission. *)
Definition span (ts : list Q) : Q :=
  (default 0%Q (last ts) - default 0%Q (head ts))%Q.

End RateLimiter.

(** ** [ghl_accounts/services/contacts.py]: contact writes

    The request body does not influence the scripted replies; the trace
    keeps the method and the URL of each request. *)

(** The [else] branch shared by the writes: the error message is the
    [message] of the JSON body when there is one, the response text
    otherwise (the inner bare [except] swallows any failure to parse). *)
Definition error_message_of (response : Response) (error_text : string)
  : M jval :=
  try_except
    (b ← response_json response;
     match b with
     | BDict error_data =>
         mret (default (JStr error_text) (dict_get "message" error_data))
     | _ => raise AttributeError
     end)
    (fun _ => Some (mret (JStr error_text))).

(** The 2xx branch shared by the writes, for the wrapping key [key]. *)
Definition wrap_result (key : string) (response : Response) : M dict :=
  b ← response_json response;
  match b with
  | BDict result =>
      if dict_has key result then mret result
      else if dict_has "id" result then mret [(key, JObj result)]
      else mret result
  | _ => raise AttributeError
  end.

Definition create_ghl_contact (contact_data : gmap string string) : M dict :=
  '(access_token, location_id) ← get_ghl_auth;
  if negb (Py.truthy access_token) || negb (Py.truthy location_id)
  then mret [("error", JStr "Authentication not available")]
  else
    get_ghl_headers;;
    let contact_data :=
      <["locationId" := default "" location_id]> contact_data in
    try_except
      (response ← request "POST" (GHL_BASE_URL ++ "/contacts/");
       if (status_code response =? 200)%Z || (status_code response =? 201)%Z
       then wrap_result "contact" response
       else
         error_message ← error_message_of response (text response);
         mret [("error", error_message);
               ("status_code", JNum (status_code response))])
      (fun e => Some (mret [("error", JStr (exn_str e))])).

Definition update_ghl_contact (contact_id : string)
    (contact_data : gmap string string) : M dict :=
  '(access_token, location_id) ← get_ghl_auth;
  if negb (Py.truthy access_token) || negb (Py.truthy location_id)
  then mret [("error", JStr "Authentication not available")]
  else
    get_ghl_headers;;
    let contact_data := delete "locationId" contact_data in
    try_except
      (response ← request "PUT" (GHL_BASE_URL ++ "/contacts/" ++ contact_id);
       if (status_code response =? 200)%Z
       then wrap_result "contact" response
       else
         error_message ← error_message_of response (text response);
         mret [("error", error_message);
               ("status_code", JNum (status_code response))])
      (fun e => Some (mret [("error", JStr (exn_str e))])).

(** ** [ghl_accounts/services/appointments.py] *)

Definition GHL_CALENDAR_ID := "OAnjgwIHOo7wiTj8Sk3q".
Definition GHL_ASSIGNED_USER_ID := "QkbUv2Ttp1oCeY6hrKLl".
Definition MAX_RETRIES : nat := 3.
Definition RETRY_DELAY : Z := 2.

(** A datetime is kept as its epoch milliseconds; its ISO rendering is
    not spelled out and stands as the decimal numeral. *)
Definition isoformat (t : Z) : string := str_of_Z t.

Definition status_map (st : string) : string :=
  if String.eqb st "1" then "scheduled"
  else if String.eqb st "2" then "confirmed"
  else if String.eqb st "3" then "in_progress"
  else if String.eqb st "4" then "completed"
  else if String.eqb st "5" then "confirmed"
  else "confirmed".

Definition build_ghl_appointment_payload (appt_sync : AppointmentSync.t)
  : M dict :=
  '(access_token, location_id) ← get_ghl_auth;
  if negb (Py.truthy access_token) || negb (Py.truthy location_id)
  then raise (ValueError "GHL authentication not available")
  else if negb (Py.truthy (AppointmentSync.ghl_contact_id appt_sync))
  then raise (ValueError "Appointment must have ghl_contact_id to sync to GHL")
  else
    let start_time := isoformat (AppointmentSync.start_time appt_sync) in
    let end_time := isoformat (AppointmentSync.end_time appt_sync) in
    let title :=
      if Py.truthy (AppointmentSync.ephysio_appointment_id appt_sync)
      then "Physio Appointment #"
           ++ default "" (AppointmentSync.ephysio_appointment_id appt_sync)
      else "Physio Appointment" in
    let appointment_status :=
      if Py.truthy (AppointmentSync.status appt_sync)
      then status_map (default "" (AppointmentSync.status appt_sync))
      else "confirmed" in
    mret [("title", JStr title);
          ("meetingLocationType", JStr "custom");
          ("meetingLocationId", JStr "custom_0");
          ("overrideLocationConfig", JBool true);
          ("appointmentStatus", JStr appointment_status);
          ("assignedUserId", JStr GHL_ASSIGNED_USER_ID);
          ("description",
           JStr ("Physiotherapy appointment for patient "
                 ++ match AppointmentSync.ephysio_patient_id appt_sync with
                    | Some p => p
                    | None => "None"
                    end));
          ("address", JStr "Zoom");
          ("ignoreDateRange", JBool false);
          ("toNotify", JBool false);
          ("ignoreFreeSlotValidation", JBool true);
          ("calendarId", JStr GHL_CALENDAR_ID);
          ("locationId", JStr (default "" location_id));
          ("contactId",
           JStr (default "" (AppointmentSync.ghl_contact_id appt_sync)));
          ("startTime", JStr start_time);
          ("endTime", JStr end_time)].

Definition APPOINTMENTS_URL := GHL_BASE_URL ++ "/calendars/events/appointments".

(** One pass of the retry loop: [Some result] when the pass returns,
    [None] when it reaches [continue]. *)
Definition attempt_once (attempt : nat) : M (option dict) :=
  try_except
    (response ← request "POST" APPOINTMENTS_URL;
     if (status_code response =? 200)%Z || (status_code response =? 201)%Z
     then
       result ← wrap_result "appointment" response;
       mret (Some result)
     else if (500 <=? status_code response)%Z
             && (attempt <? MAX_RETRIES - 1)%nat
     then
       time_sleep (RETRY_DELAY * (Z.of_nat attempt + 1));;
       mret None
     else
       error_message ←
         error_message_of response (String.substring 0 200 (text response));
       mret (Some [("error", error_message);
                   ("status_code", JNum (status_code response))]))
    (fun e =>
       match e with
       | Timeout _ | ConnectionError _ =>
           Some
             (if (attempt <? MAX_RETRIES - 1)%nat
              then
                time_sleep (RETRY_DELAY * (Z.of_nat attempt + 1));;
                mret None
              else
                mret (Some [("error",
                             JStr ("Network error: "
                                   ++ String.substring 0 100 (exn_str e)))]))
       | _ => Some (mret (Some [("error", JStr (exn_str e))]))
       end).

(** [for attempt in attempts: ...], then the fall-through [return]. *)
Fixpoint retry_loop (attempts : list nat) : M dict :=
  match attempts with
  | [] => mret [("error", JStr "Failed after all retry attempts")]
  | attempt :: rest =>
      r ← attempt_once attempt;
      match r with
      | Some result => mret result
      | None => retry_loop rest
      end
  end.

Definition create_ghl_appointment (appt_sync : Instance AppointmentSync.t)
  : M dict :=
  modify (log (CallCreateGhlAppointment appt_sync));;
  '(access_token, location_id) ← get_ghl_auth;
  if negb (Py.truthy access_token) || negb (Py.truthy location_id)
  then mret [("error", JStr "Authentication not available")]
  else if negb (Py.truthy (AppointmentSync.ghl_contact_id (row appt_sync)))
  then mret [("error", JStr "Missing ghl_contact_id")]
  else
    get_ghl_headers;;
    payload ← build_ghl_appointment_payload (row appt_sync);
    retry_loop (seq 0 MAX_RETRIES).

(** ** [ephysio/services/auth.py], [headers.py], [patients.py],
       [appointments.py]: reading from the Clinic System

    The Clinic credential table holds the single row [id = 1]. *)

Definition BASE_URL := "https://ehealth.pharmedsolutions.ch/api/1.0".

Definition authenticate_ephysio : M EPhysioAuth.t :=
  response ← request "POST" (BASE_URL ++ "/token");
  raise_for_status response;;
  data ← response_json response;
  match data with
  | BLogin l =>
      let auth :=
        EPhysioAuth.mk (LoginData.token l) (LoginData.key l) (LoginData.id l)
          (LoginData.exp l) in
      (* EPhysioAuth.objects.update_or_create(id=1, defaults=...) *)
      modify (fun w =>
        set_ephysio_auth
          match ephysio_auth w with
          | [] => [auth]
          | _ :: rest => auth :: rest
          end w);;
      mret auth
  | _ => raise KeyError
  end.

Definition get_ephysio_headers : M unit :=
  w ← get_world;
  match head (ephysio_auth w) with
  | Some _ => mret tt
  | None => authenticate_ephysio;; mret tt
  end.

Definition get_active_patients : M (list Patient.t) :=
  get_ephysio_headers;;
  response ← request "GET" (BASE_URL ++ "/patients");
  response ←
    (if (status_code response =? 401)%Z
     then
       authenticate_ephysio;;
       get_ephysio_headers;;
       request "GET" (BASE_URL ++ "/patients")
     else mret response);
  raise_for_status response;;
  b ← response_json response;
  match b with
  | BPatients l => mret l
  | _ => raise AttributeError
  end.

Definition get_ephysio_appointments (from_timestamp to_timestamp : Z)
  : M (list Event.t) :=
  get_ephysio_headers;;
  response ← request "GET" (BASE_URL ++ "/events/events");
  response ←
    (if (status_code response =? 401)%Z
     then
       authenticate_ephysio;;
       get_ephysio_headers;;
       request "GET" (BASE_URL ++ "/events/events")
     else mret response);
  raise_for_status response;;
  b ← response_json response;
  match b with
  | BEvents l => mret l
  | _ => raise AttributeError
  end.

(** A datetime is kept as its epoch milliseconds. *)
Definition epoch_ms_to_datetime (epoch_ms : option Z) : option Z :=
  match epoch_ms with
  | Some n => if (n =? 0)%Z then None else Some n
  | None => None
  end.

(** ** [ghl_accounts/tasks.py] *)

(** The dictionary a task returns; the [timestamp] entry is left out. *)
Module TaskResult.
Record t := mk {
  status : string;
  message : string;
  total : option nat;
  created : option nat;
  updated : option nat;
  synced_to_ghl : option nat
}.
End TaskResult.

(** [for x in l: s = body x s] *)
Fixpoint for_each {A S} (body : A -> S -> M S) (l : list A) (s : S) : M S :=
  match l with
  | [] => mret s
  | x :: l' => s' ← body x s; for_each body l' s'
  end.

(** [bool(obj.id)] *)
Definition has_id {R} (o : Instance R) : bool :=
  match pk o with
  | Some (S _) => true
  | _ => false
  end.

(** [data = result.get(key) or result;
     data.get('id') or result.get('id')] *)
Definition extract_id (key : string) (result : dict) : M (option jval) :=
  data ←
    match dict_get key result with
    | Some v =>
        if jtruthy v
        then match v with JObj o => mret o | _ => raise AttributeError end
        else mret result
    | None => mret result
    end;
  mret (if get_truthy (dict_get "id" data)
        then dict_get "id" data else dict_get "id" result).

(** *** Patients *)

(** [ContactSync.objects.filter(ephysio_patient_id__isnull=False)] as a
    dictionary keyed by the patient id; a later row wins over an earlier
    one with the same key. *)
Definition index_by {R} (key : R -> option string) (table : list R)
  : gmap string (Instance R) :=
  foldl (fun m c =>
           match key (row c) with
           | Some p => <[p := c]> m
           | None => m
           end) ∅ (objects_all table).

Definition contacts_by_patient_id (table : list ContactSync.t)
  : gmap string (Instance ContactSync.t) :=
  index_by ContactSync.ephysio_patient_id table.

(** The local variables of the partition loop.  [existing_contacts] holds
    the loaded instances, which the loop modifies in place;
    [contacts_to_update] and the left entries of [contacts_to_sync_to_ghl]
    are references to them, kept as their keys. *)
Module PatientPlan.
Record t := mk {
  existing_contacts : gmap string (Instance ContactSync.t);
  contacts_to_create : list (Instance ContactSync.t);
  contacts_to_update : list string;
  contacts_to_sync_to_ghl : list (string + Instance ContactSync.t)
}.
End PatientPlan.

(** The assignments of the update branch. *)
Definition update_contact_from (patient : Patient.t) (c : ContactSync.t)
  : ContactSync.t :=
  ContactSync.mk
    (ContactSync.ghl_contact_id c)
    (ContactSync.ephysio_patient_id c)
    (Py.or_None (Patient.email patient))
    (Py.or_None (Patient.phone patient))
    (Py.or_None (Patient.firstName patient))
    (Py.or_None (Patient.lastName patient))
    (Py.or_None (Patient.salutation patient))
    (Py.or_None (Patient.street patient))
    (Py.or_None (Patient.zip patient))
    (Py.or_None (Patient.city patient))
    (Py.or_None (Patient.birthDate patient))
    (Patient.sex patient)
    (if String.eqb (ContactSync.source c) ""
        || String.eqb (ContactSync.source c) "ephysio"
     then "ephysio" else ContactSync.source c).

(** The constructor call of the create branch. *)
Definition new_contact_from (patient_id : string) (patient : Patient.t)
  : ContactSync.t :=
  ContactSync.mk
    None
    (Some patient_id)
    (Py.or_None (Patient.email patient))
    (Py.or_None (Patient.phone patient))
    (Py.or_None (Patient.firstName patient))
    (Py.or_None (Patient.lastName patient))
    (Py.or_None (Patient.salutation patient))
    (Py.or_None (Patient.street patient))
    (Py.or_None (Patient.zip patient))
    (Py.or_None (Patient.city patient))
    (Py.or_None (Patient.birthDate patient))
    (Patient.sex patient)
    "ephysio".

(** One pass of [for patient in patients]. *)
Definition plan_patient (st : PatientPlan.t) (patient : Patient.t)
  : PatientPlan.t :=
  let patient_id := str_of_id (Patient.id patient) in
  if String.eqb patient_id "" then st
  else
    match PatientPlan.existing_contacts st !! patient_id with
    | Some contact =>
        let contact :=
          mkInstance (pk contact) (update_contact_from patient (row contact)) in
        PatientPlan.mk
          (<[patient_id := contact]> (PatientPlan.existing_contacts st))
          (PatientPlan.contacts_to_create st)
          (PatientPlan.contacts_to_update st ++ [patient_id])%list
          (if negb (Py.truthy (ContactSync.ghl_contact_id (row contact)))
           then (PatientPlan.contacts_to_sync_to_ghl st ++ [inl patient_id])%list
           else PatientPlan.contacts_to_sync_to_ghl st)
    | None =>
        let contact := mkInstance None (new_contact_from patient_id patient) in
        PatientPlan.mk
          (PatientPlan.existing_contacts st)
          (PatientPlan.contacts_to_create st ++ [contact])%list
          (PatientPlan.contacts_to_update st)
          (PatientPlan.contacts_to_sync_to_ghl st ++ [inr contact])%list
    end.

(** The fields [bulk_update] writes for a contact. *)
Definition write_contact_fields (o c : ContactSync.t) : ContactSync.t :=
  ContactSync.mk
    (ContactSync.ghl_contact_id c) (ContactSync.ephysio_patient_id c)
    (ContactSync.email o) (ContactSync.phone o) (ContactSync.first_name o)
    (ContactSync.last_name o) (ContactSync.salutation o)
    (ContactSync.street o) (ContactSync.zip o) (ContactSync.city o)
    (ContactSync.birth_date o) (ContactSync.sex o) (ContactSync.source o).

(** [ContactSync.objects.bulk_update(objs, update_fields)]: Django refuses
    objects without a primary key. *)
Definition bulk_update_contacts (objs : list (Instance ContactSync.t))
  : M unit :=
  if existsb (fun o => Py.is_None (pk o)) objs
  then raise (ValueError "All bulk_update() objects must have a primary key set.")
  else
    modify (fun w =>
      set_contact_sync
        (foldl (fun t o =>
                  table_update (default 0%nat (pk o))
                    (write_contact_fields (row o)) t)
           (contact_sync w) objs) w).

Definition same_some (a b : option string) : bool :=
  match a, b with
  | Some x, Some y => String.eqb x y
  | _, _ => false
  end.

(** A row that would break one of the two [unique] columns. *)
Definition contact_conflicts (table : list ContactSync.t) (c : ContactSync.t)
  : bool :=
  existsb (fun r =>
             same_some (ContactSync.ghl_contact_id r)
               (ContactSync.ghl_contact_id c)
             || same_some (ContactSync.ephysio_patient_id r)
                  (ContactSync.ephysio_patient_id c)) table.

(** [ContactSync.objects.bulk_create(objs, ignore_conflicts=True)]: a
    conflicting row is skipped; the instances get no primary key. *)
Definition bulk_create_contacts (objs : list (Instance ContactSync.t))
  : M unit :=
  modify (fun w =>
    set_contact_sync
      (foldl (fun t o =>
                if contact_conflicts t (row o) then t else (t ++ [row o])%list)
         (contact_sync w) objs) w).

(** [contact.ghl_contact_id = v; contact.save(update_fields=['ghl_contact_id'])] *)
Definition save_contact_ghl_id (contact : Instance ContactSync.t) (v : string)
  : M unit :=
  match pk contact with
  | None => raise (ValueError "Cannot force an update in save() with no primary key.")
  | Some k =>
      w ← get_world;
      if existsb (fun o =>
                    negb (Nat.eqb (default 0%nat (pk o)) k)
                    && same_some (ContactSync.ghl_contact_id (row o)) (Some v))
           (objects_all (contact_sync w))
      then raise IntegrityError
      else
        modify (fun w =>
          set_contact_sync
            (table_update k (ContactSync.set_ghl_contact_id (Some v))
               (contact_sync w)) w)
  end.

(** One pass of [for contact in contacts_to_sync_to_ghl]; the [else]
    branch only logs, and whatever it raises is caught like the rest. *)
Definition push_contact (contact : Instance ContactSync.t)
    (total_synced_to_ghl : nat) : M nat :=
  try_except
    (let payload := build_ghl_contact_payload (row contact) in
     result ← create_ghl_contact payload;
     if match result with [] => false | _ => true end
        && negb (get_truthy (dict_get "error" result))
     then
       ghl_contact_id ← extract_id "contact" result;
       if get_truthy ghl_contact_id
       then
         save_contact_ghl_id contact (py_str (default JNull ghl_contact_id));;
         mret (total_synced_to_ghl + 1)%nat
       else mret total_synced_to_ghl
     else mret total_synced_to_ghl)
    (fun _ => Some (mret total_synced_to_ghl)).

(** The two bulk writes of a cycle ("Bulk update existing contacts",
    "Bulk create new contacts"): the counts and the created ids. *)
Definition bulk_persist_contacts
    (contacts_to_update contacts_to_create : list (Instance ContactSync.t))
  : M (nat * nat * list string) :=
  total_updated ←
    match contacts_to_update with
    | [] => mret 0%nat
    | _ =>
        atomic (bulk_update_contacts contacts_to_update;;
                mret (length contacts_to_update))
    end;
  '(total_created, created_patient_ids) ←
    match contacts_to_create with
    | [] => mret (0%nat, [])
    | _ =>
        let created_patient_ids :=
          map (fun c =>
                 match ContactSync.ephysio_patient_id (row c) with
                 | Some p => p
                 | None => "None"
                 end) contacts_to_create in
        atomic (bulk_create_contacts contacts_to_create;;
                mret (length contacts_to_create, created_patient_ids))
    end;
  mret (total_updated, total_created, created_patient_ids).

(** The gap fill ("Prepare list of contacts to sync to GHL", "Sync
    new/updated contacts to GHL"): the number of contacts that got a CRM
    id. *)
Definition push_contacts_to_ghl
    (contacts_to_sync_to_ghl : list (Instance ContactSync.t))
    (created_patient_ids : list string) : M nat :=
  let contacts_to_sync_to_ghl := List.filter has_id contacts_to_sync_to_ghl in
  newly_created ←
    match created_patient_ids with
    | [] => mret []
    | _ =>
        w ← get_world;
        mret (List.filter
                (fun o =>
                   match ContactSync.ephysio_patient_id (row o) with
                   | Some p => existsb (String.eqb p) created_patient_ids
                   | None => false
                   end
                   && Py.is_None (ContactSync.ghl_contact_id (row o)))
                (objects_all (contact_sync w)))
    end;
  let contacts_to_sync_to_ghl :=
    (contacts_to_sync_to_ghl ++ newly_created)%list in
  match contacts_to_sync_to_ghl with
  | [] => mret 0%nat
  | _ =>
      '(access_token, location_id) ← get_ghl_auth;
      if negb (Py.truthy access_token) || negb (Py.truthy location_id)
      then mret 0%nat
      else for_each push_contact contacts_to_sync_to_ghl 0%nat
  end.

Definition sync_patients_after_fetch (patients : list Patient.t)
  : M TaskResult.t :=
  match patients with
  | [] =>
      mret (TaskResult.mk "success" "No patients found" None
              (Some 0%nat) (Some 0%nat) (Some 0%nat))
  | _ =>
      w ← get_world;
      let plan :=
        foldl plan_patient
          (PatientPlan.mk (contacts_by_patient_id (contact_sync w)) [] [] [])
          patients in
      '(total_updated, total_created, created_patient_ids) ←
        bulk_persist_contacts
          (omap (fun k => PatientPlan.existing_contacts plan !! k)
             (PatientPlan.contacts_to_update plan))
          (PatientPlan.contacts_to_create plan);
      total_synced_to_ghl ←
        push_contacts_to_ghl
          (omap (fun r =>
                   match r with
                   | inl k => PatientPlan.existing_contacts plan !! k
                   | inr c => Some c
                   end) (PatientPlan.contacts_to_sync_to_ghl plan))
          created_patient_ids;
      mret (TaskResult.mk "success" "Patient sync completed"
              (Some (length patients)) (Some total_created)
              (Some total_updated) (Some total_synced_to_ghl))
  end.

Definition sync_patients_incremental : M TaskResult.t :=
  try_except
    (patients ← get_active_patients;
     sync_patients_after_fetch patients)
    (fun e =>
       Some (mret (TaskResult.mk "error"
                     ("Error in incremental patient sync: " ++ exn_str e)
                     None None None None))).

(** *** Appointments *)

Definition DEFAULT_FROM_TIMESTAMP : Z := 1758911400000.
Definition DEFAULT_TO_TIMESTAMP : Z := 1795631400000.

Definition appointments_by_ephysio_id (table : list AppointmentSync.t)
  : gmap string (Instance AppointmentSync.t) :=
  index_by AppointmentSync.ephysio_appointment_id table.

Module AppointmentPlan.
Record t := mk {
  existing_appointments : gmap string (Instance AppointmentSync.t);
  appointments_to_create : list (Instance AppointmentSync.t);
  appointments_to_update : list string;
  appointments_to_sync_to_ghl : list (string + Instance AppointmentSync.t)
}.
End AppointmentPlan.

(** [str(appointment.get('status', '')) or None] *)
Definition status_of (appointment : Event.t) : option string :=
  Py.or_None (Some match Event.status appointment with
                   | Some v => str_of_id v
                   | None => ""
                   end).

(** The CRM contact id of the linked contact, if it has one. *)
Definition linked_ghl_contact_id
    (contact_sync_map : gmap string (Instance ContactSync.t))
    (ephysio_patient_id : string) : option string :=
  match contact_sync_map !! ephysio_patient_id with
  | Some contact_sync =>
      if Py.truthy (ContactSync.ghl_contact_id (row contact_sync))
      then ContactSync.ghl_contact_id (row contact_sync)
      else None
  | None => None
  end.

Definition update_appointment_from (appointment : Event.t)
    (ephysio_patient_id : string) (start_time end_time : Z)
    (ghl_contact_id : option string) (a : AppointmentSync.t)
  : AppointmentSync.t :=
  AppointmentSync.mk
    (AppointmentSync.ghl_appointment_id a)
    ghl_contact_id
    (Some ephysio_patient_id)
    (AppointmentSync.ephysio_appointment_id a)
    start_time end_time
    (status_of appointment)
    (Event.eventTypeId appointment)
    (Event.user_id appointment)
    (Event.clientId appointment)
    (Event.adminInfoId appointment)
    (if String.eqb (AppointmentSync.source a) ""
        || String.eqb (AppointmentSync.source a) "ephysio"
     then "ephysio" else AppointmentSync.source a).

Definition new_appointment_from (appointment : Event.t)
    (ephysio_appointment_id ephysio_patient_id : string)
    (start_time end_time : Z) (ghl_contact_id : option string)
  : AppointmentSync.t :=
  AppointmentSync.mk
    None
    ghl_contact_id
    (Some ephysio_patient_id)
    (Some ephysio_appointment_id)
    start_time end_time
    (status_of appointment)
    (Event.eventTypeId appointment)
    (Event.user_id appointment)
    (Event.clientId appointment)
    (Event.adminInfoId appointment)
    "ephysio".

(** One pass of [for appointment in appointments]. *)
Definition plan_appointment
    (contact_sync_map : gmap string (Instance ContactSync.t))
    (st : AppointmentPlan.t) (appointment : Event.t) : AppointmentPlan.t :=
  let ephysio_appointment_id := str_of_id (Event.id appointment) in
  let ephysio_patient_id := str_of_id (Event.patientId appointment) in
  if String.eqb ephysio_appointment_id "" || String.eqb ephysio_patient_id ""
  then st
  else
    match epoch_ms_to_datetime (Event.start appointment),
          epoch_ms_to_datetime (Event.end_ appointment) with
    | Some start_time, Some end_time =>
        let ghl_contact_id :=
          linked_ghl_contact_id contact_sync_map ephysio_patient_id in
        match AppointmentPlan.existing_appointments st
                !! ephysio_appointment_id with
        | Some appt_sync =>
            let appt_sync :=
              mkInstance (pk appt_sync)
                (update_appointment_from appointment ephysio_patient_id
                   start_time end_time ghl_contact_id (row appt_sync)) in
            AppointmentPlan.mk
              (<[ephysio_appointment_id := appt_sync]>
                 (AppointmentPlan.existing_appointments st))
              (AppointmentPlan.appointments_to_create st)
              (AppointmentPlan.appointments_to_update st
                 ++ [ephysio_appointment_id])%list
              (if negb (Py.truthy
                          (AppointmentSync.ghl_appointment_id (row appt_sync)))
                  && Py.truthy ghl_contact_id
               then (AppointmentPlan.appointments_to_sync_to_ghl st
                       ++ [inl ephysio_appointment_id])%list
               else AppointmentPlan.appointments_to_sync_to_ghl st)
        | None =>
            let appt_sync :=
              mkInstance None
                (new_appointment_from appointment ephysio_appointment_id
                   ephysio_patient_id start_time end_time ghl_contact_id) in
            AppointmentPlan.mk
              (AppointmentPlan.existing_appointments st)
              (AppointmentPlan.appointments_to_create st ++ [appt_sync])%list
              (AppointmentPlan.appointments_to_update st)
              (if Py.truthy ghl_contact_id
               then (AppointmentPlan.appointments_to_sync_to_ghl st
                       ++ [inr appt_sync])%list
               else AppointmentPlan.appointments_to_sync_to_ghl st)
        end
    | _, _ => st
    end.

(** The fields [bulk_update] writes for an appointment. *)
Definition write_appointment_fields (o a : AppointmentSync.t)
  : AppointmentSync.t :=
  AppointmentSync.mk
    (AppointmentSync.ghl_appointment_id a)
    (AppointmentSync.ghl_contact_id o)
    (AppointmentSync.ephysio_patient_id o)
    (AppointmentSync.ephysio_appointment_id a)
    (AppointmentSync.start_time o) (AppointmentSync.end_time o)
    (AppointmentSync.status o) (AppointmentSync.event_type_id o)
    (AppointmentSync.user_id o) (AppointmentSync.client_id o)
    (AppointmentSync.admin_info_id o) (AppointmentSync.source o).

Definition bulk_update_appointments (objs : list (Instance AppointmentSync.t))
  : M unit :=
  if existsb (fun o => Py.is_None (pk o)) objs
  then raise (ValueError "All bulk_update() objects must have a primary key set.")
  else
    modify (fun w =>
      set_appointment_sync
        (foldl (fun t o =>
                  table_update (default 0%nat (pk o))
                    (write_appointment_fields (row o)) t)
           (appointment_sync w) objs) w).

Definition appointment_conflicts (table : list AppointmentSync.t)
    (a : AppointmentSync.t) : bool :=
  existsb (fun r =>
             same_some (AppointmentSync.ghl_appointment_id r)
               (AppointmentSync.ghl_appointment_id a)
             || same_some (AppointmentSync.ephysio_appointment_id r)
                  (AppointmentSync.ephysio_appointment_id a)) table.

Definition bulk_create_appointments (objs : list (Instance AppointmentSync.t))
  : M unit :=
  modify (fun w =>
    set_appointment_sync
      (foldl (fun t o =>
                if appointment_conflicts t (row o) then t
                else (t ++ [row o])%list)
         (appointment_sync w) objs) w).

(** [appt_sync.ghl_appointment_id = v;
     appt_sync.save(update_fields=['ghl_appointment_id'])] *)
Definition save_appointment_ghl_id (appt_sync : Instance AppointmentSync.t)
    (v : string) : M unit :=
  match pk appt_sync with
  | None => raise (ValueError "Cannot force an update in save() with no primary key.")
  | Some k =>
      w ← get_world;
      if existsb (fun o =>
                    negb (Nat.eqb (default 0%nat (pk o)) k)
                    && same_some (AppointmentSync.ghl_appointment_id (row o))
                         (Some v))
           (objects_all (appointment_sync w))
      then raise IntegrityError
      else
        modify (fun w =>
          set_appointment_sync
            (table_update k (AppointmentSync.set_ghl_appointment_id (Some v))
               (appointment_sync w)) w)
  end.

(** One pass of [for appt_sync in appointments_to_sync_to_ghl]. *)
Definition push_appointment (appt_sync : Instance AppointmentSync.t)
    (total_synced_to_ghl : nat) : M nat :=
  if negb (Py.truthy (AppointmentSync.ghl_contact_id (row appt_sync)))
  then mret total_synced_to_ghl
  else
    try_except
      (result ← create_ghl_appointment appt_sync;
       if match result with [] => false | _ => true end
          && negb (get_truthy (dict_get "error" result))
       then
         ghl_appointment_id ← extract_id "appointment" result;
         if get_truthy ghl_appointment_id
         then
           save_appointment_ghl_id appt_sync
             (py_str (default JNull ghl_appointment_id));;
           mret (total_synced_to_ghl + 1)%nat
         else mret total_synced_to_ghl
       else mret total_synced_to_ghl)
      (fun _ => Some (mret total_synced_to_ghl)).

Definition bulk_persist_appointments
    (appointments_to_update appointments_to_create
       : list (Instance AppointmentSync.t))
  : M (nat * nat * list string) :=
  total_updated ←
    match appointments_to_update with
    | [] => mret 0%nat
    | _ =>
        atomic (bulk_update_appointments appointments_to_update;;
                mret (length appointments_to_update))
    end;
  '(total_created, created_appointment_ids) ←
    match appointments_to_create with
    | [] => mret (0%nat, [])
    | _ =>
        let created_appointment_ids :=
          map (fun a =>
                 match AppointmentSync.ephysio_appointment_id (row a) with
                 | Some k => k
                 | None => "None"
                 end) appointments_to_create in
        atomic (bulk_create_appointments appointments_to_create;;
                mret (length appointments_to_create, created_appointment_ids))
    end;
  mret (total_updated, total_created, created_appointment_ids).

Definition push_appointments_to_ghl
    (appointments_to_sync_to_ghl : list (Instance AppointmentSync.t))
    (created_appointment_ids : list string) : M nat :=
  let appointments_to_sync_to_ghl :=
    List.filter has_id appointments_to_sync_to_ghl in
  newly_created ←
    match created_appointment_ids with
    | [] => mret []
    | _ =>
        w ← get_world;
        mret (List.filter
                (fun o =>
                   match AppointmentSync.ephysio_appointment_id (row o) with
                   | Some k => existsb (String.eqb k) created_appointment_ids
                   | None => false
                   end
                   && Py.is_None (AppointmentSync.ghl_appointment_id (row o))
                   && negb (Py.is_None
                              (AppointmentSync.ghl_contact_id (row o))))
                (objects_all (appointment_sync w)))
    end;
  let appointments_to_sync_to_ghl :=
    (appointments_to_sync_to_ghl ++ newly_created)%list in
  match appointments_to_sync_to_ghl with
  | [] => mret 0%nat
  | _ =>
      '(access_token, location_id) ← get_ghl_auth;
      if negb (Py.truthy access_token) || negb (Py.truthy location_id)
      then mret 0%nat
      else for_each push_appointment appointments_to_sync_to_ghl 0%nat
  end.

Definition sync_appointments_after_fetch (appointments : list Event.t)
  : M TaskResult.t :=
  match appointments with
  | [] =>
      mret (TaskResult.mk "success" "No appointments found" None
              (Some 0%nat) (Some 0%nat) (Some 0%nat))
  | _ =>
      w ← get_world;
      let contact_sync_map := contacts_by_patient_id (contact_sync w) in
      let plan :=
        foldl (plan_appointment contact_sync_map)
          (AppointmentPlan.mk
             (appointments_by_ephysio_id (appointment_sync w)) [] [] [])
          appointments in
      '(total_updated, total_created, created_appointment_ids) ←
        bulk_persist_appointments
          (omap (fun k => AppointmentPlan.existing_appointments plan !! k)
             (AppointmentPlan.appointments_to_update plan))
          (AppointmentPlan.appointments_to_create plan);
      total_synced_to_ghl ←
        push_appointments_to_ghl
          (omap (fun r =>
                   match r with
                   | inl k => AppointmentPlan.existing_appointments plan !! k
                   | inr a => Some a
                   end) (AppointmentPlan.appointments_to_sync_to_ghl plan))
          created_appointment_ids;
      mret (TaskResult.mk "success" "Appointment sync completed"
              (Some (length appointments)) (Some total_created)
              (Some total_updated) (Some total_synced_to_ghl))
  end.

Definition sync_appointments_incremental : M TaskResult.t :=
  try_except
    (appointments ←
       get_ephysio_appointments DEFAULT_FROM_TIMESTAMP DEFAULT_TO_TIMESTAMP;
     sync_appointments_after_fetch appointments)
    (fun e =>
       Some (mret (TaskResult.mk "error"
                     ("Error in incremental appointment sync: " ++ exn_str e)
                     None None None None))).

(** ** [ephysio/services/patients.py], [payloads.py]: towards the Clinic *)

(** The value a [CharField] stores for an identifier. *)
Definition char_of_id (x : pyid) : option string :=
  match x with
  | IdNone => None
  | _ => Some (str_of_id x)
  end.

(** The value a [CharField] stores for what [d.get(k)] gave. *)
Definition char_of_json (o : option jval) : option string :=
  match o with
  | None | Some JNull => None
  | Some v => Some (py_str v)
  end.

(** The first patient whose normalized phone is [target]. *)
Fixpoint first_with_phone (target : option string) (patients : list Patient.t)
  : option Patient.t :=
  match patients with
  | [] => None
  | patient :: rest =>
      if bool_decide (normalize_phone (Patient.phone patient) = target)
      then Some patient
      else first_with_phone target rest
  end.

Definition find_patient_by_phone (phone : option string)
  : M (option Patient.t) :=
  if negb (Py.truthy phone) then mret None
  else
    let target := normalize_phone phone in
    patients ← get_active_patients;
    mret (first_with_phone target patients).

(** The webhook's view of a CRM contact: what [handle_contact_event] reads
    from the event and hands on as [ghl_data]. *)
Module GhlContact.
Record t := mk {
  id : option string;
  email : option string;
  phone : option string;
  firstName : option string;
  lastName : option string
}.
End GhlContact.

Definition build_patient_payload_from_ghl (ghl : GhlContact.t) : dict :=
  [("id", JStr match GhlContact.id ghl with Some i => i | None => "None" end);
   ("firstName",
    JStr (default "Unknown" (Py.or_None (GhlContact.firstName ghl))));
   ("lastName",
    JStr (default "Patient" (Py.or_None (GhlContact.lastName ghl))));
   ("street", JStr "Unknown");
   ("zip", JStr "0000");
   ("city", JStr "Unknown");
   ("birthDate", JStr "1990-01-01");
   ("sex", JStr "m");
   ("status", JNum 1);
   ("phone", match GhlContact.phone ghl with Some p => JStr p | None => JNull end);
   ("email", match GhlContact.email ghl with Some e => JStr e | None => JNull end);
   ("hasEmailConsent", JBool true);
   ("comment", JStr "Created from GHL")].

Definition create_patient (payload : dict) : M dict :=
  get_ephysio_headers;;
  response ← request "POST" (BASE_URL ++ "/patients/request");
  response ←
    (if (status_code response =? 401)%Z
     then
       authenticate_ephysio;;
       get_ephysio_headers;;
       request "POST" (BASE_URL ++ "/patients/request")
     else mret response);
  raise_for_status response;;
  b ← response_json response;
  match b with
  | BDict d => mret d
  | _ => raise AttributeError
  end.

(** Another row already holds one of the two [unique] values of [c]. *)
Definition contact_conflicts_except (k : nat) (table : list ContactSync.t)
    (c : ContactSync.t) : bool :=
  existsb (fun o =>
             negb (Nat.eqb (default 0%nat (pk o)) k)
             && (same_some (ContactSync.ghl_contact_id (row o))
                   (ContactSync.ghl_contact_id c)
                 || same_some (ContactSync.ephysio_patient_id (row o))
                      (ContactSync.ephysio_patient_id c)))
    (objects_all table).

(** [ContactSync.objects.create(...)]: the new instance, with its key. *)
Definition create_contact (c : ContactSync.t) : M (Instance ContactSync.t) :=
  w ← get_world;
  if contact_conflicts (contact_sync w) c then raise IntegrityError
  else
    modify (set_contact_sync (contact_sync w ++ [c])%list);;
    mret (mkInstance (Some (S (length (contact_sync w)))) c).

(** [obj.save()]: every column of the row is written. *)
Definition save_contact (o : Instance ContactSync.t) : M unit :=
  match pk o with
  | None => create_contact (row o);; mret tt
  | Some k =>
      w ← get_world;
      if contact_conflicts_except k (contact_sync w) (row o)
      then raise IntegrityError
      else
        modify (fun w =>
          set_contact_sync (table_update k (fun _ => row o) (contact_sync w)) w)
  end.

Definition sync_ghl_contact_to_ephysio (ghl_data : GhlContact.t)
    (sync_obj : Instance ContactSync.t) : M string :=
  let phone := GhlContact.phone ghl_data in
  patient ← find_patient_by_phone phone;
  match patient with
  | Some patient =>
      save_contact
        (mkInstance (pk sync_obj)
           (ContactSync.set_ephysio_patient_id
              (char_of_id (Patient.id patient)) (row sync_obj)));;
      mret "updated"
  | None =>
      let payload := build_patient_payload_from_ghl ghl_data in
      result ← create_patient payload;
      save_contact
        (mkInstance (pk sync_obj)
           (ContactSync.set_ephysio_patient_id
              (char_of_json (dict_get "id" result)) (row sync_obj)));;
      mret "created"
  end.

(** ** [ghl_accounts/views.py]: the contact webhook

    The handler's [JsonResponse] is kept as its status and payload text. *)

(** [ContactSync.objects.filter(ghl_contact_id=v).first()] *)
Definition contact_by_ghl_id (v : option string) (table : list ContactSync.t)
  : option (Instance ContactSync.t) :=
  head (List.filter
          (fun o => same_some (ContactSync.ghl_contact_id (row o)) v)
          (objects_all table)).

Definition with_email_phone (email phone : option string) (c : ContactSync.t)
  : ContactSync.t :=
  ContactSync.mk (ContactSync.ghl_contact_id c)
    (ContactSync.ephysio_patient_id c) email phone
    (ContactSync.first_name c) (ContactSync.last_name c)
    (ContactSync.salutation c) (ContactSync.street c) (ContactSync.zip c)
    (ContactSync.city c) (ContactSync.birth_date c) (ContactSync.sex c)
    (ContactSync.source c).

(** The row [ContactSync.objects.create(ghl_contact_id=..., email=...,
    phone=..., source="ghl")] inserts. *)
Definition contact_from_event (data : GhlContact.t) : ContactSync.t :=
  ContactSync.mk (GhlContact.id data) None (GhlContact.email data)
    (GhlContact.phone data) None None None None None None None None "ghl".

Definition handle_contact_event (data : GhlContact.t) : M (Z * string) :=
  let ghl_contact_id := GhlContact.id data in
  if negb (Py.truthy ghl_contact_id) then mret (400%Z, "Missing contact id")
  else
    w ← get_world;
    sync ←
      match contact_by_ghl_id ghl_contact_id (contact_sync w) with
      | Some sync =>
          let sync :=
            mkInstance (pk sync)
              (with_email_phone (GhlContact.email data)
                 (GhlContact.phone data) (row sync)) in
          save_contact sync;;
          mret sync
      | None => create_contact (contact_from_event data)
      end;
    sync_ghl_contact_to_ephysio data sync;;
    mret (200%Z, "contact synced").

(** ** Observations on a run *)

(** The events a computation appended to the trace. *)
Definition new_events {A} (m : M A) (w : World) : list event :=
  drop (length (trace w)) (trace (snd (m w))).

Definition is_http (e : event) : bool :=
  match e with Http _ _ => true | _ => false end.

(** Number of HTTP requests among the events: the attempts of a write. *)
Definition attempts_in (t : list event) : nat :=
  length (List.filter is_http t).

(** The pauses among the events, in order. *)
Definition sleeps_in (t : list event) : list Z :=
  omap (fun e => match e with Sleep d => Some d | _ => None end) t.

(** The reply the [k]-th next request gets. *)
Definition nth_reply (w : World) (k : nat) : reply :=
  default (Fails (ConnectionError "connection refused")) (network w !! k).

(** Replies after which the appointment write may try again: a 5xx status,
    a timeout or a connection error. *)
Definition retryable (r : reply) : bool :=
  match r with
  | Answer resp => (500 <=? status_code resp)%Z
  | Fails (Timeout _) | Fails (ConnectionError _) => true
  | Fails _ => false
  end.

(** The store is ready for CRM calls: [get_ghl_auth] gives both values. *)
Definition ghl_ready (w : World) : bool :=
  match head (ghl_auth w) with
  | Some auth =>
      Py.truthy (GHLAuthCredentials.location_id auth)
      && Py.truthy (GHLAuthCredentials.access_token auth)
  | None => false
  end.

(** The world after one request was sent and answered. *)
Definition after_request (method url : string) (w : World) : World :=
  set_network (tail (network w)) (log (Http method url) w).

(** A reply with one of the statuses the create calls take for success. *)
Definition is_success (r : reply) : bool :=
  match r with
  | Answer resp => (status_code resp =? 200)%Z || (status_code resp =? 201)%Z
  | Fails _ => false
  end.

(** A result dictionary that carries an [error] key. *)
Definition is_error (d : dict) : bool := dict_has "error" d.

(** The partition the patient task computes in world [w]. *)
Definition patient_plan (w : World) (patients : list Patient.t)
  : PatientPlan.t :=
  foldl plan_patient
    (PatientPlan.mk (contacts_by_patient_id (contact_sync w)) [] [] [])
    patients.

(** The partition the appointment task computes in world [w]. *)
Definition appointment_plan (w : World) (appointments : list Event.t)
  : AppointmentPlan.t :=
  foldl (plan_appointment (contacts_by_patient_id (contact_sync w)))
    (AppointmentPlan.mk (appointments_by_ephysio_id (appointment_sync w))
       [] [] [])
    appointments.

(** A relation between the world before and after a computation holds for
    every run of [m]. *)
Definition preserves (R : World -> World -> Prop) {A} (m : M A) : Prop :=
  forall w, R w (snd (m w)).

(** What [atomic] restores when its body raises. *)
Definition rollback (w w' : World) : World :=
  mkWorld (contact_sync w) (appointment_sync w) (ghl_auth w) (ephysio_auth w)
    (network w') (trace w').

(** A relation on worlds given table by table and on the trace; the
    Clinic credentials and the pending replies are left free. *)
Definition lift
    (Rc : relation (list ContactSync.t))
    (Ra : relation (list AppointmentSync.t))
    (Rg : relation (list GHLAuthCredentials.t))
    (Rt : relation (list event)) : World -> World -> Prop :=
  fun w w' =>
    Rc (contact_sync w) (contact_sync w')
    /\ Ra (appointment_sync w) (appointment_sync w')
    /\ Rg (ghl_auth w) (ghl_auth w')
    /\ Rt (trace w) (trace w').

(** The push precondition, read off an event of the trace: a CRM
    appointment-create call is made for an appointment with a CRM contact
    id. *)
Definition push_precondition (e : event) : Prop :=
  match e with
  | CallCreateGhlAppointment a =>
      Py.truthy (AppointmentSync.ghl_contact_id (row a)) = true
  | _ => True
  end.

(** The trace grew by events that respect the push precondition. *)
Definition grows_by_linked_pushes : relation (list event) :=
  fun t t' => exists l, t' = (t ++ l)%list /\ Forall push_precondition l.

(** The relation that constrains nothing. *)
Definition any {A} : relation A := fun _ _ => True.

(** Every row of the first table is still there in the second, at the same
    primary key, and related to what it was. *)
Definition keeps {A} (rel : relation A) : relation (list A) :=
  fun t t' =>
    forall i r, t !! i = Some r -> exists r', t' !! i = Some r' /\ rel r r'.

(** Provenance is kept: the [source] is what it was, except that an empty
    one may have become ['ephysio']. *)
Definition source_kept (s s' : string) : Prop :=
  s' = s \/ (s = "" /\ s' = "ephysio").

Definition source_rel {A} (src : A -> string) : relation A :=
  fun r r' => source_kept (src r) (src r').

(** A column is what it was. *)
Definition same_on {A B} (f : A -> B) : relation A :=
  fun r r' => f r' = f r.

(** An instance in memory stems from a row of [t0] and has kept its
    provenance. *)
Definition loaded_from {A} (src : A -> string) (t0 : list A)
    (o : Instance A) : Prop :=
  exists i r0, pk o = Some (S i) /\ t0 !! i = Some r0
               /\ source_kept (src r0) (src (row o)).

(** No row was added or removed. *)
Definition same_length {A} : relation (list A) :=
  fun t t' => length t' = length t.

(** Every value a computation returns satisfies [P]. *)
Definition returns {A} (P : A -> Prop) (m : M A) : Prop :=
  forall w a w', m w = (Ok a, w') -> P a.

(** A task result of a completed cycle: status and the three counts. *)
Definition success_result (r : TaskResult.t) : Prop :=
  TaskResult.status r = "success"
  /\ is_Some (TaskResult.created r)
  /\ is_Some (TaskResult.updated r)
  /\ is_Some (TaskResult.synced_to_ghl r).

(** A task result of a failed cycle: status and message, no counts. *)
Definition error_result (prefix : string) (e : exn) (r : TaskResult.t) : Prop :=
  TaskResult.status r = "error"
  /\ TaskResult.message r = prefix ++ exn_str e
  /\ TaskResult.created r = None
  /\ TaskResult.updated r = None
  /\ TaskResult.synced_to_ghl r = None.

(** A computation that never raises. *)
Definition total {A} (m : M A) : Prop :=
  forall w, exists a, fst (m w) = Ok a.

(** The contact table has a row for the Clinic patient [id]. *)
Definition has_patient_id (t : list ContactSync.t) (id : string) : Prop :=
  exists i r, t !! i = Some r /\ ContactSync.ephysio_patient_id r = Some id.

(** The partition accounts for patient [id]: as an existing row, or as a
    row to create. *)
Definition covered (st : PatientPlan.t) (id : string) : Prop :=
  is_Some (PatientPlan.existing_contacts st !! id)
  \/ exists c, c ∈ PatientPlan.contacts_to_create st
               /\ ContactSync.ephysio_patient_id (row c) = Some id.

(** The table after the two bulk writes of a cycle. *)
Definition persisted_contacts
    (upd cre : list (Instance ContactSync.t)) (t : list ContactSync.t)
  : list ContactSync.t :=
  foldl (fun t o =>
           if contact_conflicts t (row o) then t else (t ++ [row o])%list)
    (foldl (fun t o =>
              table_update (default 0%nat (pk o))
                (write_contact_fields (row o)) t) t upd)
    cre.

(** The table is what it was, or row [n] was rewritten as [c] with a
    Clinic patient id. *)
Definition only_row_relinked (n : nat) (c : ContactSync.t)
  : relation (list ContactSync.t) :=
  fun t t' =>
    t' = t
    \/ exists v, t' = alter (fun _ => ContactSync.set_ephysio_patient_id v c) n t.








(** The shape the three Clinic calls share ([get_active_patients],
    [get_ephysio_appointments], [create_patient]): headers, the request, on
    a 401 one login and one replay, then the status check and the body. *)
Definition clinic_call {A} (method url : string) (decode : body -> M A)
  : M A :=
  get_ephysio_headers;;
  response ← request method url;
  response ←
    (if (status_code response =? 401)%Z
     then
       authenticate_ephysio;;
       get_ephysio_headers;;
       request method url
     else mret response);
  raise_for_status response;;
  b ← response_json response;
  decode b.

(** The Clinic's login request. *)
Definition login_request : event := Http "POST" (BASE_URL ++ "/token").

(** The most a Clinic call sends: a login first when no credential is
    stored, the request, and after a 401 one login and one replay. *)
Definition clinic_traffic (method url : string) (w : World) : list event :=
  ((if Py.is_None (head (ephysio_auth w)) then [login_request] else [])
   ++ [Http method url; login_request; Http method url])%list.

(** The credential row a login reply is stored as. *)
Definition auth_of_login (l : LoginData.t) : EPhysioAuth.t :=
  EPhysioAuth.mk (LoginData.token l) (LoginData.key l) (LoginData.id l)
    (LoginData.exp l).

(** A reply that passes [raise_for_status]. *)
Definition status_ok (r : Response) : bool :=
  negb ((400 <=? status_code r)%Z && (status_code r <? 600)%Z).

(** The two [unique] columns of the contact table hold: no two rows share
    a CRM contact id or a Clinic patient id. *)
Definition unique_contacts (t : list ContactSync.t) : bool :=
  forallb (fun o =>
             negb (contact_conflicts_except (default 0%nat (pk o)) t (row o)))
    (objects_all t).


(** ** Sample data *)

Module Sample.

Definition credentials : GHLAuthCredentials.t :=
  GHLAuthCredentials.mk (Some "user-1") (Some "access-0") (Some "refresh-0")
    (Some 86399%Z) (Some "contacts.write") (Some "Location")
    (Some "company-1") (Some "loc-1").


(** A store with credentials whose token endpoint answers 401. *)
Definition world_refresh_401 : World :=
  mkWorld [] [] [credentials] []
    [Answer (mkResponse 401 "invalid_grant" None)] [].

(** The token endpoint answers 200 with a new access token only. *)
Definition token_without_refresh : TokenData.t :=
  TokenData.mk (Val "access-1") Absent (Val 86399%Z) Absent Absent Absent
    Absent Absent.

Definition world_refresh_ok : World :=
  mkWorld [] [] [credentials] []
    [Answer (mkResponse 200 "" (Some (BToken token_without_refresh)))] [].

(** The CRM answers 503 to the next three requests. *)
Definition unavailable : Response := mkResponse 503 "Service Unavailable" None.

Definition world_all_503 : World :=
  mkWorld [] [] [credentials] []
    [Answer unavailable; Answer unavailable; Answer unavailable] [].

(** The CRM rejects the payload. *)
Definition world_422 : World :=
  mkWorld [] [] [credentials] []
    [Answer (mkResponse 422 "Unprocessable Entity"
               (Some (BDict [("message", JStr "startTime is invalid")])))] [].

Definition linked_appointment : Instance AppointmentSync.t :=
  mkInstance (Some 1%nat)
    (AppointmentSync.mk None (Some "ghl-contact-1") (Some "42") (Some "9001")
       1760000000000 1760003600000 (Some "5") None None None None "ephysio").


Definition clinic_token : EPhysioAuth.t :=
  EPhysioAuth.mk "token-0" "key-0" "practice-1" None.

(** Patient 42 is linked to a CRM contact, patient 43 is not. *)
Definition contact_42 : ContactSync.t :=
  ContactSync.mk (Some "ghl-contact-1") (Some "42") None (Some "+41791234567")
    (Some "Anna") (Some "Muster") None None None None (Some "07.03.1985")
    None "ephysio".

Definition contact_43 : ContactSync.t :=
  ContactSync.mk None (Some "43") None (Some "+41791112233")
    (Some "Beat") (Some "Keller") None None None None None None "ephysio".




(** A contact that came in through the CRM webhook and was later linked
    to Clinic patient 42. *)
Definition contact_from_ghl : ContactSync.t :=
  ContactSync.mk (Some "ghl-contact-9") (Some "42") (Some "anna@example.org")
    (Some "0791234567") None None None None None None None None "ghl".

Definition patient_42 : Patient.t :=
  Patient.mk (IdInt 42) (Some "+41791234567") (Some "anna@example.org")
    (Some "Anna") (Some "Muster") (Some "Frau") (Some "Bahnhofstrasse 1")
    (Some "8001") (Some "Zurich") (Some "07.03.1985") (Some false).

Definition patient_44 : Patient.t :=
  Patient.mk (IdInt 44) (Some "+41795556677") None (Some "Carla")
    (Some "Meier") None None None None None None.

Definition patients_reply : reply :=
  Answer (mkResponse 200 "" (Some (BPatients [patient_42; patient_44]))).

(** The Clinic returns two patients, one already stored; the CRM accepts a
    contact create. *)
Definition world_patients : World :=
  mkWorld [contact_from_ghl] [] [credentials] [clinic_token]
    [patients_reply;
     Answer (mkResponse 201 ""
               (Some (BDict [("contact",
                              JObj [("id", JStr "ghl-contact-10")])])))] [].

(** The Clinic token has expired: the fetch gets 401, the login exchange
    succeeds, and the replayed fetch meets a server error. *)
Definition world_fetch_fails_after_login : World :=
  mkWorld [contact_from_ghl] [] [credentials] [clinic_token]
    [Answer (mkResponse 401 "Unauthorized" None);
     Answer (mkResponse 200 ""
               (Some (BLogin (LoginData.mk "token-1" "key-1" "practice-1"
                                (Some 1762200000%Z)))));
     Answer (mkResponse 500 "Internal Server Error" None)] [].

(** The Clinic is down. *)
Definition world_fetch_fails : World :=
  mkWorld [contact_from_ghl] [] [credentials] [clinic_token]
    [Answer (mkResponse 503 "Service Unavailable" None)] [].

(** The second cycle: the contact table is what the first cycle left, and
    the Clinic returns the same two patients. *)
Definition world_second_run : World :=
  mkWorld (contact_sync (snd (sync_patients_incremental world_patients))) []
    [credentials] [clinic_token] [patients_reply] [].

(** A Clinic-sourced contact that has no CRM id yet, and the CRM's
    [ContactCreate] event for the same person, phone in local format. *)
Definition unlinked_contact_42 : ContactSync.t :=
  ContactSync.mk None (Some "42") (Some "anna@example.org")
    (Some "+41791234567") (Some "Anna") (Some "Muster") None None None None
    None None "ephysio".

Definition contact_create_event : GhlContact.t :=
  GhlContact.mk (Some "ghl-contact-77") (Some "anna@example.org")
    (Some "0791234567") (Some "Anna") (Some "Muster").


(** The CRM accepts a contact create and answers with the bare contact. *)
Definition world_contact_created : World :=
  mkWorld [unlinked_contact_42] [] [credentials] [clinic_token]
    [Answer (mkResponse 201 ""
               (Some (BDict [("id", JStr "ghl-contact-7")])))] [].

(** The CRM is unavailable once, then accepts the appointment. *)
Definition world_503_then_created : World :=
  mkWorld [] [] [credentials] []
    [Answer unavailable;
     Answer (mkResponse 201 ""
               (Some (BDict [("id", JStr "ghl-appt-1")])))] [].

(** The stored Clinic token has expired: the fetch gets a 401, logs in
    again and is then served. *)
Definition world_token_expired : World :=
  mkWorld [] [] [credentials] [clinic_token]
    [Answer (mkResponse 401 "Unauthorized" None);
     Answer (mkResponse 200 ""
               (Some (BLogin (LoginData.mk "token-1" "key-1" "practice-1"
                                None))));
     Answer (mkResponse 200 "" (Some (BPatients [patient_42; patient_44])))]
    [].

(** The Clinic has no active patient. *)
Definition world_no_patients : World :=
  mkWorld [contact_42] [] [credentials] [clinic_token]
    [Answer (mkResponse 200 "" (Some (BPatients [])))] [].


(** The CRM's [ContactUpdate] event for the stored contact
    [ghl-contact-9]: a new email, no phone. *)
Definition contact_update_event : GhlContact.t :=
  GhlContact.mk (Some "ghl-contact-9") (Some "anna.muster@example.org")
    None (Some "Anna") (Some "Muster").

Definition world_webhook_known : World :=
  mkWorld [contact_from_ghl; contact_43] [] [credentials] [clinic_token]
    [Answer (mkResponse 500 "Internal Server Error" None)] [].

(** The store does not know patient 42 yet; the Clinic lists the patient
    with the phone of the incoming CRM contact, spelled differently. *)
Definition world_webhook_new_patient : World :=
  mkWorld [contact_43; contact_from_event contact_create_event] []
    [credentials] [clinic_token] [patients_reply] [].

(** A contact event arrives while the Clinic is down. *)
Definition world_clinic_down : World :=
  mkWorld [unlinked_contact_42] [] [credentials] [clinic_token]
    [Answer (mkResponse 503 "Service Unavailable" None)] [].

End Sample.

(* ==== Properties ==== *)

(** C5. Phone round trip: cleaning the Clinic-normalized form of
    "+41 79 123 45 67" for the CRM gives "+41791234567", and so does cleaning
    "0791234567" directly. *)
Theorem phone_round_trip :
  validate_and_clean_phone (normalize_phone (Some "+41 79 123 45 67"))
    = Some "+41791234567"
  /\ validate_and_clean_phone (Some "0791234567") = Some "+41791234567".
Proof. split; vm_compute; reflexivity. Qed.

(** *** Birth date conversion *)

Lemma digit_not_dot c : Py.is_digit c = true -> Ascii.eqb c "." = false.
Proof.
  destruct c as [[] [] [] [] [] [] [] []]; vm_compute; congruence.
Qed.

Lemma payload_dateOfBirth (c : ContactSync.t) :
  build_ghl_contact_payload c !! "dateOfBirth"
  = if Py.truthy (date_of_birth (ContactSync.birth_date c))
    then date_of_birth (ContactSync.birth_date c) else None.
Proof.
  unfold build_ghl_contact_payload.
  rewrite lookup_omap.
  destruct (Py.truthy (date_of_birth (ContactSync.birth_date c))) eqn:Hd.
  - rewrite lookup_insert_eq. reflexivity.
  - destruct (Py.truthy (if Py.truthy (ContactSync.phone c) then _ else None));
      repeat (rewrite lookup_insert_ne by discriminate);
      rewrite lookup_empty; reflexivity.
Qed.

Lemma date_of_birth_ddmmyyyy s :
  is_ddmmyyyy s = true -> date_of_birth (Some s) = Some (iso_of_ddmmyyyy s).
Proof.
  intros H.
  do 10 (destruct s as [|? s]; [discriminate H|]).
  destruct s; [|discriminate H].
  cbn [is_ddmmyyyy] in H.
  do 9 (apply andb_prop in H; destruct H as [H ?]).
  repeat match goal with
         | D : Py.is_digit _ = true |- _ => apply digit_not_dot in D
         | E : Ascii.eqb _ "." = true |- _ => apply Ascii.eqb_eq in E; subst
         end.
  unfold date_of_birth. cbn [Py.truthy String.eqb negb default id from_option].
  cbn [Py.split].
  repeat match goal with
         | E : Ascii.eqb _ "." = false |- _ => rewrite E; clear E
         end.
  reflexivity.
Qed.

Lemma date_of_birth_parts s d m y :
  Py.split "." s = [d; m; y] ->
  date_of_birth (Some s)
  = Some (y ++ "-" ++ Py.zfill 2 m ++ "-" ++ Py.zfill 2 d).
Proof.
  intros Hs. unfold date_of_birth.
  destruct s as [|a s]; [discriminate Hs|].
  cbn [Py.truthy String.eqb negb default from_option id].
  rewrite Hs. reflexivity.
Qed.

Lemma date_of_birth_truthy bd v :
  date_of_birth bd = Some v -> Py.truthy (Some v) = true.
Proof.
  unfold date_of_birth. destruct (Py.truthy bd); [|discriminate].
  destruct (Py.split "." (default "" bd)) as [|d [|m [|y [|? ?]]]];
    try discriminate.
  intros [= <-]. destruct y; reflexivity.
Qed.

Lemma date_of_birth_not_three bd :
  length (Py.split "." (default "" bd)) <> 3%nat -> date_of_birth bd = None.
Proof.
  unfold date_of_birth. intros Hn. destruct (Py.truthy bd); [|reflexivity].
  destruct (Py.split "." (default "" bd)) as [|d [|m [|y [|? ?]]]];
    try reflexivity.
  exfalso. apply Hn. reflexivity.
Qed.

(** C6 (as the code has it). A stored [DD.MM.YYYY] birth date is sent as
    [YYYY-MM-DD]; a value that does not split into exactly three
    dot-separated parts (in particular an absent or empty one) leaves the
    [dateOfBirth] key out of the payload; a value with three parts is sent
    rearranged as [year-month-day], month and day zero-filled to two
    characters, whatever the parts contain. *)
Theorem birth_date_conversion (c : ContactSync.t) :
  (forall s, ContactSync.birth_date c = Some s -> is_ddmmyyyy s = true ->
     build_ghl_contact_payload c !! "dateOfBirth" = Some (iso_of_ddmmyyyy s))
  /\ (length (Py.split "." (default "" (ContactSync.birth_date c))) <> 3%nat ->
      build_ghl_contact_payload c !! "dateOfBirth" = None)
  /\ (forall s d m y, ContactSync.birth_date c = Some s -> Py.split "." s = [d; m; y] ->
      build_ghl_contact_payload c !! "dateOfBirth"
      = Some (y ++ "-" ++ Py.zfill 2 m ++ "-" ++ Py.zfill 2 d)).
Proof.
  repeat split.
  - intros s Hs Hok. rewrite payload_dateOfBirth, Hs.
    rewrite (date_of_birth_ddmmyyyy s Hok).
    erewrite date_of_birth_truthy; [reflexivity|].
    apply date_of_birth_ddmmyyyy, Hok.
  - intros Hn. rewrite payload_dateOfBirth.
    rewrite (date_of_birth_not_three _ Hn). reflexivity.
  - intros s d m y Hs Hp. rewrite payload_dateOfBirth, Hs.
    rewrite (date_of_birth_parts s d m y Hp).
    erewrite date_of_birth_truthy; [reflexivity|].
    apply date_of_birth_parts, Hp.
Qed.

Lemma birth_date_conversion_witness :
  build_ghl_contact_payload (contact_with_birth_date (Some "07.03.1985"))
    !! "dateOfBirth" = Some "1985-03-07"
  /\ build_ghl_contact_payload (contact_with_birth_date (Some "7.3"))
    !! "dateOfBirth" = None
  /\ build_ghl_contact_payload (contact_with_birth_date (Some "7.3.1985"))
    !! "dateOfBirth" = Some "1985-03-07".
Proof.
  split; [|split].
  - apply (proj1 (birth_date_conversion
                    (contact_with_birth_date (Some "07.03.1985")))
             "07.03.1985"); reflexivity.
  - apply (proj1 (proj2 (birth_date_conversion
                           (contact_with_birth_date (Some "7.3"))))).
    vm_compute. lia.
  - apply (proj2 (proj2 (birth_date_conversion
                           (contact_with_birth_date (Some "7.3.1985"))))
             "7.3.1985" "7" "3" "1985"); reflexivity.
Defined.

(** C6 as stated fails: a malformed value with two dots is transmitted. *)
Lemma birth_date_malformed_is_sent :
  is_ddmmyyyy "ab.cd.ef" = false
  /\ build_ghl_contact_payload (contact_with_birth_date (Some "ab.cd.ef"))
       !! "dateOfBirth" = Some "ef-cd-ab".
Proof. split; vm_compute; reflexivity. Qed.

(** *** Rate limiter *)

(** C1 at the failing input: [RateLimiter(10)], one hundred back-to-back
    admissions starting at clock 1000 s.  The first and the last admission
    are 0.9 s apart, far below the 9.9 s that ten admissions per second
    would need: each of the ten slots is reused after [1/10] s, so the
    limiter lets one hundred admissions per second through. *)
Theorem rate_limiter_100_in_09s :
  let ts := RateLimiter.admissions (replicate 100 0%Q) (RateLimiter.init 10) 1000%Q in
  length ts = 100%nat
  /\ Qeq (RateLimiter.span ts) (9 # 10)
  /\ Qlt (RateLimiter.span ts) (99 # 10).
Proof. vm_compute. repeat split. Qed.

(** *** Token refresh *)

Ltac run_M :=
  unfold mbind, M_bind, mret, M_ret, get_world, modify, raise, try_except,
    atomic, time_sleep, response_json, request in *;
  cbn [fst snd network trace contact_sync appointment_sync ghl_auth
       ephysio_auth log set_network set_ghl_auth set_contact_sync
       set_appointment_sync set_ephysio_auth] in *.

Lemma save_ghl_auth_cases (auth : Instance GHLAuthCredentials.t) (w : World) :
  (exists e, save_ghl_auth auth w = (Raise e, w))
  \/ (exists k, pk auth = Some k
        /\ save_ghl_auth auth w
           = (Ok tt,
              set_ghl_auth (table_update k (fun _ => row auth) (ghl_auth w)) w)).
Proof.
  unfold save_ghl_auth. destruct (pk auth) as [k|].
  - match goal with |- context [if ?c then _ else _] => destruct c end.
    + left. eexists. reflexivity.
    + right. exists k. split; reflexivity.
  - left. eexists. reflexivity.
Qed.

(** C9. [refresh_ghl_token] always returns a pair (it never raises).  When
    the pair is [(False, message)] the credential table is unchanged, and
    this is what happens when there is no stored row, when the stored
    refresh token is empty, when the reply is not a 200, when the request
    fails on the network, or when the reply body does not parse.  When the
    refresh succeeds on a reply without a [refresh_token] key, the stored
    refresh token is kept. *)
Theorem refresh_ghl_token_failure_keeps_credentials (w : World) :
  exists ok msg,
    fst (refresh_ghl_token w) = Ok (ok, msg)
    /\ (ok = false -> ghl_auth (snd (refresh_ghl_token w)) = ghl_auth w)
    /\ (ghl_auth w = []
        \/ (exists a rest, ghl_auth w = a :: rest
              /\ Py.truthy (GHLAuthCredentials.refresh_token a) = false)
        \/ (exists resp rest, network w = Answer resp :: rest
              /\ (status_code resp <> 200%Z \/ json resp = None))
        \/ (exists e rest, network w = Fails e :: rest)
        \/ network w = []
        -> ok = false)
    /\ (forall a rest resp rest' td,
          ghl_auth w = a :: rest ->
          network w = Answer resp :: rest' ->
          json resp = Some (BToken td) ->
          TokenData.refresh_token td = Absent ->
          ok = true ->
          exists a', ghl_auth (snd (refresh_ghl_token w)) = a' :: rest
            /\ GHLAuthCredentials.refresh_token a'
               = GHLAuthCredentials.refresh_token a).
Proof.
  unfold refresh_ghl_token. run_M.
  destruct (ghl_auth w) as [|a rest] eqn:Hauth; cbn [objects_all imap head].
  { do 2 eexists. cbn. split; [reflexivity|]. split; [congruence|].
    split; [reflexivity|]. intros; discriminate. }
  cbn [row pk].
  destruct (Py.truthy (GHLAuthCredentials.refresh_token a)) eqn:Hrt;
    cbn [negb].
  2:{ do 2 eexists. cbn. split; [reflexivity|]. split; [congruence|].
      split; [reflexivity|]. intros; discriminate. }
  destruct (network w) as [|[resp|e] net] eqn:Hnet.
  - (* nothing answers *)
    cbn. do 2 eexists. split; [reflexivity|]. split; [congruence|].
    split; [reflexivity|]. intros; discriminate.
  - cbn [fst snd].
    destruct (status_code resp =? 200)%Z eqn:Hst; cbn [negb].
    2:{ cbn. do 2 eexists. split; [reflexivity|]. split; [congruence|].
        split; [reflexivity|]. intros; discriminate. }
    apply Z.eqb_eq in Hst.
    destruct (json resp) as [b|] eqn:Hjs.
    2:{ cbn. do 2 eexists. split; [reflexivity|]. split; [congruence|].
        split; [reflexivity|]. intros; discriminate. }
    destruct b as [d|td|l|l|l];
      try (cbn; do 2 eexists; split; [reflexivity|]; split; [congruence|];
           split; [reflexivity|]; intros; discriminate).
    run_M. cbn [fst snd].
    match goal with
    | |- context [save_ghl_auth ?i ?w0] =>
        destruct (save_ghl_auth_cases i w0) as [(e & ->)|(k & Hk & ->)]
    end.
    + cbn. destruct (is_request_exception e); cbn;
        do 2 eexists; (split; [reflexivity|]); (split; [congruence|]);
        (split; [reflexivity|]); intros; discriminate.
    + cbn in Hk. injection Hk as <-.
      cbn. do 2 eexists. split; [reflexivity|].
      split; [discriminate|]. split.
      * intros [H|[(a0 & r0 & [= <- <-] & H)|[(r0 & n0 & [= <- <-] & H)|[(e & n0 & H)|H]]]];
          try discriminate; try congruence.
        destruct H; congruence.
      * intros a0 rest0 resp0 rest' td0 [= <- <-] [= <- <-] Hj Habs _.
        rewrite Hjs in Hj. injection Hj as <-.
        rewrite Hauth. cbn.
        eexists. split; [reflexivity|]. cbn. rewrite Habs. reflexivity.
  - cbn. destruct (is_request_exception e); cbn;
      do 2 eexists; (split; [reflexivity|]); (split; [congruence|]);
      (split; [reflexivity|]); intros; discriminate.
Qed.

Lemma refresh_ghl_token_failure_keeps_credentials_witness :
  ghl_auth (snd (refresh_ghl_token Sample.world_refresh_401))
    = ghl_auth Sample.world_refresh_401
  /\ exists a',
       ghl_auth (snd (refresh_ghl_token Sample.world_refresh_ok)) = [a']
       /\ GHLAuthCredentials.refresh_token a' = Some "refresh-0".
Proof.
  split.
  - destruct (refresh_ghl_token_failure_keeps_credentials
                Sample.world_refresh_401) as (ok & msg & _ & Hkeep & Hfail & _).
    apply Hkeep, Hfail. right; right; left.
    exists (mkResponse 401 "invalid_grant" None), [].
    split; [reflexivity|]. left. cbn. lia.
  - destruct (refresh_ghl_token_failure_keeps_credentials
                Sample.world_refresh_ok) as (ok & msg & Hr & _ & _ & Hkept).
    vm_compute in Hr. injection Hr as <- _.
    apply (Hkept Sample.credentials []
             (mkResponse 200 "" (Some (BToken Sample.token_without_refresh)))
             [] Sample.token_without_refresh); reflexivity.
Defined.

(** *** Retry policy of the CRM writes *)

Lemma request_run method url w :
  request method url w
  = (match nth_reply w 0 with
     | Answer r => Ok r
     | Fails e => Raise e
     end, after_request method url w).
Proof.
  unfold request, nth_reply, after_request.
  cbn [network log]. destruct (network w) as [|[r|e] rest] eqn:Hn; cbn.
  - destruct w; cbn in *; subst; reflexivity.
  - reflexivity.
  - reflexivity.
Qed.

Lemma error_message_of_run resp txt w :
  exists v, error_message_of resp txt w = (Ok v, w).
Proof.
  unfold error_message_of, try_except, response_json, mbind, M_bind.
  destruct (json resp) as [[d|?|?|?|?]|]; cbn; eauto.
Qed.

Lemma wrap_result_run key resp w :
  (exists d, wrap_result key resp w = (Ok d, w))
  \/ (exists e, wrap_result key resp w = (Raise e, w)
        /\ (e = JSONDecodeError \/ e = AttributeError)).
Proof.
  unfold wrap_result, response_json, mbind, M_bind.
  destruct (json resp) as [[d|?|?|?|?]|]; cbn; eauto.
  destruct (dict_has key d); [eauto|]. destruct (dict_has "id" d); eauto.
Qed.

Lemma attempt_once_run a w :
  let w1 := after_request "POST" APPOINTMENTS_URL w in
  if retryable (nth_reply w 0) && (a <? MAX_RETRIES - 1)%nat
  then attempt_once a w
       = (Ok None, log (Sleep (RETRY_DELAY * (Z.of_nat a + 1))) w1)
  else exists d,
      attempt_once a w = (Ok (Some d), w1)
      /\ (is_success (nth_reply w 0) = false ->
          is_error d = true
          /\ forall resp, nth_reply w 0 = Answer resp ->
               dict_get "status_code" d = Some (JNum (status_code resp))).
Proof.
  intros w1. unfold attempt_once, try_except, mbind, M_bind.
  rewrite request_run. fold w1.
  destruct (nth_reply w 0) as [resp|e] eqn:Hr; cbn [retryable is_success].
  - destruct ((status_code resp =? 200)%Z || (status_code resp =? 201)%Z)
      eqn:Hok.
    + assert ((500 <=? status_code resp)%Z = false) as ->.
      { apply orb_prop in Hok. destruct Hok as [H|H];
          apply Z.eqb_eq in H; rewrite H; reflexivity. }
      cbn [andb].
      destruct (wrap_result_run "appointment" resp w1)
        as [(d & ->)|(e & -> & [-> | ->])];
        cbn; eexists; (split; [reflexivity|]); intros; discriminate.
    + destruct ((500 <=? status_code resp)%Z && (a <? MAX_RETRIES - 1)%nat)
        eqn:Hretry.
      * reflexivity.
      * destruct (error_message_of_run resp
                    (String.substring 0 200 (text resp)) w1) as (v & ->).
        cbn. eexists. split; [reflexivity|]. intros _. split; [reflexivity|].
        intros resp' [= <-]. reflexivity.
  - destruct e; cbn [andb];
      try (cbn; eexists; split; [reflexivity|]; intros _; split;
           [reflexivity|]; intros; discriminate).
    + destruct (a <? MAX_RETRIES - 1)%nat; cbn.
      * reflexivity.
      * eexists; split; [reflexivity|]; intros _; split;
           [reflexivity|]; intros; discriminate.
    + destruct (a <? MAX_RETRIES - 1)%nat; cbn.
      * reflexivity.
      * eexists; split; [reflexivity|]; intros _; split;
           [reflexivity|]; intros; discriminate.
Qed.

Lemma get_ghl_auth_run w :
  exists access_token location_id,
    get_ghl_auth w = (Ok (access_token, location_id), w)
    /\ negb (Py.truthy access_token) || negb (Py.truthy location_id)
       = negb (ghl_ready w)
    /\ (ghl_ready w = true -> Py.truthy access_token = true).
Proof.
  unfold get_ghl_auth, ghl_ready, get_world, mbind, M_bind.
  destruct (head (ghl_auth w)) as [auth|]; cbn.
  - destruct (Py.truthy (GHLAuthCredentials.location_id auth)) eqn:Hl; cbn.
    + do 2 eexists. split; [reflexivity|]. rewrite Hl.
      split; [apply orb_false_r|]. tauto.
    + do 2 eexists. split; [reflexivity|]. split; [reflexivity|].
      discriminate.
  - do 2 eexists. split; [reflexivity|]. split; [reflexivity|]. discriminate.
Qed.

Lemma get_ghl_headers_ready w :
  ghl_ready w = true -> get_ghl_headers w = (Ok tt, w).
Proof.
  intros Hr. unfold get_ghl_headers, mbind, M_bind.
  destruct (get_ghl_auth_run w) as (a & l & -> & _ & Ha).
  rewrite (Ha Hr). reflexivity.
Qed.

Lemma build_ghl_appointment_payload_ready a w :
  ghl_ready w = true ->
  Py.truthy (AppointmentSync.ghl_contact_id a) = true ->
  exists payload, build_ghl_appointment_payload a w = (Ok payload, w).
Proof.
  intros Hr Hc. unfold build_ghl_appointment_payload, mbind, M_bind.
  destruct (get_ghl_auth_run w) as (at_ & l & -> & Hcond & _).
  rewrite Hcond, Hr, Hc. cbn [negb]. eexists. reflexivity.
Qed.

Lemma nth_reply_log e w k : nth_reply (log e w) k = nth_reply w k.
Proof. reflexivity. Qed.

Lemma nth_reply_after_request method url w k :
  nth_reply (after_request method url w) k = nth_reply w (S k).
Proof.
  unfold nth_reply, after_request. cbn [network set_network log].
  rewrite lookup_tail. reflexivity.
Qed.

(** The shapes a run of the retry loop can take. *)
Lemma retry_loop_run w :
  let H := Http "POST" APPOINTMENTS_URL in
  exists d wf,
    retry_loop (seq 0 MAX_RETRIES) w = (Ok d, wf)
    /\ ((retryable (nth_reply w 0) = false
         /\ trace wf = (trace w ++ [H])%list
         /\ (is_success (nth_reply w 0) = false ->
             is_error d = true
             /\ forall resp, nth_reply w 0 = Answer resp ->
                  dict_get "status_code" d = Some (JNum (status_code resp))))
        \/ (retryable (nth_reply w 0) = true
            /\ retryable (nth_reply w 1) = false
            /\ trace wf = (trace w ++ [H; Sleep 2; H])%list)
        \/ (retryable (nth_reply w 0) = true
            /\ retryable (nth_reply w 1) = true
            /\ trace wf = (trace w ++ [H; Sleep 2; H; Sleep 4; H])%list
            /\ (is_success (nth_reply w 2) = false ->
                is_error d = true
                /\ forall resp, nth_reply w 2 = Answer resp ->
                     dict_get "status_code" d
                     = Some (JNum (status_code resp))))).
Proof.
  intros H. cbn [seq MAX_RETRIES retry_loop]. unfold mbind, M_bind.
  pose proof (attempt_once_run 0 w) as H0. cbn zeta in H0.
  destruct (retryable (nth_reply w 0)) eqn:R0; cbn [andb] in H0.
  2:{ destruct H0 as (d & -> & Hd). exists d. eexists.
      split; [reflexivity|]. left. split; [reflexivity|].
      split; [reflexivity|]. exact Hd. }
  change (0 <? MAX_RETRIES - 1)%nat with true in H0. rewrite H0.
  set (w1 := log _ (after_request _ _ w)).
  pose proof (attempt_once_run 1 w1) as H1. cbn zeta in H1.
  assert (nth_reply w1 0 = nth_reply w 1) as E1.
  { unfold w1. rewrite nth_reply_log, nth_reply_after_request. reflexivity. }
  rewrite E1 in H1.
  destruct (retryable (nth_reply w 1)) eqn:R1; cbn [andb] in H1.
  2:{ destruct H1 as (d & -> & Hd). exists d. eexists.
      split; [reflexivity|]. right; left. repeat split.
      unfold w1. cbn [trace log after_request set_network].
      rewrite <- !app_assoc. reflexivity. }
  change (1 <? MAX_RETRIES - 1)%nat with true in H1. rewrite H1.
  set (w2 := log _ (after_request _ _ w1)).
  pose proof (attempt_once_run 2 w2) as H2. cbn zeta in H2.
  assert (nth_reply w2 0 = nth_reply w 2) as E2.
  { unfold w2. rewrite nth_reply_log, nth_reply_after_request.
    unfold w1. rewrite nth_reply_log, nth_reply_after_request. reflexivity. }
  rewrite E2 in H2.
  change (2 <? MAX_RETRIES - 1)%nat with false in H2.
  rewrite andb_false_r in H2.
  destruct H2 as (d & -> & Hd). exists d. eexists.
  split; [reflexivity|]. right; right. repeat split.
  - unfold w2, w1. cbn [trace log after_request set_network].
    rewrite <- !app_assoc. reflexivity.
  - apply Hd; assumption.
  - apply Hd; assumption.
Qed.

Lemma contact_write_run method url (ok_status : Z -> bool) (w : World) :
  exists d,
    try_except
      (response ← request method url;
       if ok_status (status_code response)
       then wrap_result "contact" response
       else
         error_message ← error_message_of response (text response);
         mret [("error", error_message);
               ("status_code", JNum (status_code response))])
      (fun e => Some (mret [("error", JStr (exn_str e))])) w
    = (Ok d, after_request method url w).
Proof.
  unfold try_except, mbind, M_bind. rewrite request_run.
  destruct (nth_reply w 0) as [resp|e]; [|cbn; eauto].
  destruct (ok_status (status_code resp)).
  - destruct (wrap_result_run "contact" resp (after_request method url w))
      as [(d & ->)|(e & -> & _)]; cbn; eauto.
  - destruct (error_message_of_run resp (text resp)
                (after_request method url w)) as (v & ->). cbn. eauto.
Qed.

Lemma create_ghl_contact_trace payload w :
  ghl_ready w = true ->
  trace (snd (create_ghl_contact payload w))
  = (trace w ++ [Http "POST" (GHL_BASE_URL ++ "/contacts/")])%list.
Proof.
  intros Hr. unfold create_ghl_contact, mbind at 1, M_bind at 1.
  destruct (get_ghl_auth_run w) as (a & l & -> & -> & _).
  rewrite Hr. cbn [negb]. unfold mbind at 1, M_bind at 1.
  rewrite (get_ghl_headers_ready w Hr).
  destruct (contact_write_run "POST" (GHL_BASE_URL ++ "/contacts/")
              (fun st => (st =? 200)%Z || (st =? 201)%Z) w) as (d & ->).
  reflexivity.
Qed.

Lemma update_ghl_contact_trace contact_id payload w :
  ghl_ready w = true ->
  trace (snd (update_ghl_contact contact_id payload w))
  = (trace w ++ [Http "PUT" (GHL_BASE_URL ++ "/contacts/" ++ contact_id)])%list.
Proof.
  intros Hr. unfold update_ghl_contact, mbind at 1, M_bind at 1.
  destruct (get_ghl_auth_run w) as (a & l & -> & -> & _).
  rewrite Hr. cbn [negb]. unfold mbind at 1, M_bind at 1.
  rewrite (get_ghl_headers_ready w Hr).
  destruct (contact_write_run "PUT"
              (GHL_BASE_URL ++ "/contacts/" ++ contact_id)
              (fun st => (st =? 200)%Z) w) as (d & ->).
  reflexivity.
Qed.

Lemma create_ghl_appointment_run appt w :
  ghl_ready w = true ->
  Py.truthy (AppointmentSync.ghl_contact_id (row appt)) = true ->
  create_ghl_appointment appt w
  = retry_loop (seq 0 MAX_RETRIES) (log (CallCreateGhlAppointment appt) w).
Proof.
  intros Hr Hc. unfold create_ghl_appointment, modify.
  unfold mbind at 1, M_bind at 1. unfold mbind at 1, M_bind at 1.
  set (w0 := log _ w).
  assert (ghl_ready w0 = true) as Hr0 by exact Hr.
  destruct (get_ghl_auth_run w0) as (a & l & -> & -> & _).
  rewrite Hr0, Hc. cbn [negb]. unfold mbind at 1, M_bind at 1.
  rewrite (get_ghl_headers_ready w0 Hr0). unfold mbind at 1, M_bind at 1.
  destruct (build_ghl_appointment_payload_ready (row appt) w0 Hr0 Hc)
    as (payload & ->).
  reflexivity.
Qed.

(** C3 (as the code has it).  With credentials in place and an appointment
    that has a CRM contact id, the appointment-create write makes between one
    and three attempts; an attempt is followed by another only after a reply
    with status 500 or above, a timeout or a connection error; the pause
    after attempt number [n] (counted from 1) is [n * RETRY_DELAY] seconds; a
    first reply with a 4xx status ends the write after exactly one attempt
    with an error result carrying that status; three replies with status 503
    give exactly three attempts and an error result carrying 503.  The
    contact create and update writes make exactly one attempt whatever the
    reply. *)
Theorem retry_policy_of_crm_writes
    (w : World) (appt : Instance AppointmentSync.t)
    (payload : gmap string string) :
  ghl_ready w = true ->
  Py.truthy (AppointmentSync.ghl_contact_id (row appt)) = true ->
  let t := new_events (create_ghl_appointment appt) w in
  (1 <= attempts_in t <= 3)%nat
  /\ (forall k, (S k < attempts_in t)%nat -> retryable (nth_reply w k) = true)
  /\ sleeps_in t
     = map (fun k => (RETRY_DELAY * (Z.of_nat k + 1))%Z)
         (seq 0 (attempts_in t - 1))
  /\ (exists d,
        fst (create_ghl_appointment appt w) = Ok d
        /\ (forall resp,
              nth_reply w 0 = Answer resp ->
              (400 <= status_code resp < 500)%Z ->
              attempts_in t = 1%nat /\ is_error d = true
              /\ dict_get "status_code" d = Some (JNum (status_code resp)))
        /\ ((forall k, (k < 3)%nat ->
               exists resp, nth_reply w k = Answer resp
                            /\ status_code resp = 503%Z) ->
            attempts_in t = 3%nat /\ is_error d = true
            /\ dict_get "status_code" d = Some (JNum 503)))
  /\ attempts_in (new_events (create_ghl_contact payload) w) = 1%nat
  /\ (forall contact_id,
        attempts_in (new_events (update_ghl_contact contact_id payload) w)
        = 1%nat).
Proof.
  intros Hr Hc t.
  assert (attempts_in (new_events (create_ghl_contact payload) w) = 1%nat
          /\ (forall contact_id,
                attempts_in
                  (new_events (update_ghl_contact contact_id payload) w)
                = 1%nat)) as Hcontact.
  { split; [|intros contact_id]; unfold new_events.
    - rewrite (create_ghl_contact_trace payload w Hr), drop_app_length.
      reflexivity.
    - rewrite (update_ghl_contact_trace contact_id payload w Hr),
        drop_app_length. reflexivity. }
  subst t. unfold new_events.
  rewrite (create_ghl_appointment_run appt w Hr Hc).
  set (w0 := log (CallCreateGhlAppointment appt) w).
  destruct (retry_loop_run w0) as (d & wf & Hrun & Hshape).
  cbn zeta in Hshape. rewrite Hrun. cbn [fst snd].
  change (nth_reply w0 0) with (nth_reply w 0) in Hshape.
  change (nth_reply w0 1) with (nth_reply w 1) in Hshape.
  change (nth_reply w0 2) with (nth_reply w 2) in Hshape.
  assert (forall l, drop (length (trace w)) (trace w0 ++ l)%list
                    = CallCreateGhlAppointment appt :: l) as Hdrop.
  { intros l. unfold w0. cbn [trace log]. rewrite <- app_assoc.
    apply drop_app_length. }
  destruct Hshape as [(R0 & -> & Hd)|[(R0 & R1 & ->)|(R0 & R1 & -> & Hd)]];
    rewrite Hdrop; cbn [attempts_in List.filter is_http length sleeps_in omap
                        Nat.sub seq map].
  - (* one attempt *)
    split; [unfold attempts_in; cbn; lia|].
    split; [intros k Hk; unfold attempts_in in Hk; cbn in Hk; lia|].
    split; [reflexivity|]. split; [|exact Hcontact].
    exists d. split; [reflexivity|]. split.
    + intros resp Hresp Hst.
      assert (is_success (nth_reply w 0) = false) as Hns.
      { rewrite Hresp. cbn. apply orb_false_intro; apply Z.eqb_neq; lia. }
      destruct (Hd Hns) as [He Hs]. split; [reflexivity|]. split; [exact He|].
      apply Hs, Hresp.
    + intros H503. destruct (H503 0%nat) as (resp & Hresp & Hst); [lia|].
      rewrite Hresp in R0. cbn in R0. rewrite Hst in R0. discriminate R0.
  - (* two attempts *)
    split; [unfold attempts_in; cbn; lia|].
    split.
    { intros k Hk. unfold attempts_in in Hk. cbn in Hk.
      assert (k = 0%nat) as -> by lia. exact R0. }
    split; [reflexivity|]. split; [|exact Hcontact].
    exists d. split; [reflexivity|]. split.
    + intros resp Hresp Hst. rewrite Hresp in R0. cbn in R0.
      apply Z.leb_le in R0. lia.
    + intros H503. destruct (H503 1%nat) as (resp & Hresp & Hst); [lia|].
      rewrite Hresp in R1. cbn in R1. rewrite Hst in R1. discriminate R1.
  - (* three attempts *)
    split; [unfold attempts_in; cbn; lia|].
    split.
    { intros k Hk. unfold attempts_in in Hk. cbn in Hk.
      assert (k = 0 \/ k = 1)%nat as [-> | ->] by lia; assumption. }
    split; [reflexivity|]. split; [|exact Hcontact].
    exists d. split; [reflexivity|]. split.
    + intros resp Hresp Hst. rewrite Hresp in R0. cbn in R0.
      apply Z.leb_le in R0. lia.
    + intros H503. destruct (H503 2%nat) as (resp & Hresp & Hst); [lia|].
      assert (is_success (nth_reply w 2) = false) as Hns.
      { rewrite Hresp. cbn. rewrite Hst. reflexivity. }
      destruct (Hd Hns) as [He Hs]. split; [reflexivity|]. split; [exact He|].
      rewrite <- Hst. apply Hs, Hresp.
Qed.

Lemma retry_policy_of_crm_writes_witness :
  attempts_in
    (new_events (create_ghl_appointment Sample.linked_appointment)
       Sample.world_all_503) = 3%nat
  /\ attempts_in
       (new_events (create_ghl_appointment Sample.linked_appointment)
          Sample.world_422) = 1%nat.
Proof.
  split.
  - destruct (retry_policy_of_crm_writes Sample.world_all_503
                Sample.linked_appointment ∅ eq_refl eq_refl)
      as (_ & _ & _ & (d & _ & _ & H503) & _).
    apply H503. intros k Hk. exists Sample.unavailable.
    destruct k as [|[|[|k]]]; [split; reflexivity ..|lia].
  - destruct (retry_policy_of_crm_writes Sample.world_422
                Sample.linked_appointment ∅ eq_refl eq_refl)
      as (_ & _ & _ & (d & _ & H4xx & _) & _).
    eapply H4xx; [reflexivity|]. cbn. lia.
Defined.

(** C3 as stated fails for the contact writes: a contact create that gets
    503 is attempted once, not three times. *)
Lemma contact_create_503_single_attempt :
  (forall k, (k < 3)%nat ->
     nth_reply Sample.world_all_503 k = Answer Sample.unavailable)
  /\ attempts_in (new_events (create_ghl_contact ∅) Sample.world_all_503)
     = 1%nat
  /\ attempts_in (new_events (create_ghl_contact ∅) Sample.world_all_503)
     <> 3%nat.
Proof.
  split; [|split].
  - intros k Hk. destruct k as [|[|[|k]]]; [reflexivity ..|lia].
  - vm_compute. reflexivity.
  - vm_compute. discriminate.
Qed.

(** *** Reasoning about runs: relations kept by every step *)

Section Preservation.
Context (R : World -> World -> Prop) `{!PreOrder R}.

Lemma preserves_mret {A} (a : A) : preserves R (mret a).
Proof. intros w. reflexivity. Qed.

Lemma preserves_raise {A} (e : exn) : preserves R (@raise A e).
Proof. intros w. reflexivity. Qed.

Lemma preserves_get_world : preserves R get_world.
Proof. intros w. reflexivity. Qed.

Lemma preserves_bind {A B} (m : M A) (f : A -> M B) :
  preserves R m -> (forall a, preserves R (f a)) -> preserves R (m ≫= f).
Proof.
  intros Hm Hf w. unfold mbind, M_bind.
  specialize (Hm w). destruct (m w) as [[a|e] w1]; cbn in *.
  - etransitivity; [exact Hm|apply Hf].
  - exact Hm.
Qed.

Lemma preserves_try_except {A} (m : M A) handler :
  preserves R m ->
  (forall e h, handler e = Some h -> preserves R h) ->
  preserves R (try_except m handler).
Proof.
  intros Hm Hh w. unfold try_except.
  specialize (Hm w). destruct (m w) as [[a|e] w1]; cbn in *.
  - exact Hm.
  - destruct (handler e) as [h|] eqn:He; [|exact Hm].
    etransitivity; [exact Hm|eapply Hh, He].
Qed.

Lemma preserves_atomic {A} (m : M A) :
  (forall w w', R w w' -> R w (rollback w w')) ->
  preserves R m -> preserves R (atomic m).
Proof.
  intros Hroll Hm w. unfold atomic.
  specialize (Hm w). destruct (m w) as [[a|e] w1]; cbn in *.
  - exact Hm.
  - apply Hroll, Hm.
Qed.

Lemma preserves_for_each {A S} (body : A -> S -> M S) l :
  (forall x s, In x l -> preserves R (body x s)) ->
  forall s, preserves R (for_each body l s).
Proof.
  induction l as [|x l IH]; intros Hb s; cbn [for_each].
  - apply preserves_mret.
  - apply preserves_bind.
    + apply Hb. left. reflexivity.
    + intros s'. apply IH. intros y s0 Hy. apply Hb. right. exact Hy.
Qed.

Lemma preserves_modify (f : World -> World) :
  (forall w, R w (f w)) -> preserves R (modify f).
Proof. intros Hf w. apply Hf. Qed.
End Preservation.

(** Splits a goal [preserves R m] along the structure of [m]. *)
Ltac preserves_step :=
  lazymatch goal with
  | |- preserves _ (mret _) => apply preserves_mret; try typeclasses eauto
  | |- preserves _ (raise _) => apply preserves_raise; try typeclasses eauto
  | |- preserves _ get_world => apply preserves_get_world; try typeclasses eauto
  | |- preserves _ (_ ≫= _) =>
      apply preserves_bind; [try typeclasses eauto| |intros ?]
  | |- preserves _ (try_except _ _) =>
      apply preserves_try_except;
      [try typeclasses eauto| |
       let e := fresh "e" in let h := fresh "h" in let Hh := fresh "Hh" in
       intros e h Hh; try (destruct e); cbn in Hh;
       try discriminate Hh; injection Hh as <-]
  | |- preserves _ (match ?x with _ => _ end) => destruct x eqn:?
  end.

#[global] Instance lift_preorder Rc Ra Rg Rt
    `{!PreOrder Rc, !PreOrder Ra, !PreOrder Rg, !PreOrder Rt} :
  PreOrder (lift Rc Ra Rg Rt).
Proof.
  split.
  - intros w. repeat split; reflexivity.
  - intros w1 w2 w3 (?&?&?&?) (?&?&?&?).
    repeat split; etransitivity; eassumption.
Qed.

Ltac lift_solve :=
  unfold lift;
  cbn [contact_sync appointment_sync ghl_auth ephysio_auth network trace
       set_contact_sync set_appointment_sync set_ghl_auth set_ephysio_auth
       set_network log after_request rollback fst snd];
  repeat split; try reflexivity; eauto.

Ltac lift_leaf := intros ?; lift_solve.

Create HintDb pres.

Section Lifted.
Context (Rc : relation (list ContactSync.t))
        (Ra : relation (list AppointmentSync.t))
        (Rg : relation (list GHLAuthCredentials.t))
        (Rt : relation (list event))
        `{!PreOrder Rc, !PreOrder Ra, !PreOrder Rg, !PreOrder Rt}.
Hypothesis Rt_http : forall t method url, Rt t (t ++ [Http method url])%list.
Hypothesis Rt_sleep : forall t d, Rt t (t ++ [Sleep d])%list.

#[local] Abbreviation R := (lift Rc Ra Rg Rt).

Lemma lift_rollback w w' : R w w' -> R w (rollback w w').
Proof. intros (?&?&?&?). lift_solve. Qed.

Lemma lift_request method url : preserves R (request method url).
Proof. intros w. rewrite request_run. cbn [snd]. revert w. lift_leaf. Qed.

Lemma lift_time_sleep d : preserves R (time_sleep d).
Proof. apply preserves_modify. lift_leaf. Qed.

Lemma lift_response_json r : preserves R (response_json r).
Proof. unfold response_json. repeat preserves_step. Qed.

Lemma lift_raise_for_status r : preserves R (raise_for_status r).
Proof. unfold raise_for_status. repeat preserves_step. Qed.

#[local] Hint Resolve lift_request lift_time_sleep lift_response_json
  lift_raise_for_status : pres.

Ltac pres := repeat first [ solve [eauto with pres] | preserves_step ].

Lemma lift_error_message_of r txt : preserves R (error_message_of r txt).
Proof. unfold error_message_of. pres. Qed.

Lemma lift_wrap_result key r : preserves R (wrap_result key r).
Proof. unfold wrap_result. pres. Qed.

Lemma lift_get_ghl_auth : preserves R get_ghl_auth.
Proof. unfold get_ghl_auth. pres. Qed.

#[local] Hint Resolve lift_error_message_of lift_wrap_result lift_get_ghl_auth : pres.

Lemma lift_get_ghl_headers : preserves R get_ghl_headers.
Proof. unfold get_ghl_headers. pres. Qed.

Lemma lift_build_ghl_appointment_payload a :
  preserves R (build_ghl_appointment_payload a).
Proof. unfold build_ghl_appointment_payload. pres. Qed.

#[local] Hint Resolve lift_get_ghl_headers lift_build_ghl_appointment_payload : pres.

Lemma lift_create_ghl_contact payload :
  preserves R (create_ghl_contact payload).
Proof. unfold create_ghl_contact. pres. Qed.

Lemma lift_update_ghl_contact cid payload :
  preserves R (update_ghl_contact cid payload).
Proof. unfold update_ghl_contact. pres. Qed.

Lemma lift_attempt_once a : preserves R (attempt_once a).
Proof. unfold attempt_once. pres. Qed.

#[local] Hint Resolve lift_attempt_once lift_create_ghl_contact : pres.

Lemma lift_retry_loop l : preserves R (retry_loop l).
Proof. induction l as [|a l IH]; cbn [retry_loop]; pres. Qed.

#[local] Hint Resolve lift_retry_loop : pres.

Lemma lift_create_ghl_appointment a :
  (forall t, Rt t (t ++ [CallCreateGhlAppointment a])%list) ->
  preserves R (create_ghl_appointment a).
Proof.
  intros Hcall. unfold create_ghl_appointment.
  preserves_step; [apply preserves_modify; lift_leaf|]. pres.
Qed.

Lemma lift_extract_id key result : preserves R (extract_id key result).
Proof. unfold extract_id. pres. Qed.

Lemma lift_authenticate_ephysio : preserves R authenticate_ephysio.
Proof.
  unfold authenticate_ephysio. pres.
  apply preserves_modify. lift_leaf.
Qed.

#[local] Hint Resolve lift_authenticate_ephysio lift_extract_id : pres.

Lemma lift_get_ephysio_headers : preserves R get_ephysio_headers.
Proof. unfold get_ephysio_headers. pres. Qed.

#[local] Hint Resolve lift_get_ephysio_headers : pres.

Lemma lift_get_active_patients : preserves R get_active_patients.
Proof. unfold get_active_patients. pres. Qed.

Lemma lift_get_ephysio_appointments a b :
  preserves R (get_ephysio_appointments a b).
Proof. unfold get_ephysio_appointments. pres. Qed.

Hint Resolve lift_get_active_patients lift_get_ephysio_appointments
  lift_create_ghl_appointment : pres.

Lemma preserves_bind_at {A B} (m : M A) (f : A -> M B) w :
  R w (snd (m w)) -> (forall a, preserves R (f a)) ->
  R w (snd ((m ≫= f) w)).
Proof.
  intros Hm Hf. unfold mbind, M_bind.
  destruct (m w) as [[a|e] w1]; cbn in *.
  - etransitivity; [exact Hm|apply Hf].
  - exact Hm.
Qed.

Lemma preserves_atomic_at {A} (m : M A) w :
  R w (snd (m w)) -> R w (snd (atomic m w)).
Proof.
  intros Hm. unfold atomic. destruct (m w) as [[a|e] w1]; cbn in *.
  - exact Hm.
  - apply lift_rollback, Hm.
Qed.

(** **** The patient task *)

Hypothesis Rc_save : forall t k v,
  Rc t (table_update k (ContactSync.set_ghl_contact_id v) t).

Lemma lift_save_contact_ghl_id c v : preserves R (save_contact_ghl_id c v).
Proof.
  unfold save_contact_ghl_id. pres. apply preserves_modify. lift_leaf.
Qed.

Hint Resolve lift_save_contact_ghl_id : pres.

Lemma lift_push_contact c n : preserves R (push_contact c n).
Proof. unfold push_contact. pres. Qed.

Hint Resolve lift_push_contact : pres.

Lemma lift_push_contacts_to_ghl l ids : preserves R (push_contacts_to_ghl l ids).
Proof.
  unfold push_contacts_to_ghl. pres.
  apply preserves_for_each; [typeclasses eauto|]. intros; pres.
Qed.

Lemma lift_bulk_persist_contacts upd cre w :
  Rc (contact_sync w)
     (foldl (fun t o =>
               table_update (default 0%nat (pk o))
                 (write_contact_fields (row o)) t)
        (contact_sync w) upd) ->
  (forall t,
     Rc t (foldl (fun t o =>
                    if contact_conflicts t (row o) then t
                    else (t ++ [row o])%list) t cre)) ->
  R w (snd (bulk_persist_contacts upd cre w)).
Proof.
  intros Hupd Hcre. unfold bulk_persist_contacts.
  apply preserves_bind_at.
  - destruct upd eqn:Hobjs; [reflexivity|]. rewrite <- Hobjs in *.
    clear Hobjs.
    apply preserves_atomic_at, preserves_bind_at; [|intros; pres].
    unfold bulk_update_contacts.
    destruct (existsb _ _); [reflexivity|].
    unfold modify; cbn [snd]. lift_solve.
  - intros total_updated. preserves_step; [|pres].
    destruct cre eqn:Hobjs; [pres|]. rewrite <- Hobjs in *. clear Hobjs.
    apply preserves_atomic; try typeclasses eauto; [apply lift_rollback|].
    preserves_step; [|pres].
    unfold bulk_create_contacts. apply preserves_modify.
    intros w0. lift_solve.
Qed.

Lemma lift_sync_patients_after_fetch patients w :
  (let plan := patient_plan w patients in
   Rc (contact_sync w)
      (foldl (fun t o =>
                table_update (default 0%nat (pk o))
                  (write_contact_fields (row o)) t)
         (contact_sync w)
         (omap (fun k => PatientPlan.existing_contacts plan !! k)
            (PatientPlan.contacts_to_update plan)))) ->
  (forall t,
     Rc t (foldl (fun t o =>
                    if contact_conflicts t (row o) then t
                    else (t ++ [row o])%list)
             t (PatientPlan.contacts_to_create (patient_plan w patients)))) ->
  R w (snd (sync_patients_after_fetch patients w)).
Proof.
  intros Hupd Hcre. unfold sync_patients_after_fetch.
  destruct patients as [|p ps]; [reflexivity|].
  change (get_world ≫= ?f) with (fun w0 : World => f w0 w0). cbn beta.
  fold (patient_plan w (p :: ps)).
  set (plan := patient_plan w (p :: ps)) in *.
  apply preserves_bind_at.
  - apply lift_bulk_persist_contacts; assumption.
  - intros [[total_updated total_created] created_patient_ids].
    preserves_step; [apply lift_push_contacts_to_ghl|pres].
Qed.

Lemma lift_sync_patients_incremental w :
  (forall w1 patients,
     let plan := patient_plan w1 patients in
     Rc (contact_sync w1)
        (foldl (fun t o =>
                  table_update (default 0%nat (pk o))
                    (write_contact_fields (row o)) t)
           (contact_sync w1)
           (omap (fun k => PatientPlan.existing_contacts plan !! k)
              (PatientPlan.contacts_to_update plan)))) ->
  (forall w1 patients t,
     Rc t (foldl (fun t o =>
                    if contact_conflicts t (row o) then t
                    else (t ++ [row o])%list)
             t (PatientPlan.contacts_to_create (patient_plan w1 patients)))) ->
  R w (snd (sync_patients_incremental w)).
Proof.
  intros Hupd Hcre. revert w.
  change (preserves R sync_patients_incremental).
  unfold sync_patients_incremental. pres.
  intros w. apply lift_sync_patients_after_fetch; [apply Hupd|apply Hcre].
Qed.

(** **** The appointment task *)

Hypothesis Ra_save : forall t k v,
  Ra t (table_update k (AppointmentSync.set_ghl_appointment_id v) t).
Hypothesis Rt_call : forall t a,
  Py.truthy (AppointmentSync.ghl_contact_id (row a)) = true ->
  Rt t (t ++ [CallCreateGhlAppointment a])%list.

Lemma lift_save_appointment_ghl_id a v :
  preserves R (save_appointment_ghl_id a v).
Proof.
  unfold save_appointment_ghl_id. pres. apply preserves_modify. lift_leaf.
Qed.

Hint Resolve lift_save_appointment_ghl_id : pres.

Lemma lift_push_appointment a n : preserves R (push_appointment a n).
Proof.
  unfold push_appointment.
  destruct (Py.truthy (AppointmentSync.ghl_contact_id (row a))) eqn:Hc;
    cbn [negb]; pres.
Qed.

Hint Resolve lift_push_appointment : pres.

Lemma lift_push_appointments_to_ghl l ids :
  preserves R (push_appointments_to_ghl l ids).
Proof.
  unfold push_appointments_to_ghl. pres.
  apply preserves_for_each; [typeclasses eauto|]. intros; pres.
Qed.

Lemma lift_bulk_persist_appointments upd cre w :
  Ra (appointment_sync w)
     (foldl (fun t o =>
               table_update (default 0%nat (pk o))
                 (write_appointment_fields (row o)) t)
        (appointment_sync w) upd) ->
  (forall t,
     Ra t (foldl (fun t o =>
                    if appointment_conflicts t (row o) then t
                    else (t ++ [row o])%list) t cre)) ->
  R w (snd (bulk_persist_appointments upd cre w)).
Proof.
  intros Hupd Hcre. unfold bulk_persist_appointments.
  apply preserves_bind_at.
  - destruct upd eqn:Hobjs; [reflexivity|]. rewrite <- Hobjs in *.
    clear Hobjs.
    apply preserves_atomic_at, preserves_bind_at; [|intros; pres].
    unfold bulk_update_appointments.
    destruct (existsb _ _); [reflexivity|].
    unfold modify; cbn [snd]. lift_solve.
  - intros total_updated. preserves_step; [|pres].
    destruct cre eqn:Hobjs; [pres|]. rewrite <- Hobjs in *. clear Hobjs.
    apply preserves_atomic; try typeclasses eauto; [apply lift_rollback|].
    preserves_step; [|pres].
    unfold bulk_create_appointments. apply preserves_modify.
    intros w0. lift_solve.
Qed.

Lemma lift_sync_appointments_after_fetch appointments w :
  (let plan := appointment_plan w appointments in
   Ra (appointment_sync w)
      (foldl (fun t o =>
                table_update (default 0%nat (pk o))
                  (write_appointment_fields (row o)) t)
         (appointment_sync w)
         (omap (fun k => AppointmentPlan.existing_appointments plan !! k)
            (AppointmentPlan.appointments_to_update plan)))) ->
  (forall t,
     Ra t (foldl (fun t o =>
                    if appointment_conflicts t (row o) then t
                    else (t ++ [row o])%list)
             t (AppointmentPlan.appointments_to_create
                  (appointment_plan w appointments)))) ->
  R w (snd (sync_appointments_after_fetch appointments w)).
Proof.
  intros Hupd Hcre. unfold sync_appointments_after_fetch.
  destruct appointments as [|p ps]; [reflexivity|].
  change (get_world ≫= ?f) with (fun w0 : World => f w0 w0). cbn beta.
  fold (appointment_plan w (p :: ps)).
  set (plan := appointment_plan w (p :: ps)) in *.
  apply preserves_bind_at.
  - apply lift_bulk_persist_appointments; assumption.
  - intros [[total_updated total_created] created_appointment_ids].
    preserves_step; [apply lift_push_appointments_to_ghl|pres].
Qed.

Lemma lift_sync_appointments_incremental w :
  (forall w1 appointments,
     let plan := appointment_plan w1 appointments in
     Ra (appointment_sync w1)
        (foldl (fun t o =>
                  table_update (default 0%nat (pk o))
                    (write_appointment_fields (row o)) t)
           (appointment_sync w1)
           (omap (fun k => AppointmentPlan.existing_appointments plan !! k)
              (AppointmentPlan.appointments_to_update plan)))) ->
  (forall w1 appointments t,
     Ra t (foldl (fun t o =>
                    if appointment_conflicts t (row o) then t
                    else (t ++ [row o])%list)
             t (AppointmentPlan.appointments_to_create
                  (appointment_plan w1 appointments)))) ->
  R w (snd (sync_appointments_incremental w)).
Proof.
  intros Hupd Hcre. revert w.
  change (preserves R sync_appointments_incremental).
  unfold sync_appointments_incremental. pres.
  intros w. apply lift_sync_appointments_after_fetch;
    [apply Hupd|apply Hcre].
Qed.
(** **** The contact webhook *)

Lemma lift_find_patient_by_phone phone :
  preserves R (find_patient_by_phone phone).
Proof. unfold find_patient_by_phone. pres. Qed.

Lemma lift_create_patient payload : preserves R (create_patient payload).
Proof. unfold create_patient. pres. Qed.

Lemma lift_save_contact_at o k :
  pk o = Some k ->
  (forall t, Rc t (table_update k (fun _ => row o) t)) ->
  preserves R (save_contact o).
Proof.
  intros Hk Hw. unfold save_contact. rewrite Hk. pres.
  apply preserves_modify. lift_leaf.
Qed.

Lemma lift_sync_ghl_contact_to_ephysio data o k :
  pk o = Some k ->
  (forall t v,
     Rc t (table_update k
             (fun _ => ContactSync.set_ephysio_patient_id v (row o)) t)) ->
  preserves R (sync_ghl_contact_to_ephysio data o).
Proof.
  intros Hk Hw. unfold sync_ghl_contact_to_ephysio.
  preserves_step; [apply lift_find_patient_by_phone|].
  destruct a as [patient|].
  - preserves_step; [|pres].
    apply (lift_save_contact_at _ k); [exact Hk|]. intros t. apply Hw.
  - preserves_step; [apply lift_create_patient|].
    preserves_step; [|pres].
    apply (lift_save_contact_at _ k); [exact Hk|]. intros t. apply Hw.
Qed.
End Lifted.

#[global] Instance any_preorder {A} : PreOrder (@any A).
Proof. split; repeat intro; exact I. Qed.

(** *** The push precondition of appointments *)

#[global] Instance grows_by_linked_pushes_preorder :
  PreOrder grows_by_linked_pushes.
Proof.
  split.
  - intros t. exists []. split; [symmetry; apply app_nil_r|constructor].
  - intros t1 t2 t3 (l1 & -> & H1) (l2 & -> & H2).
    exists (l1 ++ l2)%list. split; [symmetry; apply app_assoc|].
    apply Forall_app. split; assumption.
Qed.




(** *** What the table writes keep *)

#[global] Instance keeps_preorder {A} (rel : relation A) `{!PreOrder rel} :
  PreOrder (keeps rel).
Proof.
  split.
  - intros t i r Hr. exists r. split; [exact Hr|reflexivity].
  - intros t1 t2 t3 H12 H23 i r Hr.
    destruct (H12 i r Hr) as (r2 & Hr2 & Hs2).
    destruct (H23 i r2 Hr2) as (r3 & Hr3 & Hs3).
    exists r3. split; [exact Hr3|etransitivity; eassumption].
Qed.

#[global] Instance same_length_preorder {A} : PreOrder (@same_length A).
Proof.
  split.
  - intros t. reflexivity.
  - intros t1 t2 t3 H12 H23. unfold same_length in *. congruence.
Qed.

#[global] Instance same_on_preorder {A B} (f : A -> B) : PreOrder (same_on f).
Proof.
  split.
  - intros r. reflexivity.
  - intros r1 r2 r3 H12 H23. unfold same_on in *. congruence.
Qed.

Lemma source_kept_refl s : source_kept s s.
Proof. left. reflexivity. Qed.

Lemma source_kept_trans s1 s2 s3 :
  source_kept s1 s2 -> source_kept s2 s3 -> source_kept s1 s3.
Proof.
  intros [H12|[H1 H2]] [H23|[H2' H3]]; subst.
  - left. reflexivity.
  - right. split; reflexivity.
  - right. split; reflexivity.
  - discriminate H2'.
Qed.

#[global] Instance source_rel_preorder {A} (src : A -> string) :
  PreOrder (source_rel src).
Proof.
  split.
  - intros r. apply source_kept_refl.
  - intros r1 r2 r3. apply source_kept_trans.
Qed.

Section Keeps.
Context {A : Type} (rel : relation A) `{!PreOrder rel}.

Lemma keeps_update k (f : A -> A) t :
  (forall r, rel r (f r)) -> keeps rel t (table_update k f t).
Proof.
  intros Hf i r Hr. destruct k as [|j]; cbn [table_update].
  - exists r. split; [exact Hr|reflexivity].
  - destruct (decide (j = i)) as [->|Hne].
    + exists (f r). split; [|apply Hf].
      rewrite list_lookup_alter_eq, Hr. reflexivity.
    + exists r. split; [|reflexivity].
      rewrite list_lookup_alter_ne by exact Hne. exact Hr.
Qed.

Lemma keeps_app t l : keeps rel t (t ++ l)%list.
Proof.
  intros i r Hr. exists r. split; [|reflexivity].
  apply lookup_app_l_Some. exact Hr.
Qed.

Lemma keeps_create (conflicts : list A -> A -> bool) objs t :
  keeps rel t
    (foldl (fun t (o : Instance A) =>
              if conflicts t (row o) then t else (t ++ [row o])%list)
       t objs).
Proof.
  revert t. induction objs as [|o objs IH]; intros t; cbn [foldl].
  - reflexivity.
  - etransitivity; [|apply IH].
    destruct (conflicts t (row o)); [reflexivity|apply keeps_app].
Qed.

Lemma keeps_fold_update (write : A -> A -> A) objs t :
  (forall o r, rel r (write o r)) ->
  keeps rel t
    (foldl (fun t (o : Instance A) =>
              table_update (default 0%nat (pk o)) (write (row o)) t)
       t objs).
Proof.
  intros Hw. revert t. induction objs as [|o objs IH]; intros t; cbn [foldl].
  - reflexivity.
  - etransitivity; [|apply IH]. apply keeps_update. intros r. apply Hw.
Qed.
End Keeps.

Lemma same_length_update {A} k (f : A -> A) t :
  same_length t (table_update k f t).
Proof.
  unfold same_length. destruct k; cbn [table_update]; [reflexivity|].
  apply length_alter.
Qed.

Lemma same_length_fold_update {A} (write : A -> A -> A) objs t :
  same_length t
    (foldl (fun t (o : Instance A) =>
              table_update (default 0%nat (pk o)) (write (row o)) t)
       t objs).
Proof.
  revert t. induction objs as [|o objs IH]; intros t; cbn [foldl].
  - reflexivity.
  - etransitivity; [|apply IH]. apply same_length_update.
Qed.

(** *** Provenance *)

Lemma keeps_source_bulk_update {A} (src : A -> string) (write : A -> A -> A)
    t0 objs t :
  (forall o r, src (write o r) = src o) ->
  Forall (loaded_from src t0) objs ->
  keeps (source_rel src) t0 t ->
  keeps (source_rel src) t0
    (foldl (fun t (o : Instance A) =>
              table_update (default 0%nat (pk o)) (write (row o)) t)
       t objs).
Proof.
  intros Hw Hobjs. revert t.
  induction Hobjs as [|o objs (j & r0 & Hpk & Hr0 & Hs) _ IH];
    intros t Ht; cbn [foldl]; [exact Ht|].
  apply IH. rewrite Hpk. cbn [default from_option id table_update].
  intros i r Hr. destruct (Ht i r Hr) as (r' & Hr' & Hs').
  destruct (decide (j = i)) as [->|Hne].
  - exists (write (row o) r'). split.
    + rewrite list_lookup_alter_eq, Hr'. reflexivity.
    + unfold source_rel. rewrite Hw. rewrite Hr0 in Hr.
      injection Hr as <-. exact Hs.
  - exists r'. split; [|exact Hs'].
    rewrite list_lookup_alter_ne by exact Hne. exact Hr'.
Qed.

(** What [index_by] holds are instances of the table, under their key. *)
Lemma index_fold_lookup {R} (key : R -> option string)
    (l : list (Instance R)) (m : gmap string (Instance R)) k o :
  foldl (fun (m : gmap string (Instance R)) c =>
           match key (row c) with
           | Some p => <[p := c]> m
           | None => m
           end) m l !! k = Some o ->
  m !! k = Some o \/ (o ∈ l /\ key (row o) = Some k).
Proof.
  revert m. induction l as [|x l IH]; intros m; cbn [foldl].
  - left. assumption.
  - intros H. destruct (IH _ H) as [Hm|[Ho Hk]].
    + destruct (key (row x)) as [p|] eqn:Hp.
      * destruct (decide (p = k)) as [->|Hne].
        -- rewrite lookup_insert_eq in Hm. injection Hm as <-.
           right. split; [left|exact Hp].
        -- rewrite lookup_insert_ne in Hm by exact Hne. left. exact Hm.
      * left. exact Hm.
    + right. split; [right; exact Ho|exact Hk].
Qed.

Lemma index_by_lookup {R} (key : R -> option string) table k o :
  index_by key table !! k = Some o ->
  exists i, pk o = Some (S i) /\ table !! i = Some (row o)
            /\ key (row o) = Some k.
Proof.
  intros H. apply index_fold_lookup in H.
  destruct H as [H|[Ho Hk]]; [rewrite lookup_empty in H; discriminate H|].
  unfold objects_all in Ho. apply elem_of_lookup_imap in Ho.
  destruct Ho as (i & r & -> & Hr). exists i. cbn. auto.
Qed.

Lemma update_contact_from_source p c :
  source_kept (ContactSync.source c)
    (ContactSync.source (update_contact_from p c)).
Proof.
  unfold update_contact_from. cbn [ContactSync.source].
  destruct (String.eqb (ContactSync.source c) "") eqn:He; cbn [orb].
  - apply String.eqb_eq in He. right. split; [exact He|reflexivity].
  - destruct (String.eqb (ContactSync.source c) "ephysio") eqn:Hp.
    + apply String.eqb_eq in Hp. left. symmetry. exact Hp.
    + left. reflexivity.
Qed.

Lemma plan_patient_loaded t0 st p :
  (forall k o, PatientPlan.existing_contacts st !! k = Some o ->
               loaded_from ContactSync.source t0 o) ->
  forall k o,
    PatientPlan.existing_contacts (plan_patient st p) !! k = Some o ->
    loaded_from ContactSync.source t0 o.
Proof.
  intros Inv k o. unfold plan_patient.
  destruct (String.eqb (str_of_id (Patient.id p)) ""); [apply Inv|].
  destruct (PatientPlan.existing_contacts st !! str_of_id (Patient.id p))
    as [c|] eqn:Hc; cbn [PatientPlan.existing_contacts]; [|apply Inv].
  destruct (decide (str_of_id (Patient.id p) = k)) as [->|Hne].
  - rewrite lookup_insert_eq. intros [= <-].
    destruct (Inv _ _ Hc) as (i & r0 & Hpk & Hr0 & Hs).
    exists i, r0. cbn [pk row]. split; [exact Hpk|]. split; [exact Hr0|].
    eapply source_kept_trans; [exact Hs|apply update_contact_from_source].
  - rewrite lookup_insert_ne by exact Hne. apply Inv.
Qed.

Lemma index_by_loaded {A} (src : A -> string) key t0 k o :
  index_by key t0 !! k = Some o -> loaded_from src t0 o.
Proof.
  intros H. destruct (index_by_lookup key t0 k o H) as (i & Hpk & Hr & _).
  exists i, (row o). split; [exact Hpk|]. split; [exact Hr|].
  apply source_kept_refl.
Qed.

Lemma patient_plan_loaded w patients k o :
  PatientPlan.existing_contacts (patient_plan w patients) !! k = Some o ->
  loaded_from ContactSync.source (contact_sync w) o.
Proof.
  unfold patient_plan.
  assert (forall st,
            (forall k o, PatientPlan.existing_contacts st !! k = Some o ->
                         loaded_from ContactSync.source (contact_sync w) o) ->
            forall k o,
              PatientPlan.existing_contacts (foldl plan_patient st patients)
                !! k = Some o ->
              loaded_from ContactSync.source (contact_sync w) o) as Hfold.
  { induction patients as [|p ps IH]; intros st Inv; cbn [foldl];
      [exact Inv|].
    apply IH. apply plan_patient_loaded. exact Inv. }
  revert k o. apply Hfold. cbn [PatientPlan.existing_contacts].
  intros k o. apply index_by_loaded.
Qed.

Lemma update_appointment_from_source e pid st en g a :
  source_kept (AppointmentSync.source a)
    (AppointmentSync.source (update_appointment_from e pid st en g a)).
Proof.
  unfold update_appointment_from. cbn [AppointmentSync.source].
  destruct (String.eqb (AppointmentSync.source a) "") eqn:He; cbn [orb].
  - apply String.eqb_eq in He. right. split; [exact He|reflexivity].
  - destruct (String.eqb (AppointmentSync.source a) "ephysio") eqn:Hp.
    + apply String.eqb_eq in Hp. left. symmetry. exact Hp.
    + left. reflexivity.
Qed.

Lemma plan_appointment_loaded cmap t0 st e :
  (forall k o, AppointmentPlan.existing_appointments st !! k = Some o ->
               loaded_from AppointmentSync.source t0 o) ->
  forall k o,
    AppointmentPlan.existing_appointments (plan_appointment cmap st e) !! k
    = Some o ->
    loaded_from AppointmentSync.source t0 o.
Proof.
  intros Inv k o. unfold plan_appointment.
  destruct (String.eqb (str_of_id (Event.id e)) ""
            || String.eqb (str_of_id (Event.patientId e)) "");
    [apply Inv|].
  destruct (epoch_ms_to_datetime (Event.start e)); [|apply Inv].
  destruct (epoch_ms_to_datetime (Event.end_ e)); [|apply Inv].
  destruct (AppointmentPlan.existing_appointments st !! str_of_id (Event.id e))
    as [c|] eqn:Hc; cbn [AppointmentPlan.existing_appointments]; [|apply Inv].
  destruct (decide (str_of_id (Event.id e) = k)) as [->|Hne].
  - rewrite lookup_insert_eq. intros [= <-].
    destruct (Inv _ _ Hc) as (i & r0 & Hpk & Hr0 & Hs).
    exists i, r0. cbn [pk row]. split; [exact Hpk|]. split; [exact Hr0|].
    eapply source_kept_trans; [exact Hs|apply update_appointment_from_source].
  - rewrite lookup_insert_ne by exact Hne. apply Inv.
Qed.

Lemma appointment_plan_loaded w appointments k o :
  AppointmentPlan.existing_appointments (appointment_plan w appointments) !! k
  = Some o ->
  loaded_from AppointmentSync.source (appointment_sync w) o.
Proof.
  unfold appointment_plan.
  set (cmap := contacts_by_patient_id (contact_sync w)).
  assert (forall st,
            (forall k o,
               AppointmentPlan.existing_appointments st !! k = Some o ->
               loaded_from AppointmentSync.source (appointment_sync w) o) ->
            forall k o,
              AppointmentPlan.existing_appointments
                (foldl (plan_appointment cmap) st appointments) !! k = Some o ->
              loaded_from AppointmentSync.source (appointment_sync w) o)
    as Hfold.
  { induction appointments as [|p ps IH]; intros st Inv; cbn [foldl];
      [exact Inv|].
    apply IH. apply plan_appointment_loaded. exact Inv. }
  revert k o. apply Hfold. cbn [AppointmentPlan.existing_appointments].
  intros k o. apply index_by_loaded.
Qed.

Lemma Forall_omap_lookup {V} (P : V -> Prop) (m : gmap string V) keys :
  (forall k o, m !! k = Some o -> P o) ->
  Forall P (omap (fun k => m !! k) keys).
Proof.
  intros Hm. apply Forall_forall. intros o Ho.
  apply list_elem_of_omap in Ho. destruct Ho as (k & _ & Hk).
  eapply Hm, Hk.
Qed.

(** C10. Neither task changes the provenance of a stored row: after a run
    of the patient task or of the appointment task every row of the contact
    table and of the appointment table is still there with the [source] it
    had, except that an empty [source] may have become ['ephysio'].  A row
    whose source is ['ghl'] keeps it. *)
Theorem sync_keeps_source (w : World) :
  let wp := snd (sync_patients_incremental w) in
  let wa := snd (sync_appointments_incremental w) in
  (forall i r, contact_sync w !! i = Some r ->
     exists r', contact_sync wp !! i = Some r'
       /\ (ContactSync.source r <> "" ->
           ContactSync.source r' = ContactSync.source r)
       /\ (ContactSync.source r = "" ->
           ContactSync.source r' = "" \/ ContactSync.source r' = "ephysio"))
  /\ (forall i r, appointment_sync w !! i = Some r ->
        exists r', appointment_sync wa !! i = Some r'
          /\ (AppointmentSync.source r <> "" ->
              AppointmentSync.source r' = AppointmentSync.source r)
          /\ (AppointmentSync.source r = "" ->
              AppointmentSync.source r' = ""
              \/ AppointmentSync.source r' = "ephysio"))
  /\ appointment_sync wp = appointment_sync w
  /\ (forall i r, contact_sync w !! i = Some r ->
        exists r', contact_sync wa !! i = Some r'
          /\ ContactSync.source r' = ContactSync.source r).
Proof.
  intros wp wa.
  assert (lift (keeps (source_rel ContactSync.source)) eq any any w wp)
    as (Hc & Ha & _ & _).
  { apply lift_sync_patients_incremental; try typeclasses eauto;
      try (intros; exact I).
    - intros t k v. apply keeps_update; [typeclasses eauto|].
      intros r. apply source_kept_refl.
    - intros w1 patients plan.
      apply keeps_source_bulk_update; [reflexivity| |reflexivity].
      apply Forall_omap_lookup. intros k o. apply patient_plan_loaded.
    - intros w1 patients t. apply keeps_create. typeclasses eauto. }
  assert (lift (keeps (same_on ContactSync.source))
               (keeps (source_rel AppointmentSync.source)) any any w wa)
    as (Hc' & Ha' & _ & _).
  { apply lift_sync_appointments_incremental; try typeclasses eauto;
      try (intros; exact I).
    - intros t k v. apply keeps_update; [typeclasses eauto|].
      intros r. apply source_kept_refl.
    - intros w1 appointments plan.
      apply keeps_source_bulk_update; [reflexivity| |reflexivity].
      apply Forall_omap_lookup. intros k o. apply appointment_plan_loaded.
    - intros w1 appointments t. apply keeps_create. typeclasses eauto. }
  split; [|split; [|split]].
  - intros i r Hr. destruct (Hc i r Hr) as (r' & Hr' & [Hs|[Hs1 Hs2]]).
    + exists r'. split; [exact Hr'|]. split; [intros _; exact Hs|].
      intros He. left. congruence.
    + exists r'. split; [exact Hr'|]. split; [congruence|].
      intros _. right. exact Hs2.
  - intros i r Hr. destruct (Ha' i r Hr) as (r' & Hr' & [Hs|[Hs1 Hs2]]).
    + exists r'. split; [exact Hr'|]. split; [intros _; exact Hs|].
      intros He. left. congruence.
    + exists r'. split; [exact Hr'|]. split; [congruence|].
      intros _. right. exact Hs2.
  - symmetry. exact Ha.
  - intros i r Hr. destruct (Hc' i r Hr) as (r' & Hr' & Hs).
    exists r'. split; [exact Hr'|exact Hs].
Qed.

Lemma sync_keeps_source_witness :
  exists r',
    contact_sync (snd (sync_patients_incremental Sample.world_patients))
      !! 0%nat = Some r'
    /\ ContactSync.source r' = "ghl".
Proof.
  destruct (proj1 (sync_keeps_source Sample.world_patients) 0%nat
              Sample.contact_from_ghl eq_refl) as (r' & Hr' & Hs & _).
  exists r'. split; [exact Hr'|]. rewrite Hs; [reflexivity|discriminate].
Defined.

(** *** Failure of a sync cycle *)

Lemma returns_mret {A} (P : A -> Prop) a : P a -> returns P (mret a).
Proof. intros Ha w a' w' [= <- _]. exact Ha. Qed.

Lemma returns_bind {A B} (P : B -> Prop) (m : M A) (f : A -> M B) :
  (forall a, returns P (f a)) -> returns P (m ≫= f).
Proof.
  intros Hf w b w'. unfold mbind, M_bind.
  destruct (m w) as [[a|e] w1]; [apply Hf|discriminate].
Qed.

Lemma sync_patients_after_fetch_returns patients :
  returns success_result (sync_patients_after_fetch patients).
Proof.
  unfold sync_patients_after_fetch. destruct patients as [|p ps].
  - apply returns_mret. repeat split; eexists; reflexivity.
  - apply returns_bind; intros w0.
    apply returns_bind; intros [[total_updated total_created] ids].
    apply returns_bind; intros total_synced.
    apply returns_mret. repeat split; eexists; reflexivity.
Qed.

Lemma sync_appointments_after_fetch_returns appointments :
  returns success_result (sync_appointments_after_fetch appointments).
Proof.
  unfold sync_appointments_after_fetch. destruct appointments as [|p ps].
  - apply returns_mret. repeat split; eexists; reflexivity.
  - apply returns_bind; intros w0.
    apply returns_bind; intros [[total_updated total_created] ids].
    apply returns_bind; intros total_synced.
    apply returns_mret. repeat split; eexists; reflexivity.
Qed.

(** The shape both tasks share: fetch, then the cycle, inside one
    [try] whose handler turns any exception into an error result. *)
Lemma task_never_raises {A} (fetch : M A) (cycle : A -> M TaskResult.t)
    (prefix : string) (w : World) :
  (forall a, returns success_result (cycle a)) ->
  preserves (lift eq eq eq any) fetch ->
  let task :=
    try_except (a ← fetch; cycle a)
      (fun e => Some (mret (TaskResult.mk "error" (prefix ++ exn_str e)
                              None None None None))) in
  exists r,
    fst (task w) = Ok r
    /\ (success_result r \/ exists e, error_result prefix e r)
    /\ (forall e w1, fetch w = (Raise e, w1) ->
          error_result prefix e r
          /\ contact_sync (snd (task w)) = contact_sync w
          /\ appointment_sync (snd (task w)) = appointment_sync w
          /\ ghl_auth (snd (task w)) = ghl_auth w).
Proof.
  intros Hcycle Hfetch task. subst task.
  unfold try_except, mbind, M_bind.
  pose proof (Hfetch w) as (Hc & Ha & Hg & _).
  destruct (fetch w) as [[a|e] w1] eqn:Hf; cbn [snd] in *.
  - destruct (cycle a w1) as [[r|e] w2] eqn:Hr; cbn.
    + exists r. split; [reflexivity|]. split.
      * left. eapply Hcycle, Hr.
      * intros e w' [=].
    + eexists. split; [reflexivity|]. split.
      * right. exists e. repeat split.
      * intros e' w' [=].
  - cbn. eexists. split; [reflexivity|]. split.
    + right. exists e. repeat split.
    + intros e' w' [= <- <-]. repeat split; congruence.
Qed.

(** C7 (as the code has it).  The patient task always returns a result
    dictionary and never raises: either a success result with its counts or
    an error result with status and message.  When the initial fetch from
    the Clinic System fails, the result is the error result for that
    exception, and the contact table, the appointment table and the CRM
    credentials are what they were; the Clinic credential row is not
    covered, since the fetch may have logged in anew before it failed.  The
    same holds for the appointment task. *)
Theorem sync_never_raises (w : World) :
  (exists r,
     fst (sync_patients_incremental w) = Ok r
     /\ (success_result r
         \/ exists e, error_result "Error in incremental patient sync: " e r)
     /\ (forall e w1, get_active_patients w = (Raise e, w1) ->
           error_result "Error in incremental patient sync: " e r
           /\ contact_sync (snd (sync_patients_incremental w)) = contact_sync w
           /\ appointment_sync (snd (sync_patients_incremental w))
              = appointment_sync w
           /\ ghl_auth (snd (sync_patients_incremental w)) = ghl_auth w))
  /\ (exists r,
        fst (sync_appointments_incremental w) = Ok r
        /\ (success_result r
            \/ exists e,
                 error_result "Error in incremental appointment sync: " e r)
        /\ (forall e w1,
              get_ephysio_appointments DEFAULT_FROM_TIMESTAMP
                DEFAULT_TO_TIMESTAMP w = (Raise e, w1) ->
              error_result "Error in incremental appointment sync: " e r
              /\ contact_sync (snd (sync_appointments_incremental w))
                 = contact_sync w
              /\ appointment_sync (snd (sync_appointments_incremental w))
                 = appointment_sync w
              /\ ghl_auth (snd (sync_appointments_incremental w))
                 = ghl_auth w)).
Proof.
  split.
  - apply (task_never_raises get_active_patients sync_patients_after_fetch).
    + apply sync_patients_after_fetch_returns.
    + apply lift_get_active_patients; try typeclasses eauto;
        intros; exact I.
  - apply (task_never_raises
             (get_ephysio_appointments DEFAULT_FROM_TIMESTAMP
                DEFAULT_TO_TIMESTAMP) sync_appointments_after_fetch).
    + apply sync_appointments_after_fetch_returns.
    + apply lift_get_ephysio_appointments; try typeclasses eauto;
        intros; exact I.
Qed.

Lemma sync_never_raises_witness :
  contact_sync (snd (sync_patients_incremental Sample.world_fetch_fails))
  = contact_sync Sample.world_fetch_fails.
Proof.
  destruct (proj1 (sync_never_raises Sample.world_fetch_fails))
    as (r & _ & _ & Hfail).
  eapply (Hfail (HTTPError 503)). vm_compute. reflexivity.
Defined.

(** C7 as stated fails: a fetch that fails after the login exchange has
    already stored new Clinic credentials. *)
Lemma fetch_failure_after_login_has_written :
  (exists e w1,
     get_active_patients Sample.world_fetch_fails_after_login = (Raise e, w1))
  /\ ephysio_auth
       (snd (sync_patients_incremental Sample.world_fetch_fails_after_login))
     <> ephysio_auth Sample.world_fetch_fails_after_login.
Proof.
  split.
  - do 2 eexists. vm_compute. reflexivity.
  - vm_compute. discriminate.
Qed.

(** *** Idempotence of the patient task *)

Lemma total_mret {A} (a : A) : total (mret a).
Proof. intros w. exists a. reflexivity. Qed.

Lemma total_bind {A B} (m : M A) (f : A -> M B) :
  total m -> (forall a, total (f a)) -> total (m ≫= f).
Proof.
  intros Hm Hf w. unfold mbind, M_bind.
  destruct (Hm w) as (a & Ha). destruct (m w) as [o w1]. cbn in Ha. subst o.
  apply Hf.
Qed.

Lemma total_try_except {A} (m : M A) (h : exn -> M A) :
  (forall e, total (h e)) -> total (try_except m (fun e => Some (h e))).
Proof.
  intros Hh w. unfold try_except.
  destruct (m w) as [[a|e] w1]; [exists a; reflexivity|apply Hh].
Qed.

Lemma total_for_each {A S} (body : A -> S -> M S) l :
  (forall x s, total (body x s)) -> forall s, total (for_each body l s).
Proof.
  intros Hb. induction l as [|x l IH]; intros s; cbn [for_each].
  - apply total_mret.
  - apply total_bind; [apply Hb|exact IH].
Qed.

Lemma total_get_ghl_auth : total get_ghl_auth.
Proof.
  intros w. destruct (get_ghl_auth_run w) as (a & l & -> & _).
  eexists. reflexivity.
Qed.

Lemma total_push_contact c n : total (push_contact c n).
Proof.
  unfold push_contact. apply total_try_except. intros _. apply total_mret.
Qed.

Lemma total_push_contacts_to_ghl l ids : total (push_contacts_to_ghl l ids).
Proof.
  unfold push_contacts_to_ghl. apply total_bind.
  - destruct ids; [apply total_mret|].
    apply total_bind; [intros w; eexists; reflexivity|].
    intros w. apply total_mret.
  - intros newly. destruct (List.filter has_id l ++ newly)%list;
      [apply total_mret|].
    apply total_bind; [apply total_get_ghl_auth|].
    intros [a loc]. destruct (negb (Py.truthy a) || negb (Py.truthy loc));
      [apply total_mret|].
    apply total_for_each. intros; apply total_push_contact.
Qed.

Lemma set_contact_sync_same w : set_contact_sync (contact_sync w) w = w.
Proof. destruct w; reflexivity. Qed.

Lemma bulk_persist_contacts_run upd cre w :
  Forall (fun o => is_Some (pk o)) upd ->
  bulk_persist_contacts upd cre w
  = (Ok (length upd, length cre,
         map (fun c =>
                match ContactSync.ephysio_patient_id (row c) with
                | Some p => p
                | None => "None"
                end) cre),
     set_contact_sync (persisted_contacts upd cre (contact_sync w)) w).
Proof.
  intros Hpk. unfold bulk_persist_contacts, persisted_contacts.
  assert (existsb (fun o : Instance ContactSync.t => Py.is_None (pk o)) upd
          = false) as Hex.
  { induction Hpk as [|o l [k Hk] _ IH]; [reflexivity|].
    cbn [existsb]. rewrite Hk, IH. reflexivity. }
  unfold mbind, M_bind, atomic, bulk_update_contacts, bulk_create_contacts,
    modify, mret, M_ret.
  destruct upd as [|u upd]; destruct cre as [|c cre]; cbn [foldl length map].
  - rewrite set_contact_sync_same. reflexivity.
  - reflexivity.
  - rewrite Hex. reflexivity.
  - rewrite Hex. reflexivity.
Qed.

Lemma same_some_None a : same_some a None = false.
Proof. destruct a; reflexivity. Qed.

Lemma same_some_Some a id : same_some a (Some id) = true -> a = Some id.
Proof.
  destruct a as [x|]; cbn; [|discriminate].
  intros H. apply String.eqb_eq in H. congruence.
Qed.

Lemma has_patient_id_keeps t t' id :
  keeps (same_on ContactSync.ephysio_patient_id) t t' ->
  has_patient_id t id -> has_patient_id t' id.
Proof.
  intros Hk (i & r & Hr & Hid). destruct (Hk i r Hr) as (r' & Hr' & Hs).
  exists i, r'. split; [exact Hr'|]. unfold same_on in Hs. congruence.
Qed.

Lemma create_step_has t c id :
  ContactSync.ghl_contact_id c = None ->
  ContactSync.ephysio_patient_id c = Some id ->
  has_patient_id (if contact_conflicts t c then t else (t ++ [c])%list) id.
Proof.
  intros Hg Hp. destruct (contact_conflicts t c) eqn:Hc.
  - unfold contact_conflicts in Hc. apply existsb_exists in Hc.
    destruct Hc as (r & Hin & Hr). rewrite Hg, same_some_None, Hp in Hr.
    cbn [orb] in Hr. apply same_some_Some in Hr.
    apply list_elem_of_In, list_elem_of_lookup in Hin.
    destruct Hin as (i & Hi). exists i, r. split; assumption.
  - exists (length t), c. split; [|exact Hp].
    rewrite lookup_app_r by lia. rewrite Nat.sub_diag. reflexivity.
Qed.

Lemma create_fold_has objs t id :
  (forall c, c ∈ objs -> ContactSync.ghl_contact_id (row c) = None) ->
  (exists c, c ∈ objs /\ ContactSync.ephysio_patient_id (row c) = Some id) ->
  has_patient_id
    (foldl (fun t o =>
              if contact_conflicts t (row o) then t else (t ++ [row o])%list)
       t objs) id.
Proof.
  revert t. induction objs as [|x objs IH]; intros t Hg (c & Hin & Hp).
  - apply elem_of_nil in Hin. destruct Hin.
  - cbn [foldl]. apply elem_of_cons in Hin. destruct Hin as [->|Hin].
    + eapply has_patient_id_keeps.
      * apply keeps_create. typeclasses eauto.
      * apply create_step_has; [apply Hg; left|exact Hp].
    + apply IH.
      * intros c' Hc'. apply Hg. right. exact Hc'.
      * exists c. split; assumption.
Qed.

Lemma index_fold_is_Some {R} (key : R -> option string)
    (l : list (Instance R)) (m : gmap string (Instance R)) k :
  is_Some (m !! k) \/ (exists x, x ∈ l /\ key (row x) = Some k) ->
  is_Some (foldl (fun (m : gmap string (Instance R)) c =>
                    match key (row c) with
                    | Some p => <[p := c]> m
                    | None => m
                    end) m l !! k).
Proof.
  revert m. induction l as [|x l IH]; intros m H; cbn [foldl].
  - destruct H as [H|(x & Hx & _)]; [exact H|].
    apply elem_of_nil in Hx. destruct Hx.
  - apply IH. destruct H as [H|(x0 & Hx & Hk)].
    + left. destruct (key (row x)) as [p|]; [|exact H].
      destruct (decide (p = k)) as [->|Hne].
      * rewrite lookup_insert_eq. eexists. reflexivity.
      * rewrite lookup_insert_ne by exact Hne. exact H.
    + apply elem_of_cons in Hx. destruct Hx as [->|Hx].
      * left. rewrite Hk. rewrite lookup_insert_eq. eexists. reflexivity.
      * right. exists x0. split; assumption.
Qed.

Lemma index_by_has t id :
  has_patient_id t id -> is_Some (contacts_by_patient_id t !! id).
Proof.
  intros (i & r & Hr & Hid). unfold contacts_by_patient_id, index_by.
  apply index_fold_is_Some. right.
  exists (mkInstance (Some (S i)) r). split; [|exact Hid].
  unfold objects_all.
  apply (elem_of_lookup_imap_2 (fun i r => mkInstance (Some (S i)) r)).
  exact Hr.
Qed.

Lemma has_of_index t id :
  is_Some (contacts_by_patient_id t !! id) -> has_patient_id t id.
Proof.
  intros [o Ho]. apply index_by_lookup in Ho.
  destruct Ho as (i & _ & Hr & Hk). exists i, (row o). split; assumption.
Qed.

(** One pass of the partition loop on a patient whose id already keys an
    existing row: the row goes to the update partition. *)
Lemma plan_patient_known st p :
  str_of_id (Patient.id p) <> "" ->
  is_Some (PatientPlan.existing_contacts st !! str_of_id (Patient.id p)) ->
  PatientPlan.contacts_to_create (plan_patient st p)
  = PatientPlan.contacts_to_create st
  /\ PatientPlan.contacts_to_update (plan_patient st p)
     = (PatientPlan.contacts_to_update st ++ [str_of_id (Patient.id p)])%list.
Proof.
  intros Hne [c Hc]. unfold plan_patient.
  apply String.eqb_neq in Hne. rewrite Hne, Hc. split; reflexivity.
Qed.

Lemma plan_patient_dom st p k :
  is_Some (PatientPlan.existing_contacts (plan_patient st p) !! k)
  <-> is_Some (PatientPlan.existing_contacts st !! k).
Proof.
  unfold plan_patient.
  destruct (String.eqb (str_of_id (Patient.id p)) ""); [reflexivity|].
  destruct (PatientPlan.existing_contacts st !! str_of_id (Patient.id p))
    as [c|] eqn:Hc; cbn [PatientPlan.existing_contacts]; [|reflexivity].
  destruct (decide (str_of_id (Patient.id p) = k)) as [<-|Hne].
  - rewrite lookup_insert_eq, Hc. split; intros _; eexists; reflexivity.
  - rewrite lookup_insert_ne by exact Hne. reflexivity.
Qed.

Lemma plan_patient_to_create st p :
  exists l,
    PatientPlan.contacts_to_create (plan_patient st p)
    = (PatientPlan.contacts_to_create st ++ l)%list
    /\ (forall c, c ∈ l -> ContactSync.ghl_contact_id (row c) = None)
    /\ (str_of_id (Patient.id p) <> "" ->
        is_Some (PatientPlan.existing_contacts st !! str_of_id (Patient.id p))
        \/ exists c, c ∈ l
             /\ ContactSync.ephysio_patient_id (row c)
                = Some (str_of_id (Patient.id p))).
Proof.
  unfold plan_patient.
  destruct (String.eqb (str_of_id (Patient.id p)) "") eqn:He.
  { exists []. split; [symmetry; apply app_nil_r|]. split.
    - intros c Hc. apply elem_of_nil in Hc. destruct Hc.
    - intros Hne. apply String.eqb_eq in He. contradiction. }
  destruct (PatientPlan.existing_contacts st !! str_of_id (Patient.id p))
    as [c|] eqn:Hc; cbn [PatientPlan.contacts_to_create].
  - exists []. split; [symmetry; apply app_nil_r|]. split.
    + intros c0 Hc0. apply elem_of_nil in Hc0. destruct Hc0.
    + intros _. left. eexists. reflexivity.
  - eexists. split; [reflexivity|]. split.
    + intros c0 Hc0. apply list_elem_of_singleton in Hc0. subst c0.
      reflexivity.
    + intros _. right. eexists. split; [apply list_elem_of_singleton; reflexivity|].
      reflexivity.
Qed.

Lemma plan_fold_dom ps st k :
  is_Some (PatientPlan.existing_contacts (foldl plan_patient st ps) !! k)
  <-> is_Some (PatientPlan.existing_contacts st !! k).
Proof.
  revert st. induction ps as [|p ps IH]; intros st; cbn [foldl];
    [reflexivity|].
  rewrite IH. apply plan_patient_dom.
Qed.

Lemma plan_fold_to_create ps st :
  exists l,
    PatientPlan.contacts_to_create (foldl plan_patient st ps)
    = (PatientPlan.contacts_to_create st ++ l)%list
    /\ (forall c, c ∈ l -> ContactSync.ghl_contact_id (row c) = None)
    /\ (forall p, p ∈ ps -> str_of_id (Patient.id p) <> "" ->
        is_Some (PatientPlan.existing_contacts st !! str_of_id (Patient.id p))
        \/ exists c, c ∈ l
             /\ ContactSync.ephysio_patient_id (row c)
                = Some (str_of_id (Patient.id p))).
Proof.
  revert st. induction ps as [|p ps IH]; intros st; cbn [foldl].
  - exists []. split; [symmetry; apply app_nil_r|]. split.
    + intros c Hc. apply elem_of_nil in Hc. destruct Hc.
    + intros p Hp. apply elem_of_nil in Hp. destruct Hp.
  - destruct (plan_patient_to_create st p) as (l1 & E1 & G1 & C1).
    destruct (IH (plan_patient st p)) as (l2 & E2 & G2 & C2).
    exists (l1 ++ l2)%list. split; [|split].
    + rewrite E2, E1. symmetry. apply app_assoc.
    + intros c Hc. apply elem_of_app in Hc. destruct Hc; auto.
    + intros q Hq Hne. apply elem_of_cons in Hq. destruct Hq as [->|Hq].
      * destruct (C1 Hne) as [H|(c & Hc & Hid)]; [left; exact H|].
        right. exists c. split; [apply elem_of_app; left; exact Hc|exact Hid].
      * destruct (C2 q Hq Hne) as [H|(c & Hc & Hid)].
        -- left. apply plan_patient_dom in H. exact H.
        -- right. exists c.
           split; [apply elem_of_app; right; exact Hc|exact Hid].
Qed.

Lemma plan_fold_known ps st :
  (forall p, p ∈ ps -> str_of_id (Patient.id p) <> "" ->
     is_Some (PatientPlan.existing_contacts st !! str_of_id (Patient.id p))) ->
  PatientPlan.contacts_to_create (foldl plan_patient st ps)
  = PatientPlan.contacts_to_create st.
Proof.
  revert st. induction ps as [|p ps IH]; intros st Hall; cbn [foldl];
    [reflexivity|].
  rewrite IH.
  - destruct (String.eqb (str_of_id (Patient.id p)) "") eqn:He.
    + unfold plan_patient. rewrite He. reflexivity.
    + apply String.eqb_neq in He.
      apply plan_patient_known; [exact He|].
      apply Hall; [left|exact He].
  - intros q Hq Hne. apply plan_patient_dom. apply Hall; [right; exact Hq|exact Hne].
Qed.

Lemma patient_plan_pks w patients :
  Forall (fun o : Instance ContactSync.t => is_Some (pk o))
    (omap (fun k =>
             PatientPlan.existing_contacts (patient_plan w patients) !! k)
       (PatientPlan.contacts_to_update (patient_plan w patients))).
Proof.
  apply Forall_omap_lookup. intros k o Ho.
  apply patient_plan_loaded in Ho. destruct Ho as (i & r0 & Hpk & _).
  rewrite Hpk. eexists. reflexivity.
Qed.

(** The run of the cycle after the fetch, for a non-empty fetch. *)
Lemma sync_patients_after_fetch_run p ps w :
  let patients := p :: ps in
  let plan := patient_plan w patients in
  let upd :=
    omap (fun k => PatientPlan.existing_contacts plan !! k)
      (PatientPlan.contacts_to_update plan) in
  let cre := PatientPlan.contacts_to_create plan in
  exists n to_sync ids,
    sync_patients_after_fetch patients w
    = (total_synced_to_ghl ← push_contacts_to_ghl to_sync ids;
       mret (TaskResult.mk "success" "Patient sync completed"
               (Some (length patients)) (Some (length cre))
               (Some n) (Some total_synced_to_ghl)))
        (set_contact_sync (persisted_contacts upd cre (contact_sync w)) w).
Proof.
  intros patients plan upd cre. unfold sync_patients_after_fetch.
  subst patients. cbv iota.
  change (get_world ≫= ?f) with (fun w0 : World => f w0 w0). cbn beta.
  fold (patient_plan w (p :: ps)). fold plan. fold upd. fold cre.
  unfold mbind at 1, M_bind at 1.
  rewrite (bulk_persist_contacts_run upd cre w)
    by apply patient_plan_pks.
  do 3 eexists. reflexivity.
Qed.

Lemma push_contacts_keeps Rc `{!PreOrder Rc} to_sync ids (k : nat -> TaskResult.t) w :
  (forall t k v, Rc t (table_update k (ContactSync.set_ghl_contact_id v) t)) ->
  Rc (contact_sync w)
     (contact_sync
        (snd ((total_synced_to_ghl ← push_contacts_to_ghl to_sync ids;
               mret (k total_synced_to_ghl)) w))).
Proof.
  intros Hsave.
  assert (preserves (lift Rc any any any)
            (total_synced_to_ghl ← push_contacts_to_ghl to_sync ids;
             mret (k total_synced_to_ghl))) as H.
  { apply preserves_bind; [typeclasses eauto| |].
    - apply lift_push_contacts_to_ghl; try typeclasses eauto;
        try (intros; exact I). exact Hsave.
    - intros n. apply preserves_mret. typeclasses eauto. }
  apply H.
Qed.

Lemma after_fetch_has_all patients w p :
  p ∈ patients -> str_of_id (Patient.id p) <> "" ->
  has_patient_id
    (contact_sync (snd (sync_patients_after_fetch patients w)))
    (str_of_id (Patient.id p)).
Proof.
  intros Hp Hne. destruct patients as [|p0 ps].
  { apply elem_of_nil in Hp. destruct Hp. }
  destruct (sync_patients_after_fetch_run p0 ps w) as (n & to_sync & ids & ->).
  set (wc := set_contact_sync _ w).
  apply (has_patient_id_keeps (contact_sync wc)).
  { apply (push_contacts_keeps
             (keeps (same_on ContactSync.ephysio_patient_id))).
    intros t k v. apply keeps_update; [typeclasses eauto|]. reflexivity. }
  subst wc. cbn [contact_sync set_contact_sync]. unfold persisted_contacts.
  unfold patient_plan.
  destruct (plan_fold_to_create (p0 :: ps)
              (PatientPlan.mk (contacts_by_patient_id (contact_sync w))
                 [] [] [])) as (l & El & Gl & Cl).
  cbn [PatientPlan.contacts_to_create PatientPlan.existing_contacts app]
    in El, Cl.
  destruct (Cl p Hp Hne) as [Hex|Hnew].
  - eapply has_patient_id_keeps; [apply keeps_create; typeclasses eauto|].
    eapply has_patient_id_keeps.
    { apply keeps_fold_update; [typeclasses eauto|]. reflexivity. }
    apply has_of_index. exact Hex.
  - apply create_fold_has; rewrite El; assumption.
Qed.

Lemma get_active_patients_keeps_contacts w patients w' :
  get_active_patients w = (Ok patients, w') ->
  contact_sync w' = contact_sync w.
Proof.
  intros H.
  assert (lift eq any any any w (snd (get_active_patients w))) as (Hc & _).
  { apply lift_get_active_patients; try typeclasses eauto; intros; exact I. }
  rewrite H in Hc. symmetry. exact Hc.
Qed.

Lemma sync_patients_incremental_world w patients w' :
  get_active_patients w = (Ok patients, w') ->
  snd (sync_patients_incremental w)
  = snd (sync_patients_after_fetch patients w').
Proof.
  intros H. unfold sync_patients_incremental, try_except, mbind, M_bind.
  rewrite H. destruct (sync_patients_after_fetch patients w') as [[r|e] w2];
    reflexivity.
Qed.

(** C4. When a run of the patient task has fetched [patients], a second run
    that starts from the contact table the first run left and fetches the
    same [patients] reports [created = 0] and adds no row: its partition has
    nothing to create, because each fetched patient whose id keys an
    existing row goes to the update partition. *)
Theorem second_run_creates_nothing
    (w1 w2 wa wb : World) (patients : list Patient.t) :
  get_active_patients w1 = (Ok patients, wa) ->
  contact_sync w2 = contact_sync (snd (sync_patients_incremental w1)) ->
  get_active_patients w2 = (Ok patients, wb) ->
  (exists r,
     fst (sync_patients_incremental w2) = Ok r
     /\ TaskResult.status r = "success"
     /\ TaskResult.created r = Some 0%nat)
  /\ length (contact_sync (snd (sync_patients_incremental w2)))
     = length (contact_sync w2)
  /\ PatientPlan.contacts_to_create (patient_plan wb patients) = []
  /\ (forall st p,
        str_of_id (Patient.id p) <> "" ->
        is_Some (PatientPlan.existing_contacts st
                   !! str_of_id (Patient.id p)) ->
        PatientPlan.contacts_to_create (plan_patient st p)
        = PatientPlan.contacts_to_create st
        /\ PatientPlan.contacts_to_update (plan_patient st p)
           = (PatientPlan.contacts_to_update st
                ++ [str_of_id (Patient.id p)])%list).
Proof.
  intros H1 H12 H2.
  pose proof (get_active_patients_keeps_contacts _ _ _ H2) as Hb.
  assert (PatientPlan.contacts_to_create (patient_plan wb patients) = [])
    as Hcre.
  { unfold patient_plan. rewrite plan_fold_known; [reflexivity|].
    intros p Hp Hne. cbn [PatientPlan.existing_contacts].
    apply index_by_has. rewrite Hb, H12.
    rewrite (sync_patients_incremental_world _ _ _ H1).
    apply after_fetch_has_all; assumption. }
  split; [|split; [|split]].
  - unfold sync_patients_incremental, try_except, mbind at 1, M_bind at 1.
    rewrite H2. destruct patients as [|p ps].
    + cbn. eexists. split; [reflexivity|]. split; reflexivity.
    + destruct (sync_patients_after_fetch_run p ps wb)
        as (n & to_sync & ids & ->).
      rewrite Hcre. unfold mbind, M_bind.
      match goal with
      | |- context [push_contacts_to_ghl to_sync ids ?w] =>
          destruct (total_push_contacts_to_ghl to_sync ids w) as (k & Hk);
          destruct (push_contacts_to_ghl to_sync ids w) as [o w']
      end.
      cbn in Hk. subst o. cbn.
      eexists. split; [reflexivity|]. split; reflexivity.
  - rewrite (sync_patients_incremental_world _ _ _ H2).
    destruct patients as [|p ps]; [cbn; congruence|].
    destruct (sync_patients_after_fetch_run p ps wb)
      as (n & to_sync & ids & ->).
    rewrite Hcre. set (wc := set_contact_sync _ wb).
    transitivity (length (contact_sync wc)).
    + apply (push_contacts_keeps same_length).
      intros t k v. apply same_length_update.
    + subst wc. cbn [contact_sync set_contact_sync].
      unfold persisted_contacts. cbn [foldl]. rewrite <- Hb.
      apply same_length_fold_update.
  - exact Hcre.
  - intros st p. apply plan_patient_known.
Qed.

Lemma second_run_creates_nothing_witness :
  (exists r,
     fst (sync_patients_incremental Sample.world_second_run) = Ok r
     /\ TaskResult.status r = "success"
     /\ TaskResult.created r = Some 0%nat)
  /\ length (contact_sync
               (snd (sync_patients_incremental Sample.world_second_run)))
     = length (contact_sync Sample.world_second_run).
Proof.
  destruct (second_run_creates_nothing
              Sample.world_patients Sample.world_second_run
              (snd (get_active_patients Sample.world_patients))
              (snd (get_active_patients Sample.world_second_run))
              [Sample.patient_42; Sample.patient_44])
    as (Hr & Hlen & _).
  - vm_compute. reflexivity.
  - reflexivity.
  - vm_compute. reflexivity.
  - split; [exact Hr|exact Hlen].
Defined.

(** *** The contact webhook *)

Lemma alter_const_twice {A} (a b : A) i (l : list A) :
  alter (fun _ => b) i (alter (fun _ => a) i l) = alter (fun _ => b) i l.
Proof.
  revert i. induction l as [|x l IH]; intros [|i]; cbn; try reflexivity.
  f_equal. apply IH.
Qed.

#[global] Instance only_row_relinked_preorder n c :
  PreOrder (only_row_relinked n c).
Proof.
  split.
  - intros t. left. reflexivity.
  - intros t1 t2 t3 [->|(v & ->)] [->|(v' & ->)].
    + left. reflexivity.
    + right. exists v'. reflexivity.
    + right. exists v. reflexivity.
    + right. exists v'. apply alter_const_twice.
Qed.

Lemma objects_all_elem {R} (table : list R) i r :
  table !! i = Some r -> In (mkInstance (Some (S i)) r) (objects_all table).
Proof.
  intros Hr. apply list_elem_of_In. unfold objects_all.
  apply (elem_of_lookup_imap_2 (fun i r => mkInstance (Some (S i)) r)).
  exact Hr.
Qed.

Lemma contact_by_ghl_id_None v t :
  contact_by_ghl_id v t = None ->
  forall i r, t !! i = Some r ->
    same_some (ContactSync.ghl_contact_id r) v = false.
Proof.
  unfold contact_by_ghl_id. intros Hh i r Hr.
  destruct (same_some (ContactSync.ghl_contact_id r) v) eqn:Hs;
    [|reflexivity].
  assert (In (mkInstance (Some (S i)) r)
            (List.filter
               (fun o : Instance ContactSync.t =>
                  same_some (ContactSync.ghl_contact_id (row o)) v)
               (objects_all t))) as Hin.
  { apply filter_In. split; [apply objects_all_elem; exact Hr|exact Hs]. }
  destruct (List.filter _ (objects_all t)); [destruct Hin|discriminate Hh].
Qed.

Lemma contact_from_event_no_conflict data t :
  contact_by_ghl_id (GhlContact.id data) t = None ->
  contact_conflicts t (contact_from_event data) = false.
Proof.
  intros Hn. unfold contact_conflicts.
  destruct (existsb _ t) eqn:He; [|reflexivity].
  apply existsb_exists in He. destruct He as (r & Hin & Hr).
  apply list_elem_of_In, list_elem_of_lookup in Hin. destruct Hin as (i & Hi).
  cbn [contact_from_event ContactSync.ghl_contact_id
       ContactSync.ephysio_patient_id] in Hr.
  rewrite (contact_by_ghl_id_None _ _ Hn i r Hi), same_some_None in Hr.
  discriminate Hr.
Qed.

Lemma handle_contact_event_run data w :
  Py.truthy (GhlContact.id data) = true ->
  contact_by_ghl_id (GhlContact.id data) (contact_sync w) = None ->
  handle_contact_event data w
  = (sync_ghl_contact_to_ephysio data
       (mkInstance (Some (S (length (contact_sync w))))
          (contact_from_event data));;
     mret (200%Z, "contact synced"))
      (set_contact_sync (contact_sync w ++ [contact_from_event data])%list w).
Proof.
  intros Hid Hnone. unfold handle_contact_event, create_contact.
  rewrite Hid. cbn [negb].
  unfold mbind, M_bind, get_world, modify, mret, M_ret.
  rewrite Hnone, (contact_from_event_no_conflict data _ Hnone).
  reflexivity.
Qed.




(** *** Persistence of an unlinked appointment *)





























(** * Further properties of the code *)

(** ** Phone numbers *)

Lemma str_filter_forallb p s : Py.str_forallb p (Py.str_filter p s) = true.
Proof.
  induction s as [|c s IH]; cbn; [reflexivity|].
  destruct (p c) eqn:Hc; cbn; [rewrite Hc; exact IH|exact IH].
Qed.

Lemma str_filter_id p s :
  Py.str_forallb p s = true -> Py.str_filter p s = s.
Proof.
  induction s as [|c s IH]; cbn; [reflexivity|].
  intros H. apply andb_prop in H. destruct H as [Hc Hs].
  rewrite Hc, (IH Hs). reflexivity.
Qed.

Lemma str_forallb_drop p n s :
  Py.str_forallb p s = true -> Py.str_forallb p (Py.str_drop n s) = true.
Proof.
  revert s. induction n as [|n IH]; intros s H; [exact H|].
  destruct s as [|c s]; cbn; [reflexivity|].
  cbn in H. apply andb_prop in H. apply IH, H.
Qed.

Lemma str_forallb_impl (p q : ascii -> bool) s :
  (forall c, p c = true -> q c = true) ->
  Py.str_forallb p s = true -> Py.str_forallb q s = true.
Proof.
  intros Hpq. induction s as [|c s IH]; cbn; [reflexivity|].
  intros H. apply andb_prop in H. destruct H as [Hc Hs].
  rewrite (Hpq c Hc), (IH Hs). reflexivity.
Qed.

Lemma append_cons c s1 s2 : String c s1 ++ s2 = String c (s1 ++ s2).
Proof. reflexivity. Qed.

Lemma append_nil_l s : "" ++ s = s.
Proof. reflexivity. Qed.

Lemma str_forallb_app p s1 s2 :
  Py.str_forallb p (s1 ++ s2)
  = Py.str_forallb p s1 && Py.str_forallb p s2.
Proof.
  induction s1 as [|c s1 IH]; [reflexivity|].
  rewrite append_cons. cbn [Py.str_forallb].
  rewrite IH, andb_assoc. reflexivity.
Qed.

(** [s.startswith(c)] for a one-character [c]. *)
Lemma startswith_char s c :
  Py.startswith s (String c "") = true <-> exists r, s = String c r.
Proof.
  unfold Py.startswith. destruct s as [|a s]; cbn.
  - split; [discriminate|]. intros [r Hr]. discriminate Hr.
  - destruct (ascii_dec c a) as [->|Hne].
    + split; [eexists; reflexivity|]. intros _. destruct s; reflexivity.
    + split; [discriminate|]. intros [r Hr]. congruence.
Qed.

Lemma truthy_Some s : Py.truthy (Some s) = true <-> s <> "".
Proof.
  cbn. destruct (String.eqb_spec s ""); cbn; split; congruence.
Qed.

Lemma normalize_phone_shape phone r :
  normalize_phone phone = Some r ->
  Py.startswith r "0" = true
  /\ Py.str_forallb (fun c => Py.is_digit c || Ascii.eqb c "+") r = true.
Proof.
  unfold normalize_phone. destruct (Py.truthy phone); cbn [negb]; [|discriminate].
  cbv zeta. set (keep := fun c => Py.is_digit c || Ascii.eqb c "+").
  pose proof (str_filter_forallb keep (default "" phone)) as Hf.
  set (f := Py.str_filter keep (default "" phone)) in *.
  assert (Py.str_forallb keep
            (if Py.startswith f "+" then Py.str_drop 1 f else f) = true) as Ha.
  { destruct (Py.startswith f "+"); [apply str_forallb_drop|]; exact Hf. }
  set (a := if Py.startswith f "+" then Py.str_drop 1 f else f) in *.
  assert (Py.str_forallb keep
            (if Py.startswith a "41" then Py.str_drop 2 a else a) = true) as Hb.
  { destruct (Py.startswith a "41"); [apply str_forallb_drop|]; exact Ha. }
  set (b := if Py.startswith a "41" then Py.str_drop 2 a else a) in *.
  destruct (Py.startswith b "0") eqn:H0; cbn [negb]; intros [= <-].
  - split; [exact H0|exact Hb].
  - rewrite append_cons, append_nil_l. split.
    + apply startswith_char. eexists. reflexivity.
    + cbn [Py.str_forallb]. rewrite Hb. reflexivity.
Qed.

(** X1. The Clinic-facing normalizer gives [None] exactly for a missing or
    empty phone; any other input gives a string that starts with ["0"] and
    holds only digits and ["+"] signs. *)
Theorem normalize_phone_normal_form (phone : option string) :
  (normalize_phone phone = None <-> Py.truthy phone = false)
  /\ (forall r, normalize_phone phone = Some r ->
        Py.startswith r "0" = true
        /\ Py.str_forallb (fun c => Py.is_digit c || Ascii.eqb c "+") r = true).
Proof.
  split.
  - unfold normalize_phone. destruct (Py.truthy phone); cbn [negb];
      split; congruence.
  - intros r. apply normalize_phone_shape.
Qed.

Lemma normalize_phone_normal_form_witness :
  Py.startswith "0791234567" "0" = true
  /\ Py.str_forallb (fun c => Py.is_digit c || Ascii.eqb c "+") "0791234567"
     = true.
Proof.
  apply (proj2 (normalize_phone_normal_form (Some "+41 79 123 45 67"))).
  vm_compute. reflexivity.
Defined.

Lemma normalize_phone_fixed r :
  Py.startswith r "0" = true ->
  Py.str_forallb (fun c => Py.is_digit c || Ascii.eqb c "+") r = true ->
  normalize_phone (Some r) = Some r.
Proof.
  intros H0 Hk. apply startswith_char in H0. destruct H0 as [r' ->].
  unfold normalize_phone.
  replace (Py.truthy (Some (String "0" r'))) with true by reflexivity.
  cbn [negb default from_option id]. cbv zeta.
  rewrite (str_filter_id _ _ Hk).
  replace (Py.startswith (String "0" r') "+") with false by reflexivity.
  replace (Py.startswith (String "0" r') "41") with false by reflexivity.
  replace (Py.startswith (String "0" r') "0") with true
    by (destruct r'; reflexivity).
  reflexivity.
Qed.

(** X2. The Clinic-facing normalizer is idempotent: normalizing a
    normalized phone changes nothing. *)
Theorem normalize_phone_idempotent (phone : option string) :
  normalize_phone (normalize_phone phone) = normalize_phone phone.
Proof.
  destruct (normalize_phone phone) as [r|] eqn:Hr; [|reflexivity].
  apply normalize_phone_shape in Hr. destruct Hr as [H0 Hk].
  apply normalize_phone_fixed; assumption.
Qed.

Lemma startswith_41 d : Py.startswith (String "4" (String "1" d)) "41" = true.
Proof. destruct d; reflexivity. Qed.

Lemma digits_keep d :
  Py.str_forallb Py.is_digit d = true ->
  Py.str_forallb (fun c => Py.is_digit c || Ascii.eqb c "+") d = true.
Proof.
  apply str_forallb_impl. intros c Hc. rewrite Hc. reflexivity.
Qed.

Lemma normalize_phone_plus41 d :
  Py.str_forallb Py.is_digit d = true -> Py.startswith d "0" = false ->
  normalize_phone (Some ("+41" ++ d)) = Some ("0" ++ d).
Proof.
  intros Hd H0. apply digits_keep in Hd.
  change ("+41" ++ d) with (String "+" (String "4" (String "1" d))).
  unfold normalize_phone.
  replace (Py.truthy (Some (String "+" (String "4" (String "1" d)))))
    with true by reflexivity.
  cbn [negb default from_option id]. cbv zeta.
  rewrite str_filter_id by (cbn [Py.str_forallb]; rewrite Hd; reflexivity).
  replace (Py.startswith (String "+" (String "4" (String "1" d))) "+")
    with true by reflexivity.
  cbn [Py.str_drop]. rewrite startswith_41. cbn [Py.str_drop].
  rewrite H0. reflexivity.
Qed.

Lemma normalize_phone_41 d :
  Py.str_forallb Py.is_digit d = true -> Py.startswith d "0" = false ->
  normalize_phone (Some ("41" ++ d)) = Some ("0" ++ d).
Proof.
  intros Hd H0. apply digits_keep in Hd.
  change ("41" ++ d) with (String "4" (String "1" d)).
  unfold normalize_phone.
  replace (Py.truthy (Some (String "4" (String "1" d))))
    with true by reflexivity.
  cbn [negb default from_option id]. cbv zeta.
  rewrite str_filter_id by (cbn [Py.str_forallb]; rewrite Hd; reflexivity).
  replace (Py.startswith (String "4" (String "1" d)) "+")
    with false by reflexivity.
  rewrite startswith_41. cbn [Py.str_drop].
  rewrite H0. reflexivity.
Qed.

(** X3. For a subscriber number [d] (digits, no leading zero), the
    Clinic-facing normalizer maps the spellings [+41 d], [41 d] and [0 d] to
    the same national form [0 d].  The spelling [0041 d] is not recognised:
    it is returned as it is, so it does not compare equal to the others. *)
Theorem normalize_phone_swiss_spellings (d : string) :
  Py.str_forallb Py.is_digit d = true -> Py.startswith d "0" = false ->
  normalize_phone (Some ("+41" ++ d)) = Some ("0" ++ d)
  /\ normalize_phone (Some ("41" ++ d)) = Some ("0" ++ d)
  /\ normalize_phone (Some ("0" ++ d)) = Some ("0" ++ d)
  /\ normalize_phone (Some ("0041" ++ d)) = Some ("0041" ++ d)
  /\ "0041" ++ d <> "0" ++ d.
Proof.
  intros Hd H0.
  split; [apply normalize_phone_plus41; assumption|].
  split; [apply normalize_phone_41; assumption|].
  split; [|split].
  - apply normalize_phone_fixed.
    + apply startswith_char. eexists. reflexivity.
    + change ("0" ++ d) with (String "0" d). cbn [Py.str_forallb].
      rewrite (digits_keep _ Hd). reflexivity.
  - apply normalize_phone_fixed.
    + apply startswith_char. eexists. reflexivity.
    + change ("0041" ++ d)
        with (String "0" (String "0" (String "4" (String "1" d)))).
      cbn [Py.str_forallb]. rewrite (digits_keep _ Hd). reflexivity.
  - change ("0041" ++ d)
      with (String "0" (String "0" (String "4" (String "1" d)))).
    change ("0" ++ d) with (String "0" d).
    intros [= E]. rewrite <- E in H0. discriminate H0.
Qed.

Lemma normalize_phone_swiss_spellings_witness :
  normalize_phone (Some "+41791234567") = Some "0791234567"
  /\ normalize_phone (Some "41791234567") = Some "0791234567"
  /\ normalize_phone (Some "0791234567") = Some "0791234567"
  /\ normalize_phone (Some "0041791234567") = Some "0041791234567"
  /\ "0041791234567" <> "0791234567".
Proof.
  apply (normalize_phone_swiss_spellings "791234567"); reflexivity.
Defined.

Lemma str_filter_keeps (p q : ascii -> bool) s :
  Py.str_forallb q s = true ->
  Py.str_forallb (fun c => q c && p c) (Py.str_filter p s) = true.
Proof.
  induction s as [|c s IH]; cbn; [reflexivity|].
  intros H. apply andb_prop in H. destruct H as [Hc Hs].
  destruct (p c) eqn:Hp; cbn; [rewrite Hc, Hp; cbn|]; apply IH, Hs.
Qed.

Lemma str_forallb_cons (p : ascii -> bool) c s :
  p c = true -> Py.str_forallb p s = true ->
  Py.str_forallb p (String c s) = true.
Proof. intros Hc Hs. cbn. rewrite Hc, Hs. reflexivity. Qed.

Lemma str_forallb_true s : Py.str_forallb (fun _ => true) s = true.
Proof. induction s as [|c s IH]; cbn; [reflexivity|exact IH]. Qed.

(** The cleaning step of [validate_and_clean_phone] leaves none of the
    four separators. *)
Lemma cleaned_phone_no_separator s :
  Py.str_forallb
    (fun c => negb (Ascii.eqb c " ") && negb (Ascii.eqb c "-")
              && negb (Ascii.eqb c "(") && negb (Ascii.eqb c ")"))
    (Py.remove_char ")" (Py.remove_char "(" (Py.remove_char "-"
       (Py.remove_char " " (Py.strip s))))) = true.
Proof.
  unfold Py.remove_char.
  eapply str_forallb_impl;
    [|apply str_filter_keeps, str_filter_keeps, str_filter_keeps,
        str_filter_keeps, str_forallb_true].
  intros c Hc. cbn beta in Hc. exact Hc.
Qed.

Lemma validate_and_clean_phone_shape phone r :
  validate_and_clean_phone phone = Some r ->
  r <> ""
  /\ Py.str_forallb
       (fun c => negb (Ascii.eqb c " ") && negb (Ascii.eqb c "-")
                 && negb (Ascii.eqb c "(") && negb (Ascii.eqb c ")")) r = true
  /\ (Py.startswith r "+" = true
      \/ (Py.isdigit r = true /\ (10 <= String.length r)%nat)).
Proof.
  unfold validate_and_clean_phone.
  destruct (Py.truthy phone); cbn [negb]; [|discriminate]. cbv zeta.
  pose proof (cleaned_phone_no_separator (default "" phone)) as Hc.
  set (p := Py.remove_char ")" _) in *.
  destruct (Py.startswith p "+") eqn:Hplus.
  { destruct (_ && _); [|discriminate]. intros [= <-].
    split; [|split; [exact Hc|left; exact Hplus]].
    apply startswith_char in Hplus. destruct Hplus as [r' ->]. discriminate. }
  destruct (Py.startswith p "00").
  { intros [= <-]. change ("+" ++ Py.str_drop 2 p)
      with (String "+" (Py.str_drop 2 p)).
    split; [discriminate|].
    split; [|left; apply startswith_char; eexists; reflexivity].
    apply str_forallb_cons; [reflexivity|exact (str_forallb_drop _ 2 p Hc)]. }
  destruct (Py.startswith p "41" && (10 <=? String.length p)%nat).
  { intros [= <-]. change ("+" ++ p) with (String "+" p).
    split; [discriminate|].
    split; [|left; apply startswith_char; eexists; reflexivity].
    apply str_forallb_cons; [reflexivity|exact Hc]. }
  destruct (Py.startswith p "0" && (10 <=? String.length p)%nat).
  { intros [= <-]. change ("+41" ++ Py.str_drop 1 p)
      with (String "+" (String "4" (String "1" (Py.str_drop 1 p)))).
    split; [discriminate|].
    split; [|left; apply startswith_char; eexists; reflexivity].
    do 3 (apply str_forallb_cons; [reflexivity|]).
    exact (str_forallb_drop _ 1 p Hc). }
  destruct (Py.isdigit p && (10 <=? String.length p)%nat) eqn:Hd;
    [|discriminate].
  intros [= <-]. apply andb_prop in Hd. destruct Hd as [Hd Hlen].
  apply Nat.leb_le in Hlen.
  split; [|split; [exact Hc|right; split; assumption]].
  intros ->. cbn in Hlen. lia.
Qed.

(** X4. Whatever the CRM phone cleaner returns is a non-empty string free
    of blanks, dashes and parentheses, and it either starts with ["+"] or
    consists of at least ten digits. *)
Theorem validate_and_clean_phone_result (phone : option string) (r : string) :
  validate_and_clean_phone phone = Some r ->
  r <> ""
  /\ Py.str_forallb
       (fun c => negb (Ascii.eqb c " ") && negb (Ascii.eqb c "-")
                 && negb (Ascii.eqb c "(") && negb (Ascii.eqb c ")")) r = true
  /\ (Py.startswith r "+" = true
      \/ (Py.isdigit r = true /\ (10 <= String.length r)%nat)).
Proof. apply validate_and_clean_phone_shape. Qed.

Lemma validate_and_clean_phone_result_witness :
  "+41791234567" <> ""
  /\ Py.str_forallb
       (fun c => negb (Ascii.eqb c " ") && negb (Ascii.eqb c "-")
                 && negb (Ascii.eqb c "(") && negb (Ascii.eqb c ")"))
       "+41791234567" = true
  /\ (Py.startswith "+41791234567" "+" = true
      \/ (Py.isdigit "+41791234567" = true
          /\ (10 <= String.length "+41791234567")%nat)).
Proof.
  apply (validate_and_clean_phone_result (Some "(079) 123-45 67")).
  vm_compute. reflexivity.
Defined.

Lemma digit_not_space c : Py.is_digit c = true -> Py.is_space c = false.
Proof.
  unfold Py.is_digit, Py.is_space. cbv zeta. intros H.
  apply andb_prop in H. destruct H as [H1 H2].
  apply Nat.leb_le in H1. apply Nat.leb_le in H2.
  apply orb_false_intro; apply andb_false_iff.
  - right. apply Nat.leb_gt. lia.
  - right. apply Nat.leb_gt. lia.
Qed.

Lemma rstrip_id s :
  Py.str_forallb (fun c => negb (Py.is_space c)) s = true -> Py.rstrip s = s.
Proof.
  induction s as [|c s IH]; cbn [Py.rstrip Py.str_forallb]; [reflexivity|].
  intros H. apply andb_prop in H. destruct H as [Hc Hs].
  rewrite (IH Hs). apply negb_true_iff in Hc. rewrite Hc.
  destruct s; reflexivity.
Qed.

Lemma remove_char_id c s :
  Py.str_forallb (fun x => negb (Ascii.eqb x c)) s = true ->
  Py.remove_char c s = s.
Proof. apply str_filter_id. Qed.

Lemma digit_not_char c x :
  Py.is_digit x = false -> Py.is_digit c = true -> negb (Ascii.eqb c x) = true.
Proof.
  intros Hx Hc. destruct (Ascii.eqb_spec c x) as [->|]; [congruence|reflexivity].
Qed.

(** A string of digits passes the cleaning step unchanged. *)
Lemma cleaned_digits s :
  Py.str_forallb Py.is_digit s = true ->
  Py.remove_char ")" (Py.remove_char "(" (Py.remove_char "-"
    (Py.remove_char " " (Py.strip s)))) = s.
Proof.
  intros Hs.
  assert (Py.strip s = s) as ->.
  { unfold Py.strip.
    assert (Py.lstrip s = s) as ->.
    { destruct s as [|c s]; [reflexivity|]. cbn [Py.lstrip].
      cbn in Hs. apply andb_prop in Hs. destruct Hs as [Hc _].
      rewrite (digit_not_space c Hc). reflexivity. }
    apply rstrip_id. revert Hs. apply str_forallb_impl.
    intros c Hc. rewrite (digit_not_space c Hc). reflexivity. }
  rewrite (remove_char_id " " s), (remove_char_id "-" s),
    (remove_char_id "(" s), (remove_char_id ")" s);
    [reflexivity|..]; revert Hs; apply str_forallb_impl; intros c;
    apply digit_not_char; reflexivity.
Qed.

Lemma validate_and_clean_phone_local d :
  Py.str_forallb Py.is_digit d = true -> Py.startswith d "0" = false ->
  (9 <= String.length d)%nat ->
  validate_and_clean_phone (Some ("0" ++ d)) = Some ("+41" ++ d).
Proof.
  intros Hd H0 Hlen. change ("0" ++ d) with (String "0" d).
  unfold validate_and_clean_phone.
  replace (Py.truthy (Some (String "0" d))) with true by reflexivity.
  cbn [negb default from_option id]. cbv zeta.
  rewrite cleaned_digits by (cbn [Py.str_forallb]; rewrite Hd; reflexivity).
  replace (Py.startswith (String "0" d) "+") with false by reflexivity.
  replace (Py.startswith (String "0" d) "00") with (Py.startswith d "0")
    by reflexivity.
  rewrite H0.
  replace (Py.startswith (String "0" d) "41") with false by reflexivity.
  replace (Py.startswith (String "0" d) "0") with true
    by (destruct d; reflexivity).
  cbn [andb String.length Py.str_drop].
  destruct (Nat.leb_spec 10 (S (String.length d))) as [_|Hlt]; [|lia].
  reflexivity.
Qed.

(** X5. Round trip between the two normalizers on Swiss numbers.  For a
    subscriber number [d] of at least nine digits without leading zero, the
    CRM cleaner turns the national form [0 d] into [+41 d], the Clinic
    normalizer turns that back into [0 d], and conversely cleaning the
    normalized [+41 d] gives [+41 d] again. *)
Theorem phone_round_trip_swiss (d : string) :
  Py.str_forallb Py.is_digit d = true -> Py.startswith d "0" = false ->
  (9 <= String.length d)%nat ->
  validate_and_clean_phone (Some ("0" ++ d)) = Some ("+41" ++ d)
  /\ normalize_phone (validate_and_clean_phone (Some ("0" ++ d)))
     = Some ("0" ++ d)
  /\ validate_and_clean_phone (normalize_phone (Some ("+41" ++ d)))
     = Some ("+41" ++ d).
Proof.
  intros Hd H0 Hlen.
  pose proof (validate_and_clean_phone_local d Hd H0 Hlen) as Hv.
  pose proof (normalize_phone_plus41 d Hd H0) as Hn.
  split; [exact Hv|]. split.
  - rewrite Hv. exact Hn.
  - rewrite Hn. exact Hv.
Qed.

Lemma phone_round_trip_swiss_witness :
  validate_and_clean_phone (Some "0791234567") = Some "+41791234567"
  /\ normalize_phone (validate_and_clean_phone (Some "0791234567"))
     = Some "0791234567"
  /\ validate_and_clean_phone (normalize_phone (Some "+41791234567"))
     = Some "+41791234567".
Proof.
  apply (phone_round_trip_swiss "791234567"); [reflexivity|reflexivity|].
  cbn. lia.
Defined.

(** ** The CRM contact payload *)

Lemma or_None_Some o s : Py.or_None o = Some s -> o = Some s /\ s <> "".
Proof.
  unfold Py.or_None. destruct (Py.truthy o) eqn:Ht; [|discriminate].
  intros ->. split; [reflexivity|]. apply truthy_Some, Ht.
Qed.

Lemma truthy_or_None o : Py.truthy o = true -> Py.or_None o = o.
Proof. unfold Py.or_None. intros ->. reflexivity. Qed.

Lemma validate_and_clean_phone_truthy phone :
  Py.truthy (validate_and_clean_phone phone)
  = match validate_and_clean_phone phone with Some _ => true | None => false end.
Proof.
  destruct (validate_and_clean_phone phone) as [r|] eqn:Hr; [|reflexivity].
  apply validate_and_clean_phone_shape in Hr. apply truthy_Some, Hr.
Qed.

(** X6. The CRM contact payload: [name] is always there and never empty;
    [phone] is there exactly when the cleaner accepts the stored phone, and
    is the cleaned number; the payload has no other keys than the nine the
    builder knows (in particular no [locationId]); and apart from
    [firstName] and [lastName] no key is sent with an empty value. *)
Theorem contact_payload_fields (c : ContactSync.t) :
  let payload := build_ghl_contact_payload c in
  (exists n, payload !! "name" = Some n /\ n <> "")
  /\ payload !! "phone" = validate_and_clean_phone (ContactSync.phone c)
  /\ payload !! "email" = Py.or_None (ContactSync.email c)
  /\ (forall k v, payload !! k = Some v ->
        k ∈ ["firstName"; "lastName"; "name"; "email"; "address1"; "city";
             "postalCode"; "phone"; "dateOfBirth"]
        /\ (k <> "firstName" -> k <> "lastName" -> v <> "")).
Proof.
  cbv zeta. unfold build_ghl_contact_payload. cbv zeta.
  set (full_name := if String.eqb (Py.strip _) "" then "Unknown" else _).
  assert (full_name <> "") as Hname.
  { subst full_name.
    destruct (String.eqb_spec
                (Py.strip
                   (default "" (Py.or_None (ContactSync.first_name c)) ++ " "
                    ++ default "" (Py.or_None (ContactSync.last_name c))))
                ""); [discriminate|assumption]. }
  set (phone := if Py.truthy (ContactSync.phone c)
                then validate_and_clean_phone (ContactSync.phone c)
                else None).
  assert (phone = validate_and_clean_phone (ContactSync.phone c)) as Hphone.
  { subst phone. destruct (Py.truthy (ContactSync.phone c)) eqn:Ht;
      [reflexivity|].
    unfold validate_and_clean_phone. rewrite Ht. reflexivity. }
  assert (Py.truthy phone = false -> phone = None) as Hnone.
  { rewrite Hphone, validate_and_clean_phone_truthy.
    destruct (validate_and_clean_phone (ContactSync.phone c));
      [discriminate|reflexivity]. }
  clearbody phone full_name.
  set (dob := date_of_birth (ContactSync.birth_date c)). clearbody dob.
  split; [|split; [|split]].
  - exists full_name. split; [|exact Hname]. rewrite lookup_omap.
    destruct (Py.truthy dob), (Py.truthy phone);
      repeat (rewrite lookup_insert_ne by discriminate);
      rewrite lookup_insert_eq; reflexivity.
  - rewrite lookup_omap, <- Hphone.
    destruct (Py.truthy dob), (Py.truthy phone) eqn:Hp;
      repeat (rewrite lookup_insert_ne by discriminate);
      try (rewrite lookup_insert_eq; reflexivity);
      rewrite lookup_empty, (Hnone eq_refl); reflexivity.
  - rewrite lookup_omap.
    destruct (Py.truthy dob), (Py.truthy phone);
      repeat (rewrite lookup_insert_ne by discriminate);
      rewrite lookup_insert_eq; reflexivity.
  - intros k v H. rewrite lookup_omap in H.
    assert (forall s, Py.truthy (Some s) = true -> s <> "") as Htr.
    { intros s. apply truthy_Some. }
    destruct (Py.truthy dob) eqn:Hdob, (Py.truthy phone) eqn:Hp;
      repeat match type of H with
             | context [<[?key := ?x]> ?m !! k] =>
                 destruct (decide (key = k)) as [<-|?];
                 [rewrite lookup_insert_eq in H
                 |rewrite lookup_insert_ne in H by assumption]
             end;
      try (rewrite lookup_empty in H; discriminate H);
      cbn in H; (split; [repeat constructor|]); intros Hf Hl;
      try (exfalso; apply Hf; reflexivity);
      try (exfalso; apply Hl; reflexivity);
      match type of H with
      | Py.or_None _ = Some _ => apply or_None_Some in H; apply H
      | Some _ = Some _ => injection H as <-; exact Hname
      | phone = Some _ => rewrite H in Hp; apply Htr, Hp
      | dob = Some _ => rewrite H in Hdob; apply Htr, Hdob
      end.
Qed.

Lemma contact_payload_fields_witness :
  "name" ∈ ["firstName"; "lastName"; "name"; "email"; "address1"; "city";
            "postalCode"; "phone"; "dateOfBirth"]
  /\ ("name" <> "firstName" -> "name" <> "lastName" -> "Anna Muster" <> "").
Proof.
  apply (proj2 (proj2 (proj2 (contact_payload_fields Sample.contact_42)))).
  vm_compute. reflexivity.
Defined.

(** ** Writes to the CRM *)

Lemma new_events_nil {A} (m : M A) w :
  trace (snd (m w)) = trace w -> new_events m w = [].
Proof. intros H. unfold new_events. rewrite H. apply drop_all. Qed.

Lemma new_events_app {A} (m : M A) w l :
  trace (snd (m w)) = (trace w ++ l)%list -> new_events m w = l.
Proof. intros H. unfold new_events. rewrite H. apply drop_app_length. Qed.





Lemma wrap_result_dict key resp d w :
  json resp = Some (BDict d) ->
  wrap_result key resp w
  = (Ok (if dict_has key d then d
         else if dict_has "id" d then [(key, JObj d)] else d), w).
Proof.
  intros Hj. unfold wrap_result, response_json, mbind, M_bind. rewrite Hj.
  cbn. destruct (dict_has key d); [reflexivity|].
  destruct (dict_has "id" d); reflexivity.
Qed.

Lemma create_ghl_contact_success payload w resp d :
  ghl_ready w = true ->
  nth_reply w 0 = Answer resp ->
  (status_code resp =? 200)%Z || (status_code resp =? 201)%Z = true ->
  json resp = Some (BDict d) ->
  create_ghl_contact payload w
  = (Ok (if dict_has "contact" d then d
         else if dict_has "id" d then [("contact", JObj d)] else d),
     after_request "POST" (GHL_BASE_URL ++ "/contacts/") w).
Proof.
  intros Hr Hn Hst Hj.
  destruct (get_ghl_auth_run w) as (a & l & Hrun & Hneg & _).
  unfold create_ghl_contact, mbind at 1, M_bind at 1.
  rewrite Hrun, Hneg, Hr. cbn [negb].
  unfold mbind at 1, M_bind at 1. rewrite (get_ghl_headers_ready w Hr).
  unfold try_except, mbind at 1, M_bind at 1.
  rewrite request_run, Hn, Hst, (wrap_result_dict _ _ d _ Hj). reflexivity.
Qed.

Lemma dict_get_nonempty k (d : dict) v :
  dict_get k d = Some v -> jtruthy (JObj d) = true.
Proof. destruct d; [discriminate|reflexivity]. Qed.

(** X8. The CRM contact id is found whichever way the CRM answers a
    successful create: with the contact under the key [contact], or with the
    bare contact.  In both cases the create call followed by the id
    extraction of the sync code yields the id of the reply. *)
Theorem crm_contact_id_found
    (w : World) (payload : gmap string string) (resp : Response)
    (d : dict) (v : jval) :
  ghl_ready w = true ->
  nth_reply w 0 = Answer resp ->
  (status_code resp = 200 \/ status_code resp = 201)%Z ->
  json resp = Some (BDict d) ->
  jtruthy v = true ->
  (dict_get "contact" d = None /\ dict_get "id" d = Some v)
  \/ (exists o, dict_get "contact" d = Some (JObj o)
                /\ dict_get "id" o = Some v) ->
  exists result w',
    create_ghl_contact payload w = (Ok result, w')
    /\ extract_id "contact" result w' = (Ok (Some v), w').
Proof.
  intros Hr Hn Hst Hj Hv Hshape.
  assert ((status_code resp =? 200)%Z || (status_code resp =? 201)%Z = true)
    as Hst'.
  { destruct Hst as [-> | ->]; reflexivity. }
  rewrite (create_ghl_contact_success payload w resp d Hr Hn Hst' Hj).
  do 2 eexists. split; [reflexivity|].
  unfold extract_id, dict_has, mbind, M_bind.
  destruct Hshape as [[Hc Hid]|(o & Hc & Hid)].
  - rewrite Hc, Hid.
    change (dict_get "contact" [("contact", JObj d)]) with (Some (JObj d)).
    cbv beta iota. rewrite (dict_get_nonempty _ _ _ Hid). cbv beta iota.
    unfold mret, M_ret. rewrite Hid. unfold get_truthy. rewrite Hv.
    reflexivity.
  - rewrite Hc. cbv beta iota. rewrite Hc. cbv beta iota.
    rewrite (dict_get_nonempty _ _ _ Hid). cbv beta iota.
    unfold mret, M_ret. rewrite Hid. unfold get_truthy. rewrite Hv.
    reflexivity.
Qed.

Lemma crm_contact_id_found_witness :
  exists result w',
    create_ghl_contact ∅ Sample.world_contact_created = (Ok result, w')
    /\ extract_id "contact" result w' = (Ok (Some (JStr "ghl-contact-7")), w').
Proof.
  apply (crm_contact_id_found Sample.world_contact_created ∅
           (mkResponse 201 "" (Some (BDict [("id", JStr "ghl-contact-7")])))
           [("id", JStr "ghl-contact-7")] (JStr "ghl-contact-7")).
  - reflexivity.
  - reflexivity.
  - right. reflexivity.
  - reflexivity.
  - reflexivity.
  - left. split; reflexivity.
Defined.

Lemma extract_id_bare key d v w :
  dict_get "id" d = Some v -> jtruthy v = true ->
  extract_id key [(key, JObj d)] w = (Ok (Some v), w).
Proof.
  intros Hid Hv. unfold extract_id, mbind, M_bind.
  replace (dict_get key [(key, JObj d)]) with (Some (JObj d))
    by (cbn; rewrite String.eqb_refl; reflexivity).
  cbv beta iota. rewrite (dict_get_nonempty _ _ _ Hid). cbv beta iota.
  unfold mret, M_ret. rewrite Hid. unfold get_truthy. rewrite Hv.
  reflexivity.
Qed.

(** Another row holds the CRM contact id [v]. *)
Lemma ghl_contact_id_taken k v t :
  existsb (fun o : Instance ContactSync.t =>
             negb (Nat.eqb (default 0%nat (pk o)) k)
             && same_some (ContactSync.ghl_contact_id (row o)) (Some v))
    (objects_all t) = true
  <-> exists j r, t !! j = Some r /\ S j <> k
                  /\ ContactSync.ghl_contact_id r = Some v.
Proof.
  rewrite existsb_exists. split.
  - intros (o & Hin & Ho). apply list_elem_of_In in Hin.
    unfold objects_all in Hin. apply elem_of_lookup_imap in Hin.
    destruct Hin as (j & r & -> & Hr).
    cbn [pk row default from_option id] in Ho.
    apply andb_prop in Ho. destruct Ho as [Hk Hs].
    exists j, r. split; [exact Hr|]. split.
    + apply negb_true_iff, Nat.eqb_neq in Hk. exact Hk.
    + apply same_some_Some, Hs.
  - intros (j & r & Hr & Hk & Hs).
    exists (mkInstance (Some (S j)) r). split.
    + apply objects_all_elem, Hr.
    + cbn [pk row default from_option id]. rewrite Hs.
      apply andb_true_intro. split.
      * apply negb_true_iff, Nat.eqb_neq, Hk.
      * cbn. apply String.eqb_refl.
Qed.

(** X9. One push of the patient task, when the CRM accepts the create and
    answers with the bare contact: the id of the reply is stored in the
    [ghl_contact_id] column of the pushed row, nothing else is written and
    the push counts as synced; unless another row already holds that id, in
    which case the unique constraint refuses the write, the failure is
    swallowed, nothing is stored and the push does not count. *)
Theorem push_contact_stores_crm_id
    (w : World) (contact : Instance ContactSync.t) (n i : nat)
    (resp : Response) (d : dict) (v : jval) :
  ghl_ready w = true ->
  pk contact = Some (S i) ->
  nth_reply w 0 = Answer resp ->
  (status_code resp = 200 \/ status_code resp = 201)%Z ->
  json resp = Some (BDict d) ->
  dict_get "contact" d = None -> dict_get "id" d = Some v ->
  jtruthy v = true ->
  let w' := snd (push_contact contact n w) in
  let taken :=
    exists j r, contact_sync w !! j = Some r /\ j <> i
                /\ ContactSync.ghl_contact_id r = Some (py_str v) in
  (~ taken ->
   fst (push_contact contact n w) = Ok (n + 1)%nat
   /\ contact_sync w'
      = alter (ContactSync.set_ghl_contact_id (Some (py_str v))) i
          (contact_sync w))
  /\ (taken ->
      fst (push_contact contact n w) = Ok n
      /\ contact_sync w' = contact_sync w).
Proof.
  intros Hr Hpk Hn Hst Hj Hc Hid Hv. cbv zeta.
  assert ((status_code resp =? 200)%Z || (status_code resp =? 201)%Z = true)
    as Hst'.
  { destruct Hst as [-> | ->]; reflexivity. }
  set (w1 := after_request "POST" (GHL_BASE_URL ++ "/contacts/") w).
  assert (forall b,
            existsb (fun o : Instance ContactSync.t =>
                       negb (Nat.eqb (default 0%nat (pk o)) (S i))
                       && same_some (ContactSync.ghl_contact_id (row o))
                            (Some (py_str v)))
              (objects_all (contact_sync w1)) = b ->
            push_contact contact n w
            = if b then (Ok n, w1)
              else (Ok (n + 1)%nat,
                    set_contact_sync
                      (table_update (S i)
                         (ContactSync.set_ghl_contact_id (Some (py_str v)))
                         (contact_sync w1)) w1)) as Hrun.
  { intros b Hb. unfold push_contact, try_except, mbind at 1, M_bind at 1.
    rewrite (create_ghl_contact_success _ w resp d Hr Hn Hst' Hj).
    fold w1. unfold dict_has. rewrite Hc, Hid.
    replace (get_truthy (dict_get "error" [("contact", JObj d)]))
      with false by reflexivity.
    cbn [negb andb]. unfold mbind at 1, M_bind at 1.
    rewrite (extract_id_bare "contact" d v w1 Hid Hv).
    unfold get_truthy at 1. rewrite Hv.
    cbn [default from_option id].
    unfold save_contact_ghl_id. rewrite Hpk.
    unfold mbind, M_bind, get_world. rewrite Hb.
    destruct b; reflexivity. }
  split.
  - intros Hfree. rewrite (Hrun false); [split; reflexivity|].
    apply not_true_is_false. intros Ht. apply ghl_contact_id_taken in Ht.
    apply Hfree. destruct Ht as (j & r & Hr' & Hk & Hs).
    exists j, r. split; [exact Hr'|]. split; [congruence|exact Hs].
  - intros Htaken. rewrite (Hrun true); [split; reflexivity|].
    apply ghl_contact_id_taken. destruct Htaken as (j & r & Hr' & Hk & Hs).
    exists j, r. split; [exact Hr'|]. split; [congruence|exact Hs].
Qed.

Lemma push_contact_stores_crm_id_witness :
  fst (push_contact (mkInstance (Some 1%nat) Sample.unlinked_contact_42) 0
         Sample.world_contact_created) = Ok 1%nat
  /\ contact_sync
       (snd (push_contact (mkInstance (Some 1%nat) Sample.unlinked_contact_42)
               0 Sample.world_contact_created))
     = [ContactSync.set_ghl_contact_id (Some "ghl-contact-7")
          Sample.unlinked_contact_42].
Proof.
  apply (push_contact_stores_crm_id Sample.world_contact_created
           (mkInstance (Some 1%nat) Sample.unlinked_contact_42) 0 0
           (mkResponse 201 "" (Some (BDict [("id", JStr "ghl-contact-7")])))
           [("id", JStr "ghl-contact-7")] (JStr "ghl-contact-7"));
    try reflexivity.
  - right. reflexivity.
  - intros (j & r & Hr & Hj & Hg). destruct j as [|j]; [congruence|].
    destruct j; discriminate Hr.
Defined.

Lemma attempt_once_success a w resp d :
  nth_reply w 0 = Answer resp ->
  (status_code resp =? 200)%Z || (status_code resp =? 201)%Z = true ->
  json resp = Some (BDict d) ->
  attempt_once a w
  = (Ok (Some (if dict_has "appointment" d then d
               else if dict_has "id" d then [("appointment", JObj d)]
                    else d)),
     after_request "POST" APPOINTMENTS_URL w).
Proof.
  intros Hn Hst Hj. unfold attempt_once, try_except, mbind at 1, M_bind at 1.
  rewrite request_run, Hn, Hst. unfold mbind, M_bind.
  rewrite (wrap_result_dict _ _ d _ Hj). reflexivity.
Qed.

Lemma attempt_once_retry a w :
  retryable (nth_reply w 0) = true -> (a < 2)%nat ->
  attempt_once a w
  = (Ok None,
     log (Sleep (RETRY_DELAY * (Z.of_nat a + 1)))
       (after_request "POST" APPOINTMENTS_URL w)).
Proof.
  intros Hret Ha. pose proof (attempt_once_run a w) as H. cbv zeta in H.
  rewrite Hret in H.
  replace (a <? MAX_RETRIES - 1)%nat with true in H
    by (symmetry; apply Nat.ltb_lt; exact Ha).
  exact H.
Qed.

(** X10. Transient failures do not lose a late success of the appointment
    write: when the first [k] replies ([k] below 3) are retryable (5xx,
    timeout or connection error) and the next one is a 200 or 201 with a
    JSON object, the write returns that object (wrapped under
    [appointment] when it is the bare appointment) after exactly [k + 1]
    requests and the pauses 2 s, 4 s between them. *)
Theorem create_ghl_appointment_late_success
    (w : World) (appt : Instance AppointmentSync.t) (k : nat)
    (resp : Response) (d : dict) :
  ghl_ready w = true ->
  Py.truthy (AppointmentSync.ghl_contact_id (row appt)) = true ->
  (k < 3)%nat ->
  (forall j, (j < k)%nat -> retryable (nth_reply w j) = true) ->
  nth_reply w k = Answer resp ->
  (status_code resp = 200 \/ status_code resp = 201)%Z ->
  json resp = Some (BDict d) ->
  let t := new_events (create_ghl_appointment appt) w in
  fst (create_ghl_appointment appt w)
  = Ok (if dict_has "appointment" d then d
        else if dict_has "id" d then [("appointment", JObj d)] else d)
  /\ attempts_in t = S k
  /\ sleeps_in t = map (fun j => (RETRY_DELAY * (Z.of_nat j + 1))%Z) (seq 0 k).
Proof.
  intros Hr Hc Hk Hret Hn Hst Hj. cbv zeta.
  assert ((status_code resp =? 200)%Z || (status_code resp =? 201)%Z = true)
    as Hst'.
  { destruct Hst as [-> | ->]; reflexivity. }
  set (H := Http "POST" APPOINTMENTS_URL).
  set (C := CallCreateGhlAppointment appt).
  set (res := if dict_has "appointment" d then d
              else if dict_has "id" d then [("appointment", JObj d)] else d).
  assert (exists wf,
            create_ghl_appointment appt w = (Ok res, wf)
            /\ trace wf
               = (trace w
                  ++ C :: match k with
                          | 0 => [H]
                          | 1 => [H; Sleep 2; H]
                          | _ => [H; Sleep 2; H; Sleep 4; H]
                          end)%list) as (wf & Hrun & Htr).
  { rewrite (create_ghl_appointment_run appt w Hr Hc). fold C.
    set (w0 := log C w).
    assert (forall j, nth_reply w0 j = nth_reply w j) as Hn0
      by reflexivity.
    change (seq 0 MAX_RETRIES) with [0; 1; 2]%nat.
    destruct k as [|[|[|k]]]; [| | |lia].
    - cbn [retry_loop]. unfold mbind at 1, M_bind at 1.
      rewrite (attempt_once_success 0 w0 resp d Hn Hst' Hj).
      eexists. split; [reflexivity|].
      cbn [trace after_request set_network log]. subst w0.
      cbn [trace log]. rewrite <- app_assoc. reflexivity.
    - cbn [retry_loop]. unfold mbind at 1, M_bind at 1.
      rewrite (attempt_once_retry 0 w0);
        [|rewrite Hn0; apply Hret; lia|lia].
      unfold mbind at 1, M_bind at 1.
      rewrite (attempt_once_success 1 _ resp d);
        [|rewrite nth_reply_log, nth_reply_after_request, Hn0; exact Hn
         |exact Hst'|exact Hj].
      eexists. split; [reflexivity|].
      cbn [trace after_request set_network log]. subst w0.
      cbn [trace log]. rewrite <- !app_assoc. reflexivity.
    - cbn [retry_loop]. unfold mbind at 1, M_bind at 1.
      rewrite (attempt_once_retry 0 w0);
        [|rewrite Hn0; apply Hret; lia|lia].
      unfold mbind at 1, M_bind at 1.
      rewrite (attempt_once_retry 1);
        [|rewrite nth_reply_log, nth_reply_after_request, Hn0;
          apply Hret; lia|lia].
      unfold mbind at 1, M_bind at 1.
      rewrite (attempt_once_success 2 _ resp d);
        [|rewrite !nth_reply_log, !nth_reply_after_request, Hn0 ||
          (rewrite nth_reply_log, nth_reply_after_request, nth_reply_log,
             nth_reply_after_request, Hn0); exact Hn
         |exact Hst'|exact Hj].
      eexists. split; [reflexivity|].
      cbn [trace after_request set_network log]. subst w0.
      cbn [trace log]. rewrite <- !app_assoc. reflexivity. }
  rewrite Hrun. split; [reflexivity|].
  rewrite (new_events_app _ w _ (eq_trans (f_equal (fun p => trace (snd p)) Hrun) Htr)).
  destruct k as [|[|[|k]]]; [| | |lia]; split; reflexivity.
Qed.

Lemma create_ghl_appointment_late_success_witness :
  fst (create_ghl_appointment Sample.linked_appointment
         Sample.world_503_then_created)
  = Ok [("appointment", JObj [("id", JStr "ghl-appt-1")])]
  /\ attempts_in
       (new_events (create_ghl_appointment Sample.linked_appointment)
          Sample.world_503_then_created) = 2%nat
  /\ sleeps_in
       (new_events (create_ghl_appointment Sample.linked_appointment)
          Sample.world_503_then_created) = [2%Z].
Proof.
  apply (create_ghl_appointment_late_success Sample.world_503_then_created
           Sample.linked_appointment 1
           (mkResponse 201 "" (Some (BDict [("id", JStr "ghl-appt-1")])))
           [("id", JStr "ghl-appt-1")]); try reflexivity.
  - lia.
  - intros j Hj. destruct j; [reflexivity|lia].
  - right. reflexivity.
Defined.

(** ** Reading from the Clinic *)

Lemma get_active_patients_shape :
  get_active_patients
  = clinic_call "GET" (BASE_URL ++ "/patients")
      (fun b => match b with
                | BPatients l => mret l
                | _ => raise AttributeError
                end).
Proof. reflexivity. Qed.

Lemma get_ephysio_appointments_shape f t :
  get_ephysio_appointments f t
  = clinic_call "GET" (BASE_URL ++ "/events/events")
      (fun b => match b with
                | BEvents l => mret l
                | _ => raise AttributeError
                end).
Proof. reflexivity. Qed.

Lemma create_patient_shape payload :
  create_patient payload
  = clinic_call "POST" (BASE_URL ++ "/patients/request")
      (fun b => match b with
                | BDict d => mret d
                | _ => raise AttributeError
                end).
Proof. reflexivity. Qed.

Lemma trace_after_request method url w :
  trace (after_request method url w) = (trace w ++ [Http method url])%list.
Proof. reflexivity. Qed.

(** A login: one request; on success the credential row is replaced (or
    inserted) and nothing else changes. *)
Lemma authenticate_ephysio_eq w :
  let w1 := after_request "POST" (BASE_URL ++ "/token") w in
  authenticate_ephysio w
  = match nth_reply w 0 with
    | Answer resp =>
        if status_ok resp
        then match json resp with
             | Some (BLogin l) =>
                 (Ok (auth_of_login l),
                  set_ephysio_auth
                    (auth_of_login l :: tail (ephysio_auth w)) w1)
             | Some _ => (Raise KeyError, w1)
             | None => (Raise JSONDecodeError, w1)
             end
        else (Raise (HTTPError (status_code resp)), w1)
    | Fails e => (Raise e, w1)
    end.
Proof.
  cbv zeta. unfold authenticate_ephysio, mbind at 1, M_bind at 1.
  rewrite request_run.
  destruct (nth_reply w 0) as [resp|e] eqn:Hn; [|reflexivity].
  unfold mbind at 1, M_bind at 1, raise_for_status, status_ok.
  destruct ((400 <=? status_code resp)%Z && (status_code resp <? 600)%Z);
    [reflexivity|]. cbn [negb].
  unfold mret at 1, M_ret at 1, mbind at 1, M_bind at 1, response_json.
  destruct (json resp) as [[| | | |l]|] eqn:Hj; try reflexivity.
  unfold mret, M_ret, mbind, M_bind, modify, auth_of_login.
  destruct (ephysio_auth (after_request "POST" (BASE_URL ++ "/token") w))
    eqn:Ha; cbn in Ha; rewrite Ha; reflexivity.
Qed.

Lemma authenticate_ephysio_world w :
  trace (snd (authenticate_ephysio w)) = (trace w ++ [login_request])%list
  /\ forall a w', authenticate_ephysio w = (Ok a, w') ->
       head (ephysio_auth w') = Some a.
Proof.
  rewrite authenticate_ephysio_eq. cbv zeta.
  destruct (nth_reply w 0) as [resp|e]; [|split; [reflexivity|discriminate]].
  destruct (status_ok resp); [|split; [reflexivity|discriminate]].
  destruct (json resp) as [[| | | |l]|];
    try (split; [reflexivity|discriminate]).
  split; [reflexivity|]. intros a w' E. injection E as <- <-. reflexivity.
Qed.

Lemma get_ephysio_headers_eq w :
  get_ephysio_headers w
  = match head (ephysio_auth w) with
    | Some _ => (Ok tt, w)
    | None =>
        match authenticate_ephysio w with
        | (Ok _, w') => (Ok tt, w')
        | (Raise e, w') => (Raise e, w')
        end
    end.
Proof.
  unfold get_ephysio_headers, mbind at 1, M_bind at 1, get_world.
  destruct (head (ephysio_auth w)); [reflexivity|].
  unfold mbind, M_bind. destruct (authenticate_ephysio w) as [[a|e] w'];
    reflexivity.
Qed.

Lemma get_ephysio_headers_world w :
  trace (snd (get_ephysio_headers w))
  = (trace w ++ if Py.is_None (head (ephysio_auth w))
                then [login_request] else [])%list
  /\ forall u w', get_ephysio_headers w = (Ok u, w') ->
       is_Some (head (ephysio_auth w')).
Proof.
  rewrite get_ephysio_headers_eq.
  destruct (head (ephysio_auth w)) as [a|] eqn:Ha; cbn [Py.is_None].
  - split; [cbn; rewrite app_nil_r; reflexivity|].
    intros u w' E. injection E as _ <-. rewrite Ha. eexists. reflexivity.
  - destruct (authenticate_ephysio_world w) as [Ht Hok].
    destruct (authenticate_ephysio w) as [[a|e] w1]; cbn in Ht |- *.
    + split; [exact Ht|]. intros u w' E. injection E as _ <-.
      rewrite (Hok a w1 eq_refl). eexists. reflexivity.
    + split; [exact Ht|]. discriminate.
Qed.

Section ClinicCall.
Context {A : Type} (method url : string) (decode : body -> M A).
Hypothesis decode_pure : forall b w, snd (decode b w) = w.

Lemma clinic_finish_world (r : Response) w :
  snd ((raise_for_status r;; b ← response_json r; decode b) w) = w.
Proof.
  unfold mbind, M_bind, raise_for_status, response_json.
  destruct ((400 <=? status_code r)%Z && (status_code r <? 600)%Z);
    [reflexivity|].
  cbn. destruct (json r) as [b|]; [|reflexivity]. cbn.
  pose proof (decode_pure b w) as H. destruct (decode b w) as [[a|e] w'];
    exact H.
Qed.

(** The part of a Clinic call that follows the headers, from a store that
    holds a credential. *)
Lemma clinic_request_world w :
  is_Some (head (ephysio_auth w)) ->
  exists l,
    trace (snd ((response ← request method url;
                 response ←
                   (if (status_code response =? 401)%Z
                    then
                      authenticate_ephysio;;
                      get_ephysio_headers;;
                      request method url
                    else mret response);
                 raise_for_status response;;
                 b ← response_json response;
                 decode b) w))
    = (trace w ++ Http method url :: l)%list
    /\ l `prefix_of` [login_request; Http method url].
Proof.
  intros Hs. unfold mbind at 1, M_bind at 1. rewrite request_run.
  set (G := Http method url). set (w1 := after_request method url w).
  destruct (nth_reply w 0) as [r0|e].
  2:{ exists []. split; [reflexivity|]. apply prefix_nil. }
  destruct (status_code r0 =? 401)%Z.
  2:{ unfold mbind at 1, M_bind at 1, mret at 1, M_ret at 1.
      rewrite clinic_finish_world. exists []. split; [reflexivity|].
      apply prefix_nil. }
  unfold mbind at 1, M_bind at 1. unfold mbind at 1, M_bind at 1.
  destruct (authenticate_ephysio_world w1) as [Ht Hok].
  destruct (authenticate_ephysio w1) as [[a|e] w2] eqn:Ha; cbn [snd] in Ht.
  2:{ exists [login_request]. split.
      - cbn [snd]. rewrite Ht. subst w1. rewrite trace_after_request.
        rewrite <- app_assoc. reflexivity.
      - exists [G]. reflexivity. }
  unfold mbind at 1, M_bind at 1. rewrite get_ephysio_headers_eq.
  rewrite (Hok a w2 eq_refl). rewrite request_run.
  assert (trace (after_request method url w2)
          = (trace w ++ [G; login_request; G])%list) as Ht2.
  { rewrite trace_after_request, Ht. subst w1.
    rewrite trace_after_request, <- !app_assoc. reflexivity. }
  exists [login_request; G]. split; [|reflexivity].
  destruct (nth_reply w2 0) as [r1|e]; [|exact Ht2].
  rewrite clinic_finish_world. exact Ht2.
Qed.

Lemma clinic_call_traffic w :
  new_events (clinic_call method url decode) w
    `prefix_of` clinic_traffic method url w.
Proof.
  unfold clinic_traffic.
  destruct (get_ephysio_headers_world w) as [Ht Hok].
  set (hdr := if Py.is_None (head (ephysio_auth w))
              then [login_request] else []) in *.
  destruct (get_ephysio_headers w) as [[u|e] w0] eqn:Hh; cbn [snd] in Ht.
  - destruct (clinic_request_world w0 (Hok u w0 eq_refl)) as (l & Hl & Hp).
    rewrite (new_events_app _ w (hdr ++ Http method url :: l)%list).
    + apply prefix_app, prefix_cons. exact Hp.
    + unfold clinic_call, mbind at 1, M_bind at 1. rewrite Hh.
      cbv beta iota. rewrite Hl, Ht, <- app_assoc. reflexivity.
  - rewrite (new_events_app _ w hdr).
    + apply prefix_app_r. reflexivity.
    + unfold clinic_call, mbind at 1, M_bind at 1. rewrite Hh. exact Ht.
Qed.

(** With a stored credential the call starts with its request. *)
Lemma clinic_call_starts w :
  is_Some (head (ephysio_auth w)) ->
  exists l,
    trace (snd (clinic_call method url decode w))
    = (trace w ++ Http method url :: l)%list.
Proof.
  intros Hs. destruct (clinic_request_world w Hs) as (l & Hl & _).
  exists l. unfold clinic_call, mbind at 1, M_bind at 1.
  rewrite get_ephysio_headers_eq. destruct Hs as [a ->]. exact Hl.
Qed.
End ClinicCall.

(** X11. A call to the Clinic logs in at most once more than it has to:
    what [get_active_patients], [get_ephysio_appointments] and
    [create_patient] send is an initial part of: a login (only when no
    credential is stored), the request, a login, the request.  So a call
    makes at most four requests, and a 401 is answered by one login and one
    replay, never by a loop. *)
Theorem clinic_calls_traffic (w : World) (f t : Z) (payload : dict) :
  new_events get_active_patients w
    `prefix_of` clinic_traffic "GET" (BASE_URL ++ "/patients") w
  /\ new_events (get_ephysio_appointments f t) w
       `prefix_of` clinic_traffic "GET" (BASE_URL ++ "/events/events") w
  /\ new_events (create_patient payload) w
       `prefix_of` clinic_traffic "POST" (BASE_URL ++ "/patients/request") w
  /\ (length (new_events get_active_patients w) <= 4)%nat
  /\ (length (new_events (get_ephysio_appointments f t) w) <= 4)%nat
  /\ (length (new_events (create_patient payload) w) <= 4)%nat.
Proof.
  assert (forall method url,
            (length (clinic_traffic method url w) <= 4)%nat) as Hlen.
  { intros method url. unfold clinic_traffic.
    destruct (Py.is_None (head (ephysio_auth w))); cbn; lia. }
  assert (new_events get_active_patients w
            `prefix_of` clinic_traffic "GET" (BASE_URL ++ "/patients") w)
    as H1.
  { rewrite get_active_patients_shape. apply clinic_call_traffic.
    intros [] w0; reflexivity. }
  assert (new_events (get_ephysio_appointments f t) w
            `prefix_of` clinic_traffic "GET" (BASE_URL ++ "/events/events") w)
    as H2.
  { rewrite get_ephysio_appointments_shape. apply clinic_call_traffic.
    intros [] w0; reflexivity. }
  assert (new_events (create_patient payload) w
            `prefix_of`
            clinic_traffic "POST" (BASE_URL ++ "/patients/request") w) as H3.
  { rewrite create_patient_shape. apply clinic_call_traffic.
    intros [] w0; reflexivity. }
  repeat split; try assumption.
  - etransitivity; [apply prefix_length, H1|apply Hlen].
  - etransitivity; [apply prefix_length, H2|apply Hlen].
  - etransitivity; [apply prefix_length, H3|apply Hlen].
Qed.

(** X12. The patient fetch after a 401, from a store that holds a
    credential: when the login that follows succeeds, the new credential
    replaces the stored one, the request is replayed once, and the caller
    gets what the replay gives: the patients of a good reply, and
    [HTTPError 401] when the replay is refused again. *)
Theorem get_active_patients_after_401
    (w : World) (r0 r1 r2 : Response) (l : LoginData.t) :
  is_Some (head (ephysio_auth w)) ->
  nth_reply w 0 = Answer r0 -> status_code r0 = 401%Z ->
  nth_reply w 1 = Answer r1 -> status_ok r1 = true ->
  json r1 = Some (BLogin l) ->
  nth_reply w 2 = Answer r2 ->
  let w' := snd (get_active_patients w) in
  ephysio_auth w' = auth_of_login l :: tail (ephysio_auth w)
  /\ new_events get_active_patients w
     = [Http "GET" (BASE_URL ++ "/patients"); login_request;
        Http "GET" (BASE_URL ++ "/patients")]
  /\ (status_code r2 = 401%Z ->
      fst (get_active_patients w) = Raise (HTTPError 401))
  /\ (forall ps, status_ok r2 = true -> json r2 = Some (BPatients ps) ->
        fst (get_active_patients w) = Ok ps).
Proof.
  intros [a0 Hs] Hn0 H401 Hn1 Hok1 Hj1 Hn2. cbv zeta.
  set (G := Http "GET" (BASE_URL ++ "/patients")).
  set (w1 := after_request "GET" (BASE_URL ++ "/patients") w).
  set (w2 := set_ephysio_auth (auth_of_login l :: tail (ephysio_auth w1))
               (after_request "POST" (BASE_URL ++ "/token") w1)).
  set (w3 := after_request "GET" (BASE_URL ++ "/patients") w2).
  assert (get_active_patients w
          = (raise_for_status r2;;
             b ← response_json r2;
             match b with
             | BPatients l => mret l
             | _ => raise AttributeError
             end) w3) as Hrun.
  { unfold get_active_patients. unfold mbind at 1, M_bind at 1.
    rewrite get_ephysio_headers_eq, Hs.
    unfold mbind at 1, M_bind at 1. rewrite request_run, Hn0. fold w1.
    unfold mbind at 1, M_bind at 1. rewrite H401.
    change (401 =? 401)%Z with true. cbv iota.
    unfold mbind at 1, M_bind at 1.
    rewrite authenticate_ephysio_eq. cbv zeta.
    replace (nth_reply w1 0) with (Answer r1)
      by (subst w1; rewrite nth_reply_after_request; symmetry; exact Hn1).
    rewrite Hok1, Hj1. fold w2.
    unfold mbind at 1, M_bind at 1. rewrite get_ephysio_headers_eq.
    replace (head (ephysio_auth w2)) with (Some (auth_of_login l))
      by reflexivity.
    rewrite request_run.
    replace (nth_reply w2 0) with (Answer r2).
    - reflexivity.
    - subst w2 w1. unfold nth_reply in *. cbn [network set_ephysio_auth
        after_request set_network log].
      rewrite <- Hn2. destruct (network w) as [|? [|? ?]]; reflexivity. }
  assert (forall r : Response,
            snd ((raise_for_status r;;
                  b ← response_json r;
                  match b with
                  | BPatients l => mret l
                  | _ => raise AttributeError
                  end) w3) = w3) as Hfin.
  { intros r. apply clinic_finish_world. intros [] w0; reflexivity. }
  split; [|split; [|split]].
  - rewrite Hrun, Hfin. reflexivity.
  - apply new_events_app. rewrite Hrun, Hfin. subst w3 w2 w1.
    cbn [trace after_request set_network set_ephysio_auth log].
    rewrite <- !app_assoc. reflexivity.
  - intros Hst. rewrite Hrun. unfold mbind, M_bind, raise_for_status.
    rewrite Hst. reflexivity.
  - intros ps Hok2 Hj2. rewrite Hrun.
    unfold mbind, M_bind, raise_for_status, response_json.
    unfold status_ok in Hok2. apply negb_true_iff in Hok2.
    rewrite Hok2, Hj2. reflexivity.
Qed.

Lemma get_active_patients_after_401_witness :
  fst (get_active_patients Sample.world_token_expired)
  = Ok [Sample.patient_42; Sample.patient_44].
Proof.
  apply (get_active_patients_after_401 Sample.world_token_expired
           (mkResponse 401 "Unauthorized" None)
           (mkResponse 200 ""
              (Some (BLogin (LoginData.mk "token-1" "key-1" "practice-1"
                               None))))
           (mkResponse 200 ""
              (Some (BPatients [Sample.patient_42; Sample.patient_44])))
           (LoginData.mk "token-1" "key-1" "practice-1" None));
    try reflexivity.
  eexists. reflexivity.
Defined.

(** ** The periodic tasks *)

(** X13. The edge case of an empty fetch: when the Clinic returns no
    patient (no appointment), the task stops right after the fetch with a
    success result whose counts are zero; the store and the trace are what
    the fetch left, so nothing is written and the CRM is not contacted. *)
Theorem empty_fetch_ends_the_cycle (w w' : World) :
  (get_active_patients w = (Ok [], w') ->
   sync_patients_incremental w
   = (Ok (TaskResult.mk "success" "No patients found" None
            (Some 0%nat) (Some 0%nat) (Some 0%nat)), w'))
  /\ (get_ephysio_appointments DEFAULT_FROM_TIMESTAMP DEFAULT_TO_TIMESTAMP w
      = (Ok [], w') ->
      sync_appointments_incremental w
      = (Ok (TaskResult.mk "success" "No appointments found" None
               (Some 0%nat) (Some 0%nat) (Some 0%nat)), w')).
Proof.
  split; intros H.
  - unfold sync_patients_incremental, try_except, mbind, M_bind.
    rewrite H. reflexivity.
  - unfold sync_appointments_incremental, try_except, mbind, M_bind.
    rewrite H. reflexivity.
Qed.

Lemma empty_fetch_ends_the_cycle_witness :
  fst (sync_patients_incremental Sample.world_no_patients)
  = Ok (TaskResult.mk "success" "No patients found" None
          (Some 0%nat) (Some 0%nat) (Some 0%nat))
  /\ contact_sync (snd (sync_patients_incremental Sample.world_no_patients))
     = [Sample.contact_42].
Proof.
  rewrite (proj1 (empty_fetch_ends_the_cycle Sample.world_no_patients
                    (snd (get_active_patients Sample.world_no_patients))));
    [split; reflexivity|].
  vm_compute. reflexivity.
Defined.

(** X14. What the two periodic tasks never write.  Neither task touches
    the CRM credentials; the appointment task leaves the contact table as it
    is; the patient task keeps every contact row at its primary key with its
    Clinic patient id, and the appointment task keeps every appointment row
    at its primary key with its Clinic appointment id: no row is deleted or
    re-keyed. *)
Theorem sync_tasks_frame (w : World) :
  let wp := snd (sync_patients_incremental w) in
  let wa := snd (sync_appointments_incremental w) in
  ghl_auth wp = ghl_auth w
  /\ ghl_auth wa = ghl_auth w
  /\ contact_sync wa = contact_sync w
  /\ (forall i r, contact_sync w !! i = Some r ->
        exists r', contact_sync wp !! i = Some r'
          /\ ContactSync.ephysio_patient_id r'
             = ContactSync.ephysio_patient_id r)
  /\ (forall i r, appointment_sync w !! i = Some r ->
        exists r', appointment_sync wa !! i = Some r'
          /\ AppointmentSync.ephysio_appointment_id r'
             = AppointmentSync.ephysio_appointment_id r).
Proof.
  intros wp wa.
  assert (lift (keeps (same_on ContactSync.ephysio_patient_id)) eq eq any
            w wp) as (Hc & _ & Hg & _).
  { apply lift_sync_patients_incremental; try typeclasses eauto;
      try (intros; exact I).
    - intros t k v. apply keeps_update; [typeclasses eauto|]. reflexivity.
    - intros w1 patients plan.
      apply keeps_fold_update; [typeclasses eauto|]. reflexivity.
    - intros w1 patients t. apply keeps_create. typeclasses eauto. }
  assert (lift eq (keeps (same_on AppointmentSync.ephysio_appointment_id))
            eq any w wa) as (Hc' & Ha' & Hg' & _).
  { apply lift_sync_appointments_incremental; try typeclasses eauto;
      try (intros; exact I).
    - intros t k v. apply keeps_update; [typeclasses eauto|]. reflexivity.
    - intros w1 appointments plan.
      apply keeps_fold_update; [typeclasses eauto|]. reflexivity.
    - intros w1 appointments t. apply keeps_create. typeclasses eauto. }
  split; [symmetry; exact Hg|]. split; [symmetry; exact Hg'|].
  split; [symmetry; exact Hc'|]. split.
  - intros i r Hr. destruct (Hc i r Hr) as (r' & Hr' & Hs).
    exists r'. split; [exact Hr'|exact Hs].
  - intros i r Hr. destruct (Ha' i r Hr) as (r' & Hr' & Hs).
    exists r'. split; [exact Hr'|exact Hs].
Qed.

Lemma sync_tasks_frame_witness :
  exists r',
    contact_sync (snd (sync_patients_incremental Sample.world_patients))
      !! 0%nat = Some r'
    /\ ContactSync.ephysio_patient_id r'
       = ContactSync.ephysio_patient_id Sample.contact_from_ghl.
Proof.
  apply (proj1 (proj2 (proj2 (proj2
           (sync_tasks_frame Sample.world_patients))))).
  reflexivity.
Defined.








(** ** The contact webhook *)

Lemma contact_by_ghl_id_Some v t o :
  contact_by_ghl_id v t = Some o ->
  exists i, pk o = Some (S i) /\ t !! i = Some (row o)
            /\ same_some (ContactSync.ghl_contact_id (row o)) v = true.
Proof.
  unfold contact_by_ghl_id. intros Hh.
  assert (In o (List.filter
                  (fun o : Instance ContactSync.t =>
                     same_some (ContactSync.ghl_contact_id (row o)) v)
                  (objects_all t))) as Hin.
  { destruct (List.filter _ (objects_all t)) as [|x l]; [discriminate Hh|].
    injection Hh as ->. left. reflexivity. }
  apply filter_In in Hin. destruct Hin as [Hin Hs].
  apply list_elem_of_In in Hin. unfold objects_all in Hin.
  apply elem_of_lookup_imap in Hin. destruct Hin as (i & r & -> & Hr).
  exists i. split; [reflexivity|]. split; [exact Hr|exact Hs].
Qed.

Lemma unique_contacts_row t i r :
  unique_contacts t = true -> t !! i = Some r ->
  contact_conflicts_except (S i) t r = false.
Proof.
  unfold unique_contacts. intros Hu Hr. rewrite forallb_forall in Hu.
  specialize (Hu _ (objects_all_elem t i r Hr)).
  apply negb_true_iff in Hu. exact Hu.
Qed.

Lemma handle_contact_event_known_run data w i r0 :
  Py.truthy (GhlContact.id data) = true ->
  unique_contacts (contact_sync w) = true ->
  contact_by_ghl_id (GhlContact.id data) (contact_sync w)
  = Some (mkInstance (Some (S i)) r0) ->
  let r1 := with_email_phone (GhlContact.email data) (GhlContact.phone data)
              r0 in
  handle_contact_event data w
  = (sync_ghl_contact_to_ephysio data (mkInstance (Some (S i)) r1);;
     mret (200%Z, "contact synced"))
      (set_contact_sync (alter (fun _ => r1) i (contact_sync w)) w).
Proof.
  intros Hid Hu Hfound r1.
  destruct (contact_by_ghl_id_Some _ _ _ Hfound) as (i' & Hpk & Hr & _).
  cbn [pk row] in Hpk, Hr. injection Hpk as <-.
  pose proof (unique_contacts_row _ _ _ Hu Hr) as Hfree.
  unfold handle_contact_event. rewrite Hid. cbn [negb].
  unfold mbind at 1, M_bind at 1, get_world. rewrite Hfound.
  cbn [pk row]. fold r1.
  unfold mbind at 1, M_bind at 1. unfold mbind at 1, M_bind at 1.
  unfold save_contact. cbn [pk row].
  unfold mbind at 1, M_bind at 1, get_world.
  replace (contact_conflicts_except (S i) (contact_sync w) r1)
    with (contact_conflicts_except (S i) (contact_sync w) r0)
    by reflexivity.
  rewrite Hfree. reflexivity.
Qed.

(** X16. A contact event for a contact the store knows (a row holds its
    CRM id; the table respects its two unique columns): the row's email and
    phone are overwritten with the event's values, also when the event
    carries none; its CRM id, provenance and names stay (the event's names
    are not stored); every other row is left as it is and no row is added,
    whatever the Clinic answers afterwards. *)
Theorem contact_event_updates_known_row
    (w : World) (data : GhlContact.t) (i : nat) (r0 : ContactSync.t) :
  Py.truthy (GhlContact.id data) = true ->
  unique_contacts (contact_sync w) = true ->
  contact_by_ghl_id (GhlContact.id data) (contact_sync w)
  = Some (mkInstance (Some (S i)) r0) ->
  let w' := snd (handle_contact_event data w) in
  length (contact_sync w') = length (contact_sync w)
  /\ (forall j r, j <> i -> contact_sync w !! j = Some r ->
        contact_sync w' !! j = Some r)
  /\ exists r',
       contact_sync w' !! i = Some r'
       /\ ContactSync.email r' = GhlContact.email data
       /\ ContactSync.phone r' = GhlContact.phone data
       /\ ContactSync.ghl_contact_id r' = ContactSync.ghl_contact_id r0
       /\ ContactSync.source r' = ContactSync.source r0
       /\ ContactSync.first_name r' = ContactSync.first_name r0
       /\ ContactSync.last_name r' = ContactSync.last_name r0.
Proof.
  intros Hid Hu Hfound w'. subst w'.
  destruct (contact_by_ghl_id_Some _ _ _ Hfound) as (i' & Hpk & Hr & _).
  cbn [pk row] in Hpk, Hr. injection Hpk as <-.
  rewrite (handle_contact_event_known_run data w i r0 Hid Hu Hfound).
  cbv zeta.
  set (r1 := with_email_phone (GhlContact.email data) (GhlContact.phone data)
               r0).
  set (w1 := set_contact_sync (alter (fun _ => r1) i (contact_sync w)) w).
  assert (lift (only_row_relinked i r1) any any any w1
            (snd ((sync_ghl_contact_to_ephysio data
                     (mkInstance (Some (S i)) r1);;
                   mret (200%Z, "contact synced")) w1))) as (Hc & _).
  { apply preserves_bind; [typeclasses eauto| |].
    - apply lift_sync_ghl_contact_to_ephysio with (k := S i);
        try typeclasses eauto; try (intros; exact I); [reflexivity|].
      intros t v. right. exists v. reflexivity.
    - intros s. apply preserves_mret. typeclasses eauto. }
  assert (forall c',
            ContactSync.email c' = GhlContact.email data ->
            ContactSync.phone c' = GhlContact.phone data ->
            ContactSync.ghl_contact_id c' = ContactSync.ghl_contact_id r0 ->
            ContactSync.source c' = ContactSync.source r0 ->
            ContactSync.first_name c' = ContactSync.first_name r0 ->
            ContactSync.last_name c' = ContactSync.last_name r0 ->
            let t' := alter (fun _ => c') i (contact_sync w) in
            length t' = length (contact_sync w)
            /\ (forall j r, j <> i -> contact_sync w !! j = Some r ->
                  t' !! j = Some r)
            /\ exists r',
                 t' !! i = Some r'
                 /\ ContactSync.email r' = GhlContact.email data
                 /\ ContactSync.phone r' = GhlContact.phone data
                 /\ ContactSync.ghl_contact_id r'
                    = ContactSync.ghl_contact_id r0
                 /\ ContactSync.source r' = ContactSync.source r0
                 /\ ContactSync.first_name r' = ContactSync.first_name r0
                 /\ ContactSync.last_name r' = ContactSync.last_name r0)
    as Hshape.
  { intros c' H1 H2 H3 H4 H5 H6 t'. subst t'. split; [|split].
    - apply length_alter.
    - intros j r Hj Hjr. rewrite list_lookup_alter_ne by congruence.
      exact Hjr.
    - exists c'. split; [rewrite list_lookup_alter_eq, Hr; reflexivity|].
      repeat split; assumption. }
  destruct Hc as [Hc|(v & Hc)]; rewrite Hc; subst w1;
    cbn [contact_sync set_contact_sync].
  - apply Hshape; reflexivity.
  - rewrite alter_const_twice. apply Hshape; reflexivity.
Qed.

Lemma contact_event_updates_known_row_witness :
  exists r',
    contact_sync
      (snd (handle_contact_event Sample.contact_update_event
              Sample.world_webhook_known)) !! 0%nat = Some r'
    /\ ContactSync.email r' = Some "anna.muster@example.org"
    /\ ContactSync.phone r' = None.
Proof.
  destruct (contact_event_updates_known_row Sample.world_webhook_known
              Sample.contact_update_event 0 Sample.contact_from_ghl)
    as (_ & _ & r' & Hr' & He & Hp & _); try reflexivity.
  exists r'. split; [exact Hr'|]. split; [exact He|exact Hp].
Defined.

Lemma first_with_phone_Some target patients p :
  first_with_phone target patients = Some p ->
  p ∈ patients /\ normalize_phone (Patient.phone p) = target.
Proof.
  induction patients as [|x l IH]; cbn [first_with_phone]; [discriminate|].
  destruct (bool_decide_reflect (normalize_phone (Patient.phone x) = target))
    as [He|_].
  - intros [= <-]. split; [left|exact He].
  - intros H. destruct (IH H) as [Hin Hn]. split; [right; exact Hin|exact Hn].
Qed.

Lemma save_contact_trace o w : trace (snd (save_contact o w)) = trace w.
Proof.
  unfold save_contact. destruct (pk o) as [k|].
  - unfold mbind, M_bind, get_world.
    destruct (contact_conflicts_except k (contact_sync w) (row o));
      reflexivity.
  - unfold create_contact, mbind, M_bind, get_world.
    destruct (contact_conflicts (contact_sync w) (row o)); reflexivity.
Qed.

Lemma find_patient_by_phone_run phone w patients w1 :
  Py.truthy phone = true ->
  get_active_patients w = (Ok patients, w1) ->
  find_patient_by_phone phone w
  = (Ok (first_with_phone (normalize_phone phone) patients), w1).
Proof.
  intros Ht Hf. unfold find_patient_by_phone. rewrite Ht. cbn [negb].
  unfold mbind, M_bind. rewrite Hf. reflexivity.
Qed.

(** X17. A CRM contact whose phone, once normalized, equals the normalized
    phone of an active Clinic patient is linked to that patient (the first
    such one) instead of being created again: beyond the patient fetch no
    request is sent, in particular no patient-create request; and when the
    link respects the unique columns, the row gets the patient's id and the
    call returns ["updated"]. *)
Theorem ghl_contact_links_existing_patient
    (w w1 : World) (data : GhlContact.t) (o : Instance ContactSync.t)
    (patients : list Patient.t) (p : Patient.t) :
  Py.truthy (GhlContact.phone data) = true ->
  get_active_patients w = (Ok patients, w1) ->
  first_with_phone (normalize_phone (GhlContact.phone data)) patients
  = Some p ->
  let r' := ContactSync.set_ephysio_patient_id (char_of_id (Patient.id p))
              (row o) in
  p ∈ patients
  /\ normalize_phone (Patient.phone p)
     = normalize_phone (GhlContact.phone data)
  /\ trace (snd (sync_ghl_contact_to_ephysio data o w)) = trace w1
  /\ (forall k, pk o = Some k ->
        contact_conflicts_except k (contact_sync w1) r' = false ->
        sync_ghl_contact_to_ephysio data o w
        = (Ok "updated",
           set_contact_sync
             (table_update k (fun _ => r') (contact_sync w1)) w1)).
Proof.
  intros Ht Hf Hp r'. destruct (first_with_phone_Some _ _ _ Hp) as [Hin Hn].
  assert (sync_ghl_contact_to_ephysio data o w
          = (save_contact (mkInstance (pk o) r');; mret "updated") w1)
    as Hrun.
  { unfold sync_ghl_contact_to_ephysio. unfold mbind at 1, M_bind at 1.
    rewrite (find_patient_by_phone_run _ w patients w1 Ht Hf), Hp.
    reflexivity. }
  split; [exact Hin|]. split; [exact Hn|]. split.
  - rewrite Hrun. unfold mbind, M_bind.
    pose proof (save_contact_trace (mkInstance (pk o) r') w1) as Hs.
    destruct (save_contact (mkInstance (pk o) r') w1) as [[u|e] w2];
      exact Hs.
  - intros k Hk Hfree. rewrite Hrun.
    unfold mbind, M_bind, save_contact. cbn [pk row]. rewrite Hk.
    unfold mbind, M_bind, get_world. rewrite Hfree. reflexivity.
Qed.

Lemma ghl_contact_links_existing_patient_witness :
  sync_ghl_contact_to_ephysio Sample.contact_create_event
    (mkInstance (Some 2%nat) (contact_from_event Sample.contact_create_event))
    Sample.world_webhook_new_patient
  = (Ok "updated",
     set_contact_sync
       [Sample.contact_43;
        ContactSync.set_ephysio_patient_id (Some "42")
          (contact_from_event Sample.contact_create_event)]
       (snd (get_active_patients Sample.world_webhook_new_patient))).
Proof.
  apply (proj2 (proj2 (proj2
           (ghl_contact_links_existing_patient
              Sample.world_webhook_new_patient
              (snd (get_active_patients Sample.world_webhook_new_patient))
              Sample.contact_create_event
              (mkInstance (Some 2%nat)
                 (contact_from_event Sample.contact_create_event))
              [Sample.patient_42; Sample.patient_44] Sample.patient_42
              eq_refl eq_refl eq_refl))) 2%nat); reflexivity.
Defined.

(** X18. A contact event whose phone is missing, or matches no active
    Clinic patient, asks the Clinic to create a patient: the first request
    after the lookup is the patient-create request.  This holds whatever the
    row already carries, so also for a contact that is already linked to a
    Clinic patient. *)
Theorem ghl_contact_without_match_creates_patient
    (w w1 : World) (data : GhlContact.t) (o : Instance ContactSync.t)
    (patients : list Patient.t) :
  (Py.truthy (GhlContact.phone data) = false /\ w1 = w)
  \/ (Py.truthy (GhlContact.phone data) = true
      /\ get_active_patients w = (Ok patients, w1)
      /\ first_with_phone (normalize_phone (GhlContact.phone data)) patients
         = None) ->
  is_Some (head (ephysio_auth w1)) ->
  exists l,
    trace (snd (sync_ghl_contact_to_ephysio data o w))
    = (trace w1 ++ Http "POST" (BASE_URL ++ "/patients/request") :: l)%list.
Proof.
  intros Hcase Hs.
  assert (sync_ghl_contact_to_ephysio data o w
          = (result ← create_patient (build_patient_payload_from_ghl data);
             save_contact
               (mkInstance (pk o)
                  (ContactSync.set_ephysio_patient_id
                     (char_of_json (dict_get "id" result)) (row o)));;
             mret "created") w1) as Hrun.
  { unfold sync_ghl_contact_to_ephysio. unfold mbind at 1, M_bind at 1.
    destruct Hcase as [[Ht ->]|(Ht & Hf & Hp)].
    - unfold find_patient_by_phone. rewrite Ht. reflexivity.
    - rewrite (find_patient_by_phone_run _ w patients w1 Ht Hf), Hp.
      reflexivity. }
  rewrite Hrun. rewrite create_patient_shape.
  destruct (clinic_call_starts "POST" (BASE_URL ++ "/patients/request")
              (fun b => match b with
                        | BDict d => mret d
                        | _ => raise AttributeError
                        end) (fun b w0 => ltac:(destruct b; reflexivity))
              w1 Hs) as (l & Hl).
  exists l. unfold mbind at 1, M_bind at 1.
  destruct (clinic_call _ _ _ w1) as [[result|e] w2]; cbn [snd] in Hl |- *;
    [|exact Hl].
  unfold mbind, M_bind.
  pose proof (save_contact_trace
                (mkInstance (pk o)
                   (ContactSync.set_ephysio_patient_id
                      (char_of_json (dict_get "id" result)) (row o))) w2)
    as Hsave.
  destruct (save_contact _ w2) as [[u|e] w3]; cbn [snd] in Hsave |- *;
    unfold mret, M_ret; cbn [snd]; rewrite Hsave; exact Hl.
Qed.

Lemma ghl_contact_without_match_creates_patient_witness :
  exists l,
    trace (snd (sync_ghl_contact_to_ephysio Sample.contact_update_event
                  (mkInstance (Some 1%nat) Sample.contact_from_ghl)
                  Sample.world_webhook_known))
    = ([] ++ Http "POST" (BASE_URL ++ "/patients/request") :: l)%list.
Proof.
  apply (ghl_contact_without_match_creates_patient
           Sample.world_webhook_known Sample.world_webhook_known
           Sample.contact_update_event
           (mkInstance (Some 1%nat) Sample.contact_from_ghl) []).
  - left. split; reflexivity.
  - eexists. reflexivity.
Defined.

(** ** The rate limiter: what it does guarantee *)










(** X20. The contact webhook is not atomic: when the Clinic lookup that
    follows the local write fails, the handler raises that exception (the
    view answers with a server error), and the row it inserted for the new
    contact stays in the table. *)
Theorem contact_event_clinic_failure_keeps_row
    (w w2 : World) (data : GhlContact.t) (e : exn) :
  Py.truthy (GhlContact.id data) = true ->
  Py.truthy (GhlContact.phone data) = true ->
  contact_by_ghl_id (GhlContact.id data) (contact_sync w) = None ->
  get_active_patients
    (set_contact_sync (contact_sync w ++ [contact_from_event data])%list w)
  = (Raise e, w2) ->
  handle_contact_event data w = (Raise e, w2)
  /\ contact_sync w2 = (contact_sync w ++ [contact_from_event data])%list.
Proof.
  intros Hid Hphone Hnone Hfetch.
  rewrite (handle_contact_event_run data w Hid Hnone).
  set (w1 := set_contact_sync _ w) in *.
  split.
  - unfold mbind at 1, M_bind at 1, sync_ghl_contact_to_ephysio.
    unfold mbind at 1, M_bind at 1, find_patient_by_phone.
    rewrite Hphone. cbn [negb]. unfold mbind at 1, M_bind at 1.
    rewrite Hfetch. reflexivity.
  - assert (lift eq any any any w1 (snd (get_active_patients w1)))
      as (Hc & _).
    { apply lift_get_active_patients; try typeclasses eauto;
        intros; exact I. }
    rewrite Hfetch in Hc. cbn [snd] in Hc. rewrite <- Hc. reflexivity.
Qed.

Lemma contact_event_clinic_failure_keeps_row_witness :
  handle_contact_event Sample.contact_create_event Sample.world_clinic_down
  = (Raise (HTTPError 503),
     snd (get_active_patients
            (set_contact_sync
               [Sample.unlinked_contact_42;
                contact_from_event Sample.contact_create_event]
               Sample.world_clinic_down))).
Proof.
  apply (contact_event_clinic_failure_keeps_row Sample.world_clinic_down
           (snd (get_active_patients
                   (set_contact_sync
                      [Sample.unlinked_contact_42;
                       contact_from_event Sample.contact_create_event]
                      Sample.world_clinic_down)))
           Sample.contact_create_event (HTTPError 503)); reflexivity.
Defined.

(** ** The counts a cycle reports *)







